(** * Prime Academy front end: schedule editor, attendance modal, reports

    A shallow embedding of the client-side bookkeeping of the front end:
    - [Js]: the JavaScript values and coercions the components rely on
      (truthiness, [split], [Number], property access on parsed JSON);
    - [Attendance]: [src/components/AttendanceModal.tsx];
    - [ScheduleEditor]: the schedule step of [src/pages/BatchCreation.tsx];
    - [Reports]: [fetchReport] and [renderContent] of [src/pages/Reports.tsx];
    - [BatchesList]: the schedule readers of [src/pages/BatchesList.tsx];
    - [JsonText]: an executable JSON printer and parser, standing for the
      platform's [JSON.stringify] and [JSON.parse] where a reader is run.
    - [AttendanceSession]: series of clicks on the rows of the modal;
    - [ScheduleForm]: the day boxes and the time inputs of the editor;
    - [BatchWizard]: the steps of [src/pages/BatchCreation.tsx] and the
      calls [handleNext] makes;
    - [ReportPage]: the state of [src/pages/Reports.tsx], its selection,
      filters and [handleGenerateReport];
    - [BatchPage]: the tabs, the edit form and the details of
      [src/pages/BatchesList.tsx].

    React state is passed explicitly; a call handed to a mutation
    ([markAttendanceMutation.mutate]) is appended to a log of issued calls. *)

From stdpp Require Import gmap strings list pretty.
From Stdlib Require Import ZArith Lia Ascii.

Set Warnings "-register-all".

Open Scope string_scope.
Open Scope Z_scope.

(** ** JavaScript values *)

Module Js.

(** [!!s] for a string: only the empty string is falsy. *)
Definition truthy_string (s : string) : bool :=
  if decide (s = "") then false else true.

(** The numbers the editor computes with.  [Int z] is the integer [z];
    [NaN] is the result of [Number] on a string that is not a number and
    of arithmetic on [undefined].  Fractions and infinities do not occur:
    every number in the modelled code comes from [Number] on a piece of
    an [<input type="time">] value, from [parseInt(..) || 0], or from
    [+], [-], [*] and [Math.max] on such numbers. *)
Inductive number : Type :=
  | Int (z : Z)
  | NaN.

#[global] Instance number_eq_dec : EqDecision number.
Proof. solve_decision. Defined.

Definition num_mul (a b : number) : number :=
  match a, b with
  | Int x, Int y => Int (x * y)
  | _, _ => NaN
  end.

Definition num_add (a b : number) : number :=
  match a, b with
  | Int x, Int y => Int (x + y)
  | _, _ => NaN
  end.

Definition num_sub (a b : number) : number :=
  match a, b with
  | Int x, Int y => Int (x - y)
  | _, _ => NaN
  end.

(** [Math.max(a, b)]: [NaN] as soon as one argument is [NaN]. *)
Definition Math_max (a b : number) : number :=
  match a, b with
  | Int x, Int y => Int (Z.max x y)
  | _, _ => NaN
  end.

(** [s.split(':')]: the pieces between the colons; a string without a
    colon (the empty one too) gives one piece. *)
Fixpoint split_colon (s : string) : list string :=
  match s with
  | EmptyString => [""]
  | String c rest =>
      if decide (c = ":"%char) then "" :: split_colon rest
      else match split_colon rest with
           | piece :: pieces => String c piece :: pieces
           | [] => [String c ""]
           end
  end.

Definition digit_value (c : Ascii.ascii) : option Z :=
  let n := Z.of_nat (Ascii.nat_of_ascii c) in
  if ((48 <=? n) && (n <=? 57))%Z then Some (n - 48) else None.

Fixpoint digits_value (acc : Z) (s : string) : number :=
  match s with
  | EmptyString => Int acc
  | String c rest =>
      match digit_value c with
      | Some d => digits_value (10 * acc + d) rest
      | None => NaN
      end
  end.

(** [Number(s)] on the strings the editor feeds it: a run of decimal
    digits is its value (leading zeros allowed), the empty string is [0].
    Any other string is sent to [NaN]; that is what [Number] does with
    letters and stray punctuation, while signs, fractions, exponents,
    radix prefixes and surrounding blanks are outside the model (a time
    input never produces them). *)
Definition Number (s : string) : number := digits_value 0 s.

(** [xs[i]] followed by arithmetic: a missing element is [undefined],
    which arithmetic turns into [NaN]. *)
Definition nth_number (xs : list number) (i : nat) : number :=
  match xs !! i with
  | Some n => n
  | None => NaN
  end.

(** Values produced by [JSON.parse] (and by the HTTP client, which parses
    response bodies the same way).  Numbers are restricted to integers.
    An object is the list of its own properties in insertion order; the
    names in it are distinct, and [assoc] reads the first entry of a
    name. *)
Inductive Json : Type :=
  | JNull
  | JBool (b : bool)
  | JNum (z : Z)
  | JStr (s : string)
  | JArr (items : list Json)
  | JObj (props : list (string * Json)).

Fixpoint assoc (k : string) (props : list (string * Json)) : option Json :=
  match props with
  | [] => None
  | (k', v) :: rest => if decide (k = k') then Some v else assoc k rest
  end.

(** [v.k] for a data property name [k] ([None] is [undefined]).  Only
    objects carry such properties; the names looked up by the modelled
    code ([timeSlots], [days], [payments], ...) are never built-in
    properties of arrays, strings or numbers.  Reading a property of
    [null] throws; callers guard against it and the model returns
    [None] there. *)
Definition get (v : Json) (k : string) : option Json :=
  match v with
  | JObj props => assoc k props
  | _ => None
  end.

(** [!!v] *)
Definition truthy (v : Json) : bool :=
  match v with
  | JNull => false
  | JBool b => b
  | JNum z => negb (z =? 0)%Z
  | JStr s => truthy_string s
  | JArr _ => true
  | JObj _ => true
  end.

(** [!!x] for a possibly [undefined] value. *)
Definition truthy_opt (v : option Json) : bool :=
  match v with
  | Some x => truthy x
  | None => false
  end.

Definition isArray (v : option Json) : bool :=
  match v with
  | Some (JArr _) => true
  | _ => false
  end.

End Js.

(** ** Attendance modal *)

Module Attendance.

(** Modelled from the spec: the enum [AttendanceStatus] is declared in
    [src/api/attendance.api], which is not among the sources.  The spec
    gives its three members; [Reports.tsx] compares attendance statuses
    with the strings ['present'] and ['manual_present'], so the members
    are string-valued. *)
Inductive AttendanceStatus : Type :=
  | PRESENT
  | MANUAL_PRESENT
  | ABSENT.

#[global] Instance AttendanceStatus_eq_dec : EqDecision AttendanceStatus.
Proof. solve_decision. Defined.

(** The run-time value of a member.  Those of [PRESENT] and
    [MANUAL_PRESENT] are the strings [Reports.tsx] tests for; that of
    [ABSENT] follows their pattern.  The modal depends on one thing only:
    no member is the empty string. *)
Definition status_value (s : AttendanceStatus) : string :=
  match s with
  | PRESENT => "present"
  | MANUAL_PRESENT => "manual_present"
  | ABSENT => "absent"
  end.

(** One element of [attendancesData.data]. *)
Record AttendanceRecord : Type := mkAttendance {
  att_studentId : Z;
  att_status : AttendanceStatus
}.

(** One element of [enrollmentsData.data]. *)
Record Enrollment : Type := mkEnrollment {
  enr_id : Z;
  enr_studentId : Z
}.

(** The argument of [markAttendanceMutation.mutate]. *)
Record MarkCall : Type := mkCall {
  call_studentId : Z;
  call_status : AttendanceStatus;
  call_isManual : bool
}.

#[global] Instance MarkCall_eq_dec : EqDecision MarkCall.
Proof. solve_decision. Defined.

(** [!!initial[id]] and the left operand of [studentAttendances[id] || ..]:
    a missing key is [undefined], a stored status is truthy when its
    string value is. *)
Definition truthy_entry (e : option AttendanceStatus) : bool :=
  match e with
  | Some s => Js.truthy_string (status_value s)
  | None => false
  end.

(** The body of the [useEffect] that initialises [studentAttendances].
    [attendances] is [attendancesData?.data] and [enrollments] is
    [enrollmentsData?.data]: [None] while the query has no data, [Some l]
    once it has (an array is truthy even when empty).  [prev] is the
    state before the effect runs; it is kept when neither branch is
    taken. *)
Definition initAttendances
    (attendances : option (list AttendanceRecord))
    (enrollments : option (list Enrollment))
    (prev : gmap Z AttendanceStatus) : gmap Z AttendanceStatus :=
  match attendances with
  | Some atts =>
      foldl (λ initial att, <[att_studentId att := att_status att]> initial)
            ∅ atts
  | None =>
      match enrollments with
      | Some enrs =>
          foldl (λ initial enrollment,
                   if truthy_entry (initial !! enr_studentId enrollment)
                   then initial
                   else <[enr_studentId enrollment := ABSENT]> initial)
                ∅ enrs
      | None => prev
      end
  end.

(** Component state: the status map and the log of calls handed to
    [markAttendanceMutation.mutate], oldest first. *)
Record State : Type := mkState {
  studentAttendances : gmap Z AttendanceStatus;
  issued : list MarkCall
}.

Definition handleAttendanceChange
    (studentId : Z) (status : AttendanceStatus) (isManual : bool)
    (st : State) : State :=
  {| studentAttendances := <[studentId := status]> (studentAttendances st);
     issued := issued st ++ [mkCall studentId status isManual] |}.

(** [studentAttendances[id] || AttendanceStatus.ABSENT] *)
Definition status_or_absent
    (m : gmap Z AttendanceStatus) (studentId : Z) : AttendanceStatus :=
  match m !! studentId with
  | Some s => if truthy_entry (Some s) then s else ABSENT
  | None => ABSENT
  end.

(** The calls [handleBulkSave] hands to the mutation, in order. *)
Definition bulkSaveCalls
    (enrollments : option (list Enrollment))
    (m : gmap Z AttendanceStatus) : list MarkCall :=
  match enrollments with
  | None => []
  | Some enrs =>
      map (λ enrollment,
             mkCall (enr_studentId enrollment)
                    (status_or_absent m (enr_studentId enrollment))
                    false)
          enrs
  end.

Definition handleBulkSave
    (enrollments : option (list Enrollment)) (st : State) : State :=
  {| studentAttendances := studentAttendances st;
     issued := issued st ++ bulkSaveCalls enrollments (studentAttendances st) |}.

(** What the operator can do in the modal: the three buttons of a
    student's row and the footer button. *)
Inductive Click : Type :=
  | ClickPresent (studentId : Z)
  | ClickManual (studentId : Z)
  | ClickAbsent (studentId : Z)
  | ClickSaveAll.

Definition onClick
    (enrollments : option (list Enrollment)) (c : Click) (st : State) : State :=
  match c with
  | ClickPresent sid => handleAttendanceChange sid PRESENT false st
  | ClickManual sid => handleAttendanceChange sid MANUAL_PRESENT true st
  | ClickAbsent sid => handleAttendanceChange sid ABSENT false st
  | ClickSaveAll => handleBulkSave enrollments st
  end.

(** The convention on the flag of a call. *)
Definition manual_flag_ok (c : MarkCall) : bool :=
  bool_decide (call_isManual c = bool_decide (call_status c = MANUAL_PRESENT)).

End Attendance.

(** ** Schedule step of the batch creation form *)

Module ScheduleEditor.

Import Js.

Record TimeSlot : Type := mkTimeSlot {
  id : string;
  startTime : string;
  endTime : string;
  durationMinutes : number
}.

#[global] Instance TimeSlot_eq_dec : EqDecision TimeSlot.
Proof. solve_decision. Defined.

Record Schedule : Type := mkSchedule {
  days : list string;
  timeSlots : list TimeSlot
}.

(** [BatchFormData].  [mode] is [BatchMode | ''], a string at run time;
    [maxCapacity] is kept an integer. *)
Record BatchFormData : Type := mkForm {
  title : string;
  software : string;
  mode : string;
  startDate : string;
  endDate : string;
  maxCapacity : Z;
  schedule : Schedule
}.

(** The slot appended by the "+ Add Time Slot" button; [fresh] stands for
    the [slot-${Date.now()}-${Math.random()}] token. *)
Definition newSlot (fresh : string) : TimeSlot :=
  {| id := fresh; startTime := ""; endTime := ""; durationMinutes := Int 0 |}.

Definition calculateDuration (start end_ : string) : number :=
  if negb (truthy_string start) || negb (truthy_string end_) then Int 0
  else
    let starts := map Number (split_colon start) in
    let ends := map Number (split_colon end_) in
    let startHours := nth_number starts 0 in
    let startMinutes := nth_number starts 1 in
    let endHours := nth_number ends 0 in
    let endMinutes := nth_number ends 1 in
    let startTotal := num_add (num_mul startHours (Int 60)) startMinutes in
    let endTotal := num_add (num_mul endHours (Int 60)) endMinutes in
    Math_max (Int 0) (num_sub endTotal startTotal).

(** The values of a time input, of form HH:MM: two decimal digits, a
    colon, two decimal digits.  [digit d] is the character of the decimal
    digit [d]. *)
Definition digit (d : nat) : ascii := ascii_of_nat (48 + d).

Definition HHMM (h1 h2 m1 m2 : nat) : string :=
  String (digit h1) (String (digit h2)
    (String ":" (String (digit m1) (String (digit m2) "")))).

(** [hours * 60 + minutes] of the text [HHMM h1 h2 m1 m2]. *)
Definition totalMinutes (h1 h2 m1 m2 : nat) : Z :=
  (10 * Z.of_nat h1 + Z.of_nat h2) * 60 + (10 * Z.of_nat m1 + Z.of_nat m2).

Inductive TimeField : Type :=
  | FStartTime
  | FEndTime.

#[global] Instance TimeField_eq_dec : EqDecision TimeField.
Proof. solve_decision. Defined.

Definition set_time (field : TimeField) (value : string) (slot : TimeSlot)
    : TimeSlot :=
  match field with
  | FStartTime =>
      {| id := id slot; startTime := value; endTime := endTime slot;
         durationMinutes := durationMinutes slot |}
  | FEndTime =>
      {| id := id slot; startTime := startTime slot; endTime := value;
         durationMinutes := durationMinutes slot |}
  end.

(** The time field that an edit of [field] does not write. *)
Definition otherTime (field : TimeField) (slot : TimeSlot) : string :=
  match field with
  | FStartTime => endTime slot
  | FEndTime => startTime slot
  end.

Definition set_duration (d : number) (slot : TimeSlot) : TimeSlot :=
  {| id := id slot; startTime := startTime slot; endTime := endTime slot;
     durationMinutes := d |}.

(** What [handleTimeChange] stores at [index], given the slot found there. *)
Definition timeChanged (field : TimeField) (value : string) (slot : TimeSlot)
    : TimeSlot :=
  let updated := set_time field value slot in
  match field with
  | FStartTime =>
      if truthy_string (endTime updated)
      then set_duration (calculateDuration value (endTime updated)) updated
      else updated
  | FEndTime =>
      if truthy_string (startTime updated)
      then set_duration (calculateDuration (startTime updated) value) updated
      else updated
  end.

(** The handlers of a rendered slot are closures over its [index] in the
    list being rendered, so [index] is in range whenever one of them
    runs.  The model answers [None] for an index out of range, where the
    JavaScript assignment would grow the array by a partial object. *)
Definition handleTimeChange (index : nat) (field : TimeField) (value : string)
    (slots : list TimeSlot) : option (list TimeSlot) :=
  match slots !! index with
  | Some slot => Some (<[index := timeChanged field value slot]> slots)
  | None => None
  end.

(** [value] is [parseInt(e.target.value) || 0], an integer. *)
Definition handleDurationChange (index : nat) (value : Z)
    (slots : list TimeSlot) : option (list TimeSlot) :=
  match slots !! index with
  | Some slot =>
      Some (<[index := set_duration (Math_max (Int 0) (Int value)) slot]> slots)
  | None => None
  end.

(** [timeSlots.filter((_, i) => i !== index)] *)
Definition handleRemove (index : nat) (slots : list TimeSlot) : list TimeSlot :=
  delete index slots.

(** The [onChange] of a day checkbox; [checked] is [e.target.checked]. *)
Definition dayChanged (day : string) (checked : bool) (currentDays : list string)
    : list string :=
  if checked then currentDays ++ [day]
  else filter (λ d, d ≠ day) currentDays.

(** The edits the schedule step offers. *)
Inductive Action : Type :=
  | DayChange (day : string) (checked : bool)
  | AddTimeSlot (fresh : string)
  | TimeChange (index : nat) (field : TimeField) (value : string)
  | DurationChange (index : nat) (value : Z)
  | Remove (index : nat).

Definition with_slots (s : Schedule) (slots : list TimeSlot) : Schedule :=
  {| days := days s; timeSlots := slots |}.

Definition act (a : Action) (s : Schedule) : option Schedule :=
  match a with
  | DayChange day checked =>
      Some {| days := dayChanged day checked (days s); timeSlots := timeSlots s |}
  | AddTimeSlot fresh => Some (with_slots s (timeSlots s ++ [newSlot fresh]))
  | TimeChange index field value =>
      with_slots s <$> handleTimeChange index field value (timeSlots s)
  | DurationChange index value =>
      with_slots s <$> handleDurationChange index value (timeSlots s)
  | Remove index => Some (with_slots s (handleRemove index (timeSlots s)))
  end.

(** The edits that cannot reach the slot rendered at [index]: those of
    the days, the appended slots, the edits of a slot at another index
    and the removal of a later slot (which leaves [index] in place). *)
Definition leavesAlone (index : nat) (a : Action) : bool :=
  match a with
  | DayChange _ _ => true
  | AddTimeSlot _ => true
  | TimeChange j _ _ => bool_decide (j ≠ index)
  | DurationChange j _ => bool_decide (j ≠ index)
  | Remove j => bool_decide (index < j)%nat
  end.

(** An edit of a slot is offered only for a slot that is rendered. *)
Definition offered (a : Action) (s : Schedule) : bool :=
  match a with
  | TimeChange j _ _ => bool_decide (j < length (timeSlots s))%nat
  | DurationChange j _ => bool_decide (j < length (timeSlots s))%nat
  | _ => true
  end.

Fixpoint acts (l : list Action) (s : Schedule) : option Schedule :=
  match l with
  | [] => Some s
  | a :: rest =>
      match act a s with
      | Some s' => acts rest s'
      | None => None
      end
  end.

(** [form.validate()]: the messages of the rules that fail, in the order
    of the [validate] table. *)
Definition validate (f : BatchFormData) : list (string * string) :=
  (if negb (truthy_string (title f)) then [("title", "Title is required")] else [])
  ++ (if negb (truthy_string (software f))
      then [("software", "Software is required to suggest candidates")] else [])
  ++ (if negb (truthy_string (mode f)) then [("mode", "Mode is required")] else [])
  ++ (if negb (truthy_string (startDate f))
      then [("startDate", "Start date is required")] else [])
  ++ (if negb (truthy_string (endDate f))
      then [("endDate", "End date is required")] else [])
  ++ (if (maxCapacity f <? 1)%Z
      then [("maxCapacity", "Capacity must be at least 1")] else [])
  ++ (if (length (timeSlots (schedule f)) =? 0)%nat
      then [("schedule.timeSlots", "At least one time slot is required")] else []).

Definition hasErrors (errors : list (string * string)) : bool :=
  match errors with
  | [] => false
  | _ :: _ => true
  end.

(** The guard of [handleNext] on the schedule step ([active === 1]):
    [true] when neither [return] is taken and the batch gets created. *)
Definition scheduleStepPasses (f : BatchFormData) : bool :=
  if hasErrors (validate f) || (length (days (schedule f)) =? 0)%nat then false
  else if (length (timeSlots (schedule f)) =? 0)%nat then false
  else true.

(** The part of the guard that looks at the schedule alone. *)
Definition scheduleComplete (s : Schedule) : bool :=
  negb (length (days s) =? 0)%nat && negb (length (timeSlots s) =? 0)%nat.

(** The rules of [validate] on the fields other than the schedule. *)
Definition otherFieldsValid (f : BatchFormData) : bool :=
  truthy_string (title f) && truthy_string (software f) && truthy_string (mode f)
  && truthy_string (startDate f) && truthy_string (endDate f)
  && negb (maxCapacity f <? 1)%Z.

End ScheduleEditor.

(** ** Report dispatcher *)

Module Reports.

Import Js.

(** [filters] is a [Record<string, any>] whose entries are written by the
    filter inputs with [e.target.value], a string. *)
Definition has (params : gmap string string) (k : string) : bool :=
  match params !! k with
  | Some v => truthy_string v
  | None => false
  end.

(** [${params.k}] where [params.k] is known to be truthy. *)
Definition text (params : gmap string string) (k : string) : string :=
  default "" (params !! k).

(** What [fetchReport] does before it awaits the response: it throws an
    [Error] with a message, or issues a GET on an endpoint. *)
Inductive Request : Type :=
  | Throws (message : string)
  | Gets (endpoint : string).

#[global] Instance Request_eq_dec : EqDecision Request.
Proof. solve_decision. Defined.

Definition fetchReport (reportType : string) (params : gmap string string)
    : Request :=
  if decide (reportType = "all-analysis") then Gets "/reports/all-analysis"
  else if decide (reportType = "student-current-batch") then
    if negb (has params "studentId") then Throws "Student ID is required"
    else Gets ("/reports/student/" +:+ text params "studentId" +:+ "/current-batch")
  else if decide (reportType = "students-without-batch") then
    Gets "/reports/students-without-batch"
  else if decide (reportType = "batch-attendance") then
    if negb (has params "batchId") then Throws "Batch ID is required"
    else Gets ("/reports/batch-attendance?batchId=" +:+ text params "batchId"
               +:+ (if has params "from" then "&from=" +:+ text params "from" else "")
               +:+ (if has params "to" then "&to=" +:+ text params "to" else ""))
  else if decide (reportType = "student-attendance") then
    if negb (has params "studentId") then Throws "Student ID is required"
    else Gets ("/reports/student/" +:+ text params "studentId" +:+ "/attendance"
               +:+ (if has params "from" then "?from=" +:+ text params "from" else "")
               +:+ (if has params "to"
                    then (if has params "from" then "&" else "?")
                         +:+ "to=" +:+ text params "to"
                    else ""))
  else if decide (reportType = "batches-by-faculty") then
    Gets ("/reports/batches-by-faculty"
          +:+ (if has params "facultyId"
               then "?facultyId=" +:+ text params "facultyId" else "")
          +:+ (if has params "from"
               then (if has params "facultyId" then "&" else "?")
                    +:+ "from=" +:+ text params "from"
               else "")
          +:+ (if has params "to"
               then (if has params "from" || has params "facultyId" then "&" else "?")
                    +:+ "to=" +:+ text params "to"
               else ""))
  else if decide (reportType = "pending-payments") then
    Gets "/reports/pending-payments"
  else if decide (reportType = "monthwise-payments") then
    Gets ("/reports/monthwise-payments"
          +:+ (if has params "month" then "?month=" +:+ text params "month" else "")
          +:+ (if has params "year"
               then (if has params "month" then "&" else "?")
                    +:+ "year=" +:+ text params "year"
               else ""))
  else if decide (reportType = "portfolio-status") then
    Gets "/reports/portfolio-status"
  else Throws "Invalid report type".

(** The [id]s of the [reportTypes] table, in its order. *)
Definition reportTypes : list string :=
  [ "all-analysis"; "student-current-batch"; "students-without-batch";
    "batch-attendance"; "student-attendance"; "batches-by-faculty";
    "pending-payments"; "monthwise-payments"; "portfolio-status" ].

(** The markup [renderContent] can return, one per [return]. *)
Inductive Template : Type :=
  | PendingPayments
  | AllAnalysis
  | StudentsWithoutBatch
  | PortfolioStatus
  | StudentCurrentBatch
  | StudentAttendance
  | BatchAttendance
  | BatchesByFaculty
  | MonthwisePayments
  | RawJson.

#[global] Instance Template_eq_dec : EqDecision Template.
Proof. solve_decision. Defined.

(** [data.summary.k]; [data.summary] is truthy where this is evaluated. *)
Definition summary_field (data : Json) (k : string) : option Json :=
  match get data "summary" with
  | Some summary => get summary k
  | None => None
  end.

(** The conditions of the [if]s of [renderContent], top to bottom. *)
Definition isPendingPayments (data : Json) : bool :=
  bool_decide (get data "payments" ≠ None) && truthy_opt (get data "summary").

Definition isAllAnalysis (data : Json) : bool :=
  truthy_opt (get data "summary")
  && truthy_opt (summary_field data "students")
  && truthy_opt (summary_field data "batches").

Definition isStudentsWithoutBatch (data : Json) : bool :=
  truthy_opt (get data "students") && isArray (get data "students").

Definition isPortfolioStatus (data : Json) : bool :=
  truthy_opt (get data "portfolios") && isArray (get data "portfolios").

Definition isStudentCurrentBatch (data : Json) : bool :=
  truthy_opt (get data "student") && truthy_opt (get data "currentBatch").

Definition isStudentAttendance (data : Json) : bool :=
  truthy_opt (get data "student") && truthy_opt (get data "attendances").

Definition isBatchAttendance (data : Json) : bool :=
  truthy_opt (get data "batch") && truthy_opt (get data "statistics").

Definition isBatchesByFaculty (data : Json) : bool :=
  truthy_opt (get data "facultyStatistics") && isArray (get data "facultyStatistics").

Definition isMonthwisePayments (data : Json) : bool :=
  truthy_opt (get data "monthlyStatistics") && isArray (get data "monthlyStatistics").

(** [renderContent], for the truthy [data] that [renderReportData] lets
    through: which markup is returned. *)
Definition renderContent (data : Json) : Template :=
  if isPendingPayments data then PendingPayments
  else if isAllAnalysis data then AllAnalysis
  else if isStudentsWithoutBatch data then StudentsWithoutBatch
  else if isPortfolioStatus data then PortfolioStatus
  else if isStudentCurrentBatch data then StudentCurrentBatch
  else if isStudentAttendance data then StudentAttendance
  else if isBatchAttendance data then BatchAttendance
  else if isBatchesByFaculty data then BatchesByFaculty
  else if isMonthwisePayments data then MonthwisePayments
  else RawJson.

(** The selection rule in the spec's words: an ordered table of
    (presence predicate, template) pairs, the first pair whose predicate
    holds decides, and the raw-JSON template is the fallback. *)
Definition templateOrder : list ((Json → bool) * Template) :=
  [ (isPendingPayments, PendingPayments);
    (isAllAnalysis, AllAnalysis);
    (isStudentsWithoutBatch, StudentsWithoutBatch);
    (isPortfolioStatus, PortfolioStatus);
    (isStudentCurrentBatch, StudentCurrentBatch);
    (isStudentAttendance, StudentAttendance);
    (isBatchAttendance, BatchAttendance);
    (isBatchesByFaculty, BatchesByFaculty);
    (isMonthwisePayments, MonthwisePayments) ].

Fixpoint firstMatch (table : list ((Json → bool) * Template)) (data : Json)
    : Template :=
  match table with
  | [] => RawJson
  | (holds, template) :: rest =>
      if holds data then template else firstMatch rest data
  end.

End Reports.

(** ** Reading a batch schedule for display *)

Module BatchesList.

Import Js.

(** [String(v)], as a template literal or [join] converts a value.  An
    integer prints in decimal (what JavaScript does below [10^21]); the
    model answers [None] for an array, whose text is that of its
    elements, which the readers never meet in a schedule. *)
Definition toString (v : Json) : option string :=
  match v with
  | JNull => Some "null"
  | JBool true => Some "true"
  | JBool false => Some "false"
  | JNum z => Some (pretty z)
  | JStr s => Some s
  | JArr _ => None
  | JObj _ => Some "[object Object]"
  end.

(** The text an array element contributes to [join]: nothing for [null],
    [String(v)] otherwise. *)
Definition joinItem (v : Json) : option string :=
  match v with
  | JNull => Some ""
  | _ => toString v
  end.

(** [" (${Math.floor(d / 60)}h ${d % 60}m)"] for a truthy
    [slot.durationMinutes]; [None] when it is not a number, where
    JavaScript would coerce it. *)
Definition durationText (d : Json) : option string :=
  match d with
  | JNum z => Some (" (" +:+ pretty (z / 60) +:+ "h " +:+ pretty (Z.rem z 60) +:+ "m)")
  | _ => None
  end.

(** The callback of [timeSlots.map] in [formatTimeSlots].  The outer
    [None] marks an input outside the model: a [null] slot, on which the
    source throws a [TypeError], or a text that [toString] or
    [durationText] does not give.  [Some None] is the callback's [null]. *)
Definition formatSlot (slot : Json) : option (option string) :=
  match slot with
  | JNull => None
  | _ =>
      if truthy_opt (get slot "startTime") && truthy_opt (get slot "endTime") then
        duration ← (if truthy_opt (get slot "durationMinutes")
                    then get slot "durationMinutes" ≫= durationText
                    else Some "");
        start ← get slot "startTime" ≫= toString;
        end_ ← get slot "endTime" ≫= toString;
        Some (Some (start +:+ " - " +:+ end_ +:+ duration))
      else Some None
  end.

(** [.filter(Boolean)] on the mapped slots: [null] and the empty string
    are dropped. *)
Definition keepTruthy (texts : list (option string)) : list string :=
  omap (λ t, match t with
             | Some s => if truthy_string s then Some s else None
             | None => None
             end) texts.

Section Readers.

(** [JSON.parse]: [None] when it throws a [SyntaxError]. *)
Variable JSON_parse : string → option Json.

(** The prologue shared by the three readers: [scheduleObj] after the
    optional [JSON.parse], or [None] when the [catch] is entered.
    [given] is a [JStr] exactly when [typeof schedule === 'string']. *)
Definition parseIfString (given : Json) : option Json :=
  match given with
  | JStr text => JSON_parse text
  | _ => Some given
  end.

(** [schedule] is [batch.schedule]: [None] when [undefined], a [JStr]
    when the backend sent the JSON text, an object otherwise.  The
    result is [None] only where [formatSlot] is. *)
Definition formatTimeSlots (schedule : option Json) : option string :=
  match schedule with
  | None => Some "Not specified"
  | Some given =>
      if negb (truthy given) then Some "Not specified"
      else
        match parseIfString given with
        | None => Some "Not specified"
        | Some scheduleObj =>
            if negb (truthy scheduleObj)
               || negb (truthy_opt (get scheduleObj "timeSlots"))
               || negb (isArray (get scheduleObj "timeSlots"))
            then Some "Not specified"
            else
              match get scheduleObj "timeSlots" with
              | Some (JArr slots) =>
                  texts ← mapM formatSlot slots;
                  let formatted := String.concat ", " (keepTruthy texts) in
                  Some (if truthy_string formatted then formatted
                        else "Not specified")
              | _ => Some "Not specified"
              end
        end
  end.

Definition formatDays (schedule : option Json) : option string :=
  match schedule with
  | None => Some "Not specified"
  | Some given =>
      if negb (truthy given) then Some "Not specified"
      else
        match parseIfString given with
        | None => Some "Not specified"
        | Some scheduleObj =>
            if negb (truthy scheduleObj)
               || negb (truthy_opt (get scheduleObj "days"))
               || negb (isArray (get scheduleObj "days"))
            then Some "Not specified"
            else
              match get scheduleObj "days" with
              | Some (JArr items) =>
                  texts ← mapM joinItem items;
                  Some (String.concat ", " texts)
              | _ => Some "Not specified"
              end
        end
  end.

(** The result is a value or [null], the latter written [JNull]. *)
Definition getScheduleObject (schedule : option Json) : Json :=
  match schedule with
  | None => JNull
  | Some given =>
      if negb (truthy given) then JNull
      else
        match parseIfString given with
        | None => JNull
        | Some scheduleObj => scheduleObj
        end
  end.

End Readers.

(** The string form [text] of a schedule is displayed like its
    structured form [object]: same formatted time slots, same formatted
    days, same normalised schedule object. *)
Definition sameReading (JSON_parse : string → option Json)
    (text : string) (object : Json) : Prop :=
  formatTimeSlots JSON_parse (Some (JStr text))
    = formatTimeSlots JSON_parse (Some object)
  ∧ formatDays JSON_parse (Some (JStr text))
    = formatDays JSON_parse (Some object)
  ∧ getScheduleObject JSON_parse (Some (JStr text))
    = getScheduleObject JSON_parse (Some object).

(** The structured form of a schedule as the backend returns it: the
    object the editor submitted, after a trip through JSON (which writes
    [NaN] as [null]). *)
Definition numberJson (n : number) : Json :=
  match n with
  | Int z => JNum z
  | NaN => JNull
  end.

Definition slotJson (slot : ScheduleEditor.TimeSlot) : Json :=
  JObj [ ("id", JStr (ScheduleEditor.id slot));
         ("startTime", JStr (ScheduleEditor.startTime slot));
         ("endTime", JStr (ScheduleEditor.endTime slot));
         ("durationMinutes", numberJson (ScheduleEditor.durationMinutes slot)) ].

Definition scheduleJson (s : ScheduleEditor.Schedule) : Json :=
  JObj [ ("days", JArr (map JStr (ScheduleEditor.days s)));
         ("timeSlots", JArr (map slotJson (ScheduleEditor.timeSlots s))) ].

End BatchesList.

(** ** An executable JSON codec

    [JSON.stringify] and [JSON.parse] belong to the platform; the readers
    above take the parser as a parameter.  This module gives a codec for
    the fragment of [Js.Json] (integers only; in strings, the escapes of
    the quote and the backslash only), with which the readers are run on
    serialised schedules.  The parser reads back every text the printer
    produces ([JsonTextFacts.parse_stringify]). *)

Module JsonText.

Import Js.

Definition quote : ascii := ascii_of_nat 34.
Definition backslash : ascii := ascii_of_nat 92.

Fixpoint escape (s : string) : string :=
  match s with
  | EmptyString => ""
  | String c rest =>
      if bool_decide (c = quote) || bool_decide (c = backslash)
      then String backslash (String c (escape rest))
      else String c (escape rest)
  end.

Definition quoted (s : string) : string :=
  String quote (escape s) +:+ String quote "".

(** Compact output, properties in insertion order. *)
Fixpoint stringify (v : Json) : string :=
  match v with
  | JNull => "null"
  | JBool true => "true"
  | JBool false => "false"
  | JNum z => pretty z
  | JStr s => quoted s
  | JArr items => "[" +:+ String.concat "," (map stringify items) +:+ "]"
  | JObj props =>
      "{" +:+ String.concat ","
                (map (λ p, match p with
                           | (k, x) => quoted k +:+ ":" +:+ stringify x
                           end) props)
          +:+ "}"
  end.

Definition is_ws (c : ascii) : bool :=
  bool_decide (c ∈ [ascii_of_nat 32; ascii_of_nat 9; ascii_of_nat 10; ascii_of_nat 13]).

Fixpoint skip_ws (s : string) : string :=
  match s with
  | String c rest => if is_ws c then skip_ws rest else s
  | EmptyString => s
  end.

(** After the opening quote: the text up to the closing quote, and what
    follows it. *)
Fixpoint parse_string (s : string) : option (string * string) :=
  match s with
  | EmptyString => None
  | String c rest =>
      if decide (c = quote) then Some ("", rest)
      else if decide (c = backslash) then
        match rest with
        | String e rest' =>
            if bool_decide (e = quote) || bool_decide (e = backslash)
            then match parse_string rest' with
                 | Some (text, after) => Some (String e text, after)
                 | None => None
                 end
            else None
        | EmptyString => None
        end
      else match parse_string rest with
           | Some (text, after) => Some (String c text, after)
           | None => None
           end
  end.

Fixpoint take_digits (s : string) : string * string :=
  match s with
  | String c rest =>
      match digit_value c with
      | Some _ => let '(ds, after) := take_digits rest in (String c ds, after)
      | None => ("", s)
      end
  | EmptyString => ("", "")
  end.

Definition leading_zero (ds : string) : bool :=
  match ds with
  | String c (String _ _) => bool_decide (c = "0"%char)
  | _ => false
  end.

Definition number_goes_on (after : string) : bool :=
  match after with
  | String c _ => bool_decide (c ∈ ["."; "e"; "E"]%char)
  | EmptyString => false
  end.

(** An integer literal: no leading zero, no fraction, no exponent. *)
Definition parse_nat (s : string) : option (Z * string) :=
  let '(ds, after) := take_digits s in
  if bool_decide (ds = "") || leading_zero ds || number_goes_on after then None
  else match Number ds with
       | Int z => Some (z, after)
       | NaN => None
       end.

Fixpoint strip_prefix (word s : string) : option string :=
  match word, s with
  | EmptyString, _ => Some s
  | String c word', String d s' =>
      if decide (c = d) then strip_prefix word' s' else None
  | String _ _, EmptyString => None
  end.

Definition parse_literal (word : string) (v : Json) (s : string)
    : option (Json * string) :=
  match strip_prefix word s with
  | Some after => Some (v, after)
  | None => None
  end.

Section Sequences.

Variable parse_item : string → option (Json * string).

(** After the opening bracket of a non-empty array. *)
Fixpoint parse_elements (fuel : nat) (s : string) : option (list Json * string) :=
  match fuel with
  | O => None
  | S fuel' =>
      match parse_item s with
      | Some (v, after) =>
          match skip_ws after with
          | String c rest =>
              if decide (c = ","%char) then
                match parse_elements fuel' rest with
                | Some (vs, after') => Some (v :: vs, after')
                | None => None
                end
              else if decide (c = "]"%char) then Some ([v], rest)
              else None
          | EmptyString => None
          end
      | None => None
      end
  end.

(** After the opening brace of a non-empty object. *)
Fixpoint parse_members (fuel : nat) (s : string)
    : option (list (string * Json) * string) :=
  match fuel with
  | O => None
  | S fuel' =>
      match skip_ws s with
      | String c rest =>
          if decide (c = quote) then
            match parse_string rest with
            | Some (k, after_key) =>
                match skip_ws after_key with
                | String colon after_colon =>
                    if decide (colon = ":"%char) then
                      match parse_item after_colon with
                      | Some (v, after) =>
                          match skip_ws after with
                          | String d rest' =>
                              if decide (d = ","%char) then
                                match parse_members fuel' rest' with
                                | Some (ms, after') => Some ((k, v) :: ms, after')
                                | None => None
                                end
                              else if decide (d = "}"%char) then Some ([(k, v)], rest')
                              else None
                          | EmptyString => None
                          end
                      | None => None
                      end
                    else None
                | EmptyString => None
                end
            | None => None
            end
          else None
      | EmptyString => None
      end
  end.

End Sequences.

(** [fuel] bounds the nesting and the number of elements; one more than
    the length of the text is enough. *)
Fixpoint parse_value (fuel : nat) (s : string) : option (Json * string) :=
  match fuel with
  | O => None
  | S fuel' =>
      match skip_ws s with
      | EmptyString => None
      | String c rest =>
          if decide (c = "n"%char) then parse_literal "ull" JNull rest
          else if decide (c = "t"%char) then parse_literal "rue" (JBool true) rest
          else if decide (c = "f"%char) then parse_literal "alse" (JBool false) rest
          else if decide (c = quote) then
            match parse_string rest with
            | Some (text, after) => Some (JStr text, after)
            | None => None
            end
          else if decide (c = "["%char) then
            match skip_ws rest with
            | String d after =>
                if decide (d = "]"%char) then Some (JArr [], after)
                else
                  match parse_elements (parse_value fuel') fuel' rest with
                  | Some (items, after') => Some (JArr items, after')
                  | None => None
                  end
            | EmptyString => None
            end
          else if decide (c = "{"%char) then
            match skip_ws rest with
            | String d after =>
                if decide (d = "}"%char) then Some (JObj [], after)
                else
                  match parse_members (parse_value fuel') fuel' rest with
                  | Some (props, after') => Some (JObj props, after')
                  | None => None
                  end
            | EmptyString => None
            end
          else if decide (c = "-"%char) then
            match parse_nat rest with
            | Some (z, after) => Some (JNum (- z), after)
            | None => None
            end
          else
            match parse_nat (String c rest) with
            | Some (z, after) => Some (JNum z, after)
            | None => None
            end
      end
  end.

(** What may come after a value: the end of the text, or the comma,
    bracket or brace that goes on with the enclosing array or object. *)
Definition follow (rest : string) : bool :=
  match rest with
  | EmptyString => true
  | String c _ => bool_decide (c ∈ [","; "]"; "}"]%char)
  end.

(** The text of the elements of a non-empty array, up to and including
    the closing bracket, and what comes after. *)
Fixpoint elements_text (first : Json) (others : list Json) (rest : string)
    : string :=
  stringify first
  +:+ match others with
      | [] => String "]" rest
      | next :: others' => String "," (elements_text next others' rest)
      end.

Definition member_text (p : string * Json) : string :=
  quoted p.1 +:+ ":" +:+ stringify p.2.

(** The same for the members of a non-empty object. *)
Fixpoint members_text (first : string * Json) (others : list (string * Json))
    (rest : string) : string :=
  member_text first
  +:+ match others with
      | [] => String "}" rest
      | next :: others' => String "," (members_text next others' rest)
      end.

(** The first character of a printed value is not a blank and closes
    neither an array nor an object. *)
Definition opens (c : ascii) : Prop :=
  is_ws c = false ∧ c ≠ "]"%char ∧ c ≠ "}"%char.

(** The parser reads back the text of [v], whatever follows it, given
    fuel beyond the length of the text. *)
Definition reads_back (v : Json) : Prop :=
  ∀ rest fuel,
    follow rest = true →
    (String.length (stringify v +:+ rest) < fuel)%nat →
    parse_value fuel (stringify v +:+ rest) = Some (v, rest).

(** The whole text must be one value. *)
Definition parse (s : string) : option Json :=
  match parse_value (S (String.length s)) s with
  | Some (v, after) =>
      match skip_ws after with
      | EmptyString => Some v
      | String _ _ => None
      end
  | None => None
  end.

End JsonText.

(** ** Attendance modal: a session of clicks *)

Module AttendanceSession.

Import Attendance.

(** The status of the last record of [atts] about student [sid]. *)
Definition recordedStatus (atts : list AttendanceRecord) (sid : Z)
    : option AttendanceStatus :=
  att_status <$> last (filter (λ a, att_studentId a = sid) atts).

(** The call a row button hands to the mutation; the footer button is
    not a row button. *)
Definition rowCall (c : Click) : option MarkCall :=
  match c with
  | ClickPresent sid => Some (mkCall sid PRESENT false)
  | ClickManual sid => Some (mkCall sid MANUAL_PRESENT true)
  | ClickAbsent sid => Some (mkCall sid ABSENT false)
  | ClickSaveAll => None
  end.

Definition isRowClick (c : Click) : bool :=
  match c with
  | ClickSaveAll => false
  | _ => true
  end.

(** The status of the last row click of [l] on student [sid]. *)
Definition chosenStatus (l : list Click) (sid : Z) : option AttendanceStatus :=
  call_status <$> last (filter (λ c, call_studentId c = sid) (omap rowCall l)).

(** The modal after the clicks of [l], first to last, with the data of
    the two queries unchanged in between, so that the effect does not
    run. *)
Definition clicks (enrollments : option (list Enrollment)) (l : list Click)
    (st : State) : State :=
  foldl (λ st c, onClick enrollments c st) st l.

(** The open modal: the data of the two queries and the component
    state. *)
Record Modal : Type := mkModal {
  attendancesData : option (list AttendanceRecord);
  enrollmentsData : option (list Enrollment);
  local : State
}.

(** What happens in the open modal: a click, or one of the two queries
    brings data.  The [onSuccess] of [markAttendanceMutation]
    invalidates the attendance query, so after a mark that succeeded
    the records are fetched again; when a query brings data the effect
    runs, being declared with [[attendancesData, enrollmentsData]]. *)
Inductive ModalEvent : Type :=
  | Clicked (c : Click)
  | AttendancesFetched (attendances : option (list AttendanceRecord))
  | EnrollmentsFetched (enrollments : option (list Enrollment)).

(** The effect, run on the data the modal holds. *)
Definition runEffect (m : Modal) : Modal :=
  {| attendancesData := attendancesData m;
     enrollmentsData := enrollmentsData m;
     local := {| studentAttendances :=
                   initAttendances (attendancesData m) (enrollmentsData m)
                                   (studentAttendances (local m));
                 issued := issued (local m) |} |}.

Definition onEvent (e : ModalEvent) (m : Modal) : Modal :=
  match e with
  | Clicked c =>
      {| attendancesData := attendancesData m;
         enrollmentsData := enrollmentsData m;
         local := onClick (enrollmentsData m) c (local m) |}
  | AttendancesFetched attendances =>
      runEffect {| attendancesData := attendances;
                   enrollmentsData := enrollmentsData m;
                   local := local m |}
  | EnrollmentsFetched enrollments =>
      runEffect {| attendancesData := attendancesData m;
                   enrollmentsData := enrollments;
                   local := local m |}
  end.

(** The modal after the events of [l], first to last. *)
Definition session (l : list ModalEvent) (m : Modal) : Modal :=
  foldl (λ m e, onEvent e m) m l.

(** The call an event hands to the mutation, when it is a click on a
    row button. *)
Definition eventCall (e : ModalEvent) : option MarkCall :=
  match e with
  | Clicked c => rowCall c
  | _ => None
  end.

(** No event is a click on the footer button. *)
Definition rowEvents (l : list ModalEvent) : bool :=
  forallb (λ e, match e with Clicked c => isRowClick c | _ => true end) l.

End AttendanceSession.

(** ** Schedule step: the day boxes and the values of the time inputs *)

Module ScheduleForm.

Import Js ScheduleEditor.

Definition weekDays : list string :=
  ["Monday"; "Tuesday"; "Wednesday"; "Thursday"; "Friday"; "Saturday"; "Sunday"].


Definition isDigit (c : ascii) : bool :=
  match digit_value c with
  | Some _ => true
  | None => false
  end.

(** Two digits, a colon, two digits. *)
Definition isHHMM (t : string) : bool :=
  match t with
  | String a (String b (String c (String d (String e EmptyString)))) =>
      isDigit a && isDigit b && bool_decide (c = ":"%char)
      && isDigit d && isDigit e
  | _ => false
  end.

(** A text of at most twelve characters, each a decimal digit or a
    colon.  On the pieces of such a text [Number] is the decimal value,
    and the minutes computed from them are integers that JavaScript
    holds without rounding. *)
Fixpoint digitsAndColons (t : string) : bool :=
  match t with
  | EmptyString => true
  | String c rest =>
      (isDigit c || bool_decide (c = ":"%char)) && digitsAndColons rest
  end.

Definition plainTime (t : string) : bool :=
  digitsAndColons t && (String.length t <=? 12)%nat.

(** What an [<input type="time">] holds: nothing, or a time of form
    HH:MM. *)
Definition timeInput (t : string) : bool :=
  bool_decide (t = "") || isHHMM t.

(** A slot whose times are values of time inputs and whose duration is
    an integer that is not negative. *)
Definition slotWellFormed (slot : TimeSlot) : Prop :=
  timeInput (startTime slot) = true
  ∧ timeInput (endTime slot) = true
  ∧ ∃ z, durationMinutes slot = Int z ∧ 0 ≤ z.

(** An edit of a time field writes the value of a time input. *)
Definition fromTimeInput (a : Action) : Prop :=
  match a with
  | TimeChange _ _ value => timeInput value = true
  | _ => True
  end.

(** The list keys of the rendered slots. *)
Definition slotIds (s : Schedule) : list string := map id (timeSlots s).

End ScheduleForm.

(** ** The steps of the batch creation page *)

Module BatchWizard.

Import Js ScheduleEditor.

(** [CreateBatchRequest], as [handleNext] fills it; [software] is
    [undefined] when the form has none. *)
Record CreateBatchRequest : Type := mkCreate {
  req_title : string;
  req_software : option string;
  req_mode : string;
  req_startDate : string;
  req_endDate : string;
  req_maxCapacity : Z;
  req_schedule : Schedule
}.

(** The calls the page makes on [batchAPI]. *)
Inductive BatchCall : Type :=
  | CreateBatch (data : CreateBatchRequest)
  | SuggestCandidates (batchId : Z).

(** The state of the page: the step shown, the form values, the id of
    the batch created so far ([number | null]), the candidates received,
    and the calls made, oldest first. *)
Record Wizard : Type := mkWizard {
  active : nat;
  form : BatchFormData;
  suggestedBatchId : option Z;
  candidates : list Json;
  calls : list BatchCall
}.

(** [!!suggestedBatchId]: [null] and [0] are falsy. *)
Definition hasBatchId (w : Wizard) : bool :=
  match suggestedBatchId w with
  | Some batchId => negb (batchId =? 0)
  | None => false
  end.

Definition batchData (f : BatchFormData) : CreateBatchRequest :=
  {| req_title := title f;
     req_software := if truthy_string (software f) then Some (software f) else None;
     req_mode := mode f;
     req_startDate := startDate f;
     req_endDate := endDate f;
     req_maxCapacity := if (maxCapacity f =? 0) then 1 else maxCapacity f;
     req_schedule := schedule f |}.

(** The validation at the head of [handleNext]: [true] when no [return]
    is taken.  On the first step [validateField] fails on an empty title
    or software. *)
Definition stepValid (w : Wizard) : bool :=
  match active w with
  | 0%nat =>
      negb (negb (truthy_string (title (form w)))
            || negb (truthy_string (software (form w)))
            || negb (truthy_string (mode (form w))))
  | 1%nat => scheduleStepPasses (form w)
  | _ => true
  end.

(** [setActive((current) => (current < 3 ? current + 1 : current))] *)
Definition stepForward (w : Wizard) : Wizard :=
  {| active := if (active w <? 3)%nat then S (active w) else active w;
     form := form w; suggestedBatchId := suggestedBatchId w;
     candidates := candidates w; calls := calls w |}.

(** [handleNext], taken as one step (the "Next" button is disabled while
    a mutation is pending).  [created] is what [createBatchMutation]
    answers, the [id] of the created batch, and [suggested] what
    [suggestCandidatesMutation] answers, the candidates and the batch
    [id] that its [onSuccess] stores; [None] when the call throws. *)
Definition handleNext (created : option Z) (suggested : option (list Json * Z))
    (w : Wizard) : Wizard :=
  if negb (stepValid w) then w
  else if (active w =? 1)%nat && negb (hasBatchId w) then
    match created with
    | None =>
        {| active := active w; form := form w;
           suggestedBatchId := suggestedBatchId w; candidates := candidates w;
           calls := calls w ++ [CreateBatch (batchData (form w))] |}
    | Some batchId =>
        match suggested with
        | None =>
            {| active := active w; form := form w;
               suggestedBatchId := Some batchId; candidates := candidates w;
               calls := calls w ++ [CreateBatch (batchData (form w));
                                    SuggestCandidates batchId] |}
        | Some (found, storedId) =>
            stepForward
              {| active := active w; form := form w;
                 suggestedBatchId := Some storedId; candidates := found;
                 calls := calls w ++ [CreateBatch (batchData (form w));
                                      SuggestCandidates batchId] |}
        end
    end
  else stepForward w.

(** [setActive((current) => (current > 0 ? current - 1 : current))] *)
Definition handleBack (w : Wizard) : Wizard :=
  {| active := if (0 <? active w)%nat then pred (active w) else active w;
     form := form w; suggestedBatchId := suggestedBatchId w;
     candidates := candidates w; calls := calls w |}.

(** The [disabled] attribute of the "Next" button when no mutation is
    pending. *)
Definition nextDisabled (w : Wizard) : bool :=
  ((active w =? 0)%nat
   && (negb (truthy_string (title (form w)))
       || negb (truthy_string (mode (form w)))))
  || ((active w =? 1)%nat
      && (negb (truthy_string (startDate (form w)))
          || negb (truthy_string (endDate (form w)))
          || (length (days (schedule (form w))) =? 0)%nat
          || (length (timeSlots (schedule (form w))) =? 0)%nat)).

(** What can happen on the page: the two navigation buttons, a click on
    a step of the stepper ([onStepClick={setActive}]; the stepper has the
    steps 0, 1 and 2), and an edit of the form. *)
Inductive Event : Type :=
  | Next (created : option Z) (suggested : option (list Json * Z))
  | Back
  | StepClick (step : nat)
  | FormEdit (values : BatchFormData).

Definition on (e : Event) (w : Wizard) : Wizard :=
  match e with
  | Next created suggested => handleNext created suggested w
  | Back => handleBack w
  | StepClick step =>
      {| active := step; form := form w; suggestedBatchId := suggestedBatchId w;
         candidates := candidates w; calls := calls w |}
  | FormEdit values =>
      {| active := active w; form := values;
         suggestedBatchId := suggestedBatchId w;
         candidates := candidates w; calls := calls w |}
  end.

Definition run (events : list Event) (w : Wizard) : Wizard :=
  foldl (λ w e, on e w) w events.

(** A click on the stepper names one of its three steps. *)
Definition onStepper (e : Event) : Prop :=
  match e with
  | StepClick step => (step < 3)%nat
  | _ => True
  end.

End BatchWizard.

(** ** The reports page *)

Module ReportPage.

Import Js Reports.

(** The filters of [keys] that are set, in the order of [keys], each
    with its text. *)
Definition setFilters (params : gmap string string) (keys : list string)
    : list (string * string) :=
  omap (λ k, if has params k then Some (k, text params k) else None) keys.

(** A query string: nothing for no pair, else a question mark and the
    [key=value] pairs separated by ampersands. *)
Definition queryString (pairs : list (string * string)) : string :=
  match pairs with
  | [] => ""
  | _ => "?" +:+ String.concat "&" (map (λ p, p.1 +:+ "=" +:+ p.2) pairs)
  end.

(** What [api.get] does with an endpoint: it answers with a body, or the
    request is rejected with an error that carries the message of the
    server, if there is one ([error.response?.data?.message]), and its
    own message ([error.message]). *)
Inductive ApiResult : Type :=
  | Answered (body : Json)
  | Rejected (serverMessage : option string) (message : string).

(** The state of the page, and the endpoints requested so far. *)
Record Page : Type := mkPage {
  selectedReport : string;
  filters : gmap string string;
  reportData : option Json;
  isLoading : bool;
  error : option string;
  requested : list string
}.

(** [error.response?.data?.message || error.message || 'Failed to generate report'] *)
Definition errorText (serverMessage : option string) (message : string) : string :=
  match serverMessage with
  | Some m =>
      if truthy_string m then m
      else if truthy_string message then message
      else "Failed to generate report"
  | None =>
      if truthy_string message then message else "Failed to generate report"
  end.

(** [handleGenerateReport], to its end.  An [Error] thrown by
    [fetchReport] has no [response]. *)
Definition handleGenerateReport (api : string → ApiResult) (p : Page) : Page :=
  if negb (truthy_string (selectedReport p)) then
    {| selectedReport := selectedReport p; filters := filters p;
       reportData := reportData p; isLoading := isLoading p;
       error := Some "Please select a report type"; requested := requested p |}
  else
    match fetchReport (selectedReport p) (filters p) with
    | Throws message =>
        {| selectedReport := selectedReport p; filters := filters p;
           reportData := None; isLoading := false;
           error := Some (errorText None message); requested := requested p |}
    | Gets endpoint =>
        match api endpoint with
        | Answered body =>
            {| selectedReport := selectedReport p; filters := filters p;
               reportData := Some body; isLoading := false;
               error := None; requested := requested p ++ [endpoint] |}
        | Rejected serverMessage message =>
            {| selectedReport := selectedReport p; filters := filters p;
               reportData := None; isLoading := false;
               error := Some (errorText serverMessage message);
               requested := requested p ++ [endpoint] |}
        end
    end.

(** The [onClick] of a report type of the side list. *)
Definition selectReport (reportId : string) (p : Page) : Page :=
  {| selectedReport := reportId; filters := ∅; reportData := None;
     isLoading := isLoading p; error := None; requested := requested p |}.

(** The [onChange] of the filter input of [key]. *)
Definition setFilter (key value : string) (p : Page) : Page :=
  {| selectedReport := selectedReport p; filters := <[key := value]> (filters p);
     reportData := reportData p; isLoading := isLoading p;
     error := error p; requested := requested p |}.

(** The filter inputs drawn for a report type: the student id for the
    types with [requiresStudentId], then the inputs of the block of the
    type. *)
Definition filterInputs (reportId : string) : list string :=
  (if bool_decide (reportId ∈ ["student-current-batch"; "student-attendance"])
   then ["studentId"] else [])
  ++ (if decide (reportId = "batch-attendance") then ["batchId"; "from"; "to"]
      else if decide (reportId = "student-attendance") then ["from"; "to"]
      else if decide (reportId = "batches-by-faculty")
           then ["facultyId"; "from"; "to"]
      else if decide (reportId = "monthwise-payments") then ["month"; "year"]
      else []).

(** What the operator can do on the page. *)
Inductive PageEvent : Type :=
  | Select (reportId : string)
  | Fill (key value : string)
  | Generate (api : string → ApiResult).

Definition onPage (e : PageEvent) (p : Page) : Page :=
  match e with
  | Select reportId => selectReport reportId p
  | Fill key value => setFilter key value p
  | Generate api => handleGenerateReport api p
  end.

(** The event is offered by the page in state [p]: the side list shows
    the nine report types, a filter input is one of those drawn for the
    selected type, and the "Generate" button is drawn once a type is
    selected. *)
Definition offeredOn (p : Page) (e : PageEvent) : bool :=
  match e with
  | Select reportId => bool_decide (reportId ∈ reportTypes)
  | Fill key _ => bool_decide (key ∈ filterInputs (selectedReport p))
  | Generate _ => truthy_string (selectedReport p)
  end.

(** The page after the events, each one offered when it happens;
    [None] when one of them is not. *)
Fixpoint session (events : list PageEvent) (p : Page) : option Page :=
  match events with
  | [] => Some p
  | e :: rest => if offeredOn p e then session rest (onPage e p) else None
  end.

Definition initialPage : Page :=
  {| selectedReport := ""; filters := ∅; reportData := None;
     isLoading := false; error := None; requested := [] |}.

(** The value drawn in the year input of the month-wise form:
    [filters.year || new Date().getFullYear()]. *)
Definition yearShown (thisYear : string) (p : Page) : string :=
  if has (filters p) "year" then text (filters p) "year" else thisYear.

(** How far [renderReportData] gets: its [return null], or the [return]
    of [renderContent] that is reached for the data.  The markup of that
    [return] is built next, from the fields of the data, and building
    it throws when a field it reads through is missing
    ([data.currentBatch.batch.title], say); whether it is built is not
    part of this value. *)
Inductive Rendering : Type :=
  | ReturnsNull
  | Reaches (template : Template).

(** [renderReportData]: [null] unless [reportData] and [reportData.data]
    are truthy, else the [return] of [renderContent] for the data. *)
Definition renderReportData (p : Page) : Rendering :=
  match reportData p with
  | Some response =>
      if truthy response && truthy_opt (get response "data")
      then match get response "data" with
           | Some data => Reaches (renderContent data)
           | None => ReturnsNull
           end
      else ReturnsNull
  | None => ReturnsNull
  end.

(** What holds of every page the operator can reach: the selected type
    is none or one of the table, the filters that are set belong to the
    inputs drawn for it, nothing is loading, and the endpoints requested
    are under [/reports/]. *)
Definition pageInvariant (p : Page) : Prop :=
  (selectedReport p = "" ∨ selectedReport p ∈ reportTypes)
  ∧ (∀ key, is_Some (filters p !! key) → key ∈ filterInputs (selectedReport p))
  ∧ isLoading p = false
  ∧ Forall (λ endpoint, ∃ rest, endpoint = "/reports/" +:+ rest) (requested p).

End ReportPage.

(** ** The list of batches *)

Module BatchPage.

Import Js BatchesList.

(** The fields of a [Batch] that the page reads.  [schedule] is as in
    the readers; [currentEnrollment] may be missing. *)
Record Batch : Type := mkBatch {
  id : Z;
  title : string;
  software : option string;
  mode : string;
  startDate : string;
  endDate : string;
  maxCapacity : Z;
  schedule : option Json;
  status : option string;
  currentEnrollment : option Z
}.

Inductive BatchCategory : Type := All | Current | Upcoming | Past.

#[global] Instance BatchCategory_eq_dec : EqDecision BatchCategory.
Proof. solve_decision. Defined.

(** [a > b] and [a < b] on the time values of two dates: [false] as soon
    as one of them is [NaN]. *)
Definition num_gt (a b : number) : bool :=
  match a, b with
  | Int x, Int y => (y <? x)%Z
  | _, _ => false
  end.

Definition num_lt (a b : number) : bool :=
  match a, b with
  | Int x, Int y => (x <? y)%Z
  | _, _ => false
  end.

Section Today.

(** [new Date(text)] followed by [setHours(0, 0, 0, 0)], as the time
    value of the date: the local midnight of its day, [NaN] for a text
    that is not a date. *)
Variable midnight : string → number.

(** [new Date()] followed by [setHours(0, 0, 0, 0)]. *)
Variable today : Z.

Definition categorizeBatch (batch : Batch) : list BatchCategory :=
  if num_gt (midnight (startDate batch)) (Int today) then [Upcoming]
  else if num_lt (midnight (endDate batch)) (Int today) then [Past]
  else [Current].

(** [categories.includes(tab)] *)
Definition inCategory (tab : BatchCategory) (batch : Batch) : bool :=
  bool_decide (tab ∈ categorizeBatch batch).

Definition filterBatches (activeTab : BatchCategory) (batches : list Batch)
    : list Batch :=
  if decide (activeTab = All) then batches
  else List.filter (inCategory activeTab) batches.

(** [counts[tab]] *)
Definition counts (tab : BatchCategory) (batches : list Batch) : nat :=
  match tab with
  | All => length batches
  | _ => length (List.filter (inCategory tab) batches)
  end.

(** The text of the badge [getBatchStatusBadge] draws. *)
Definition getBatchStatusBadge (batch : Batch) : string :=
  if inCategory Current batch then "Current"
  else if inCategory Upcoming batch then "Upcoming"
  else "Past".

End Today.

(** The label of a category on its badge. *)
Definition badgeOf (tab : BatchCategory) : string :=
  match tab with
  | All => ""
  | Current => "Current"
  | Upcoming => "Upcoming"
  | Past => "Past"
  end.

(** [s.split(sep)] for a separator of one character. *)
Fixpoint split_on (sep : ascii) (s : string) : list string :=
  match s with
  | EmptyString => [""]
  | String c rest =>
      if decide (c = sep) then "" :: split_on sep rest
      else match split_on sep rest with
           | piece :: pieces => String c piece :: pieces
           | [] => [String c ""]
           end
  end.

(** [date.split('T')[0]] *)
Definition dateOnly (date : string) : string :=
  default "" (head (split_on "T" date)).

(** [editFormData] once [handleEdit] has filled it. *)
Record EditForm : Type := mkEditForm {
  form_title : string;
  form_software : option string;
  form_mode : string;
  form_startDate : string;
  form_endDate : string;
  form_maxCapacity : Z;
  form_schedule : Json;
  form_status : option string
}.

(** What the page hands to its two mutations.  The [data] of an update
    is [editFormData]: [None] is the empty object [{}]. *)
Inductive MutationCall : Type :=
  | UpdateBatch (batchId : Z) (data : option EditForm)
  | DeleteBatch (batchId : Z).

Record Modals : Type := mkModals {
  selectedBatch : option Batch;
  isViewModalOpen : bool;
  isEditModalOpen : bool;
  isDeleteModalOpen : bool;
  editFormData : option EditForm;
  calls : list MutationCall
}.

(** [{ days: [], timeSlots: [] }] *)
Definition emptySchedule : Json :=
  JObj [("days", JArr []); ("timeSlots", JArr [])].

Section Handlers.

Variable JSON_parse : string → option Json.

(** The object [handleEdit] puts in [editFormData]. *)
Definition editFormOf (batch : Batch) : EditForm :=
  let scheduleObj := getScheduleObject JSON_parse (schedule batch) in
  {| form_title := title batch;
     form_software := software batch;
     form_mode := mode batch;
     form_startDate := dateOnly (startDate batch);
     form_endDate := dateOnly (endDate batch);
     form_maxCapacity := maxCapacity batch;
     form_schedule := if truthy scheduleObj then scheduleObj else emptySchedule;
     form_status := status batch |}.

Definition handleView (batch : Batch) (m : Modals) : Modals :=
  {| selectedBatch := Some batch; isViewModalOpen := true;
     isEditModalOpen := isEditModalOpen m;
     isDeleteModalOpen := isDeleteModalOpen m;
     editFormData := editFormData m; calls := calls m |}.


Definition handleDelete (batch : Batch) (m : Modals) : Modals :=
  {| selectedBatch := Some batch; isViewModalOpen := isViewModalOpen m;
     isEditModalOpen := isEditModalOpen m;
     isDeleteModalOpen := true;
     editFormData := editFormData m; calls := calls m |}.




(** [onSuccess] of [deleteBatchMutation], and the "Cancel" button of the
    confirmation. *)
Definition deleteSucceeded (m : Modals) : Modals :=
  {| selectedBatch := None; isViewModalOpen := isViewModalOpen m;
     isEditModalOpen := isEditModalOpen m;
     isDeleteModalOpen := false;
     editFormData := editFormData m; calls := calls m |}.

(** The two close buttons of the details. *)
Definition closeView (m : Modals) : Modals :=
  {| selectedBatch := None; isViewModalOpen := false;
     isEditModalOpen := isEditModalOpen m;
     isDeleteModalOpen := isDeleteModalOpen m;
     editFormData := editFormData m; calls := calls m |}.

(** The "Delete" button of the confirmation is disabled:
    [selectedBatch.currentEnrollment && selectedBatch.currentEnrollment > 0],
    or the deletion is pending. *)
Definition deleteDisabled (pending : bool) (batch : Batch) : bool :=
  pending
  || match currentEnrollment batch with
     | Some n => negb (n =? 0)%Z && (0 <? n)%Z
     | None => false
     end.

(** One card of the details of a schedule.  *)
Inductive SlotCard : Type :=
  | TimeRange (range : string) (duration : option string)
  | NotConfigured.

(** ["(${Math.floor(d / 60)}h ${d % 60}m)"], drawn when [d > 0]; [d] is
    [slot.durationMinutes].  [null] and [undefined] are not above zero;
    the outer [None] is a value that JavaScript would coerce. *)
Definition durationShown (d : option Json) : option (option string) :=
  match d with
  | Some (JNum z) =>
      Some (if (0 <? z)%Z
            then Some ("(" +:+ pretty (z / 60) +:+ "h "
                       +:+ pretty (Z.rem z 60) +:+ "m)")
            else None)
  | Some JNull | None => Some None
  | Some _ => None
  end.

(** The text node React draws for a value that is a text. *)
Definition textNode (v : Json) : option string :=
  match v with
  | JStr s => Some s
  | _ => None
  end.

(** The callback of [timeSlots.map] in the details.  The outer [None]
    marks a slot outside the model: [null], on which the source throws,
    or times and durations that are not texts and numbers. *)
Definition slotCard (slot : Json) : option SlotCard :=
  match slot with
  | JNull => None
  | _ =>
      if truthy_opt (get slot "startTime") && truthy_opt (get slot "endTime") then
        start ← get slot "startTime" ≫= textNode;
        end_ ← get slot "endTime" ≫= textNode;
        duration ← durationShown (get slot "durationMinutes");
        Some (TimeRange (start +:+ " - " +:+ end_) duration)
      else Some NotConfigured
  end.

(** The cards under the two lines of the schedule: none unless
    [timeSlots] is an array with an element. *)
Definition slotCards (schedule : option Json) : option (list SlotCard) :=
  let scheduleObj := getScheduleObject JSON_parse schedule in
  match get scheduleObj "timeSlots" with
  | Some (JArr slots) =>
      if (0 <? length slots)%nat then mapM slotCard slots else Some []
  | _ => Some []
  end.

End Handlers.

(** The summary text of a slot and its card show the same: nothing for
    both, or the same range of times with the same duration, if any. *)
Definition sameSlot (summary : option string) (card : SlotCard) : Prop :=
  match summary, card with
  | None, NotConfigured => True
  | Some text, TimeRange range None => text = range
  | Some text, TimeRange range (Some duration) =>
      text = range +:+ " " +:+ duration
  | _, _ => False
  end.

(** The text of the duration in the summary of a slot the editor
    stored: [durationText] of a duration that is a number and is not
    zero. *)
Definition summaryDuration (d : number) : string :=
  match d with
  | Int z =>
      if (z =? 0)%Z then ""
      else " (" +:+ pretty (z / 60) +:+ "h " +:+ pretty (Z.rem z 60) +:+ "m)"
  | NaN => ""
  end.

Definition noModal : Modals :=
  {| selectedBatch := None; isViewModalOpen := false; isEditModalOpen := false;
     isDeleteModalOpen := false; editFormData := None; calls := [] |}.

End BatchPage.

(** * Properties *)

(** ** Attendance modal *)

Module AttendanceFacts.

Import Attendance.

Implicit Types (m prev : gmap Z AttendanceStatus) (sid : Z).
Implicit Types (atts : list AttendanceRecord) (enrs roster : list Enrollment).

(** Every member of the enum is a non-empty string, hence truthy. *)
Lemma truthy_entry_Some (s : AttendanceStatus) : truthy_entry (Some s) = true.
Proof. by destruct s. Qed.

Lemma status_or_absent_default m sid :
  status_or_absent m sid = default ABSENT (m !! sid).
Proof.
  unfold status_or_absent.
  destruct (m !! sid) as [s|] eqn:E; [|done].
  by rewrite truthy_entry_Some.
Qed.

(** The loop over the records: a student no record mentions keeps what
    the accumulator had. *)
Lemma records_loop_other atts m sid :
  (∀ a, a ∈ atts → att_studentId a ≠ sid) →
  foldl (λ initial att, <[att_studentId att := att_status att]> initial) m atts
    !! sid = m !! sid.
Proof.
  revert m. induction atts as [|a atts IH]; intros m Hno; [done|].
  cbn [foldl]. rewrite IH.
  - apply lookup_insert_ne, Hno. left.
  - intros b Hb. apply Hno. by right.
Qed.

(** The loop over the roster: enrolled students without an entry get
    [ABSENT], every other key keeps what the accumulator had. *)
Lemma roster_loop_lookup enrs m sid :
  foldl (λ initial enrollment,
           if truthy_entry (initial !! enr_studentId enrollment) then initial
           else <[enr_studentId enrollment := ABSENT]> initial) m enrs !! sid
  = if bool_decide (sid ∈ map enr_studentId enrs)
    then Some (default ABSENT (m !! sid))
    else m !! sid.
Proof.
  revert m. induction enrs as [|e enrs IH]; intros m.
  - cbn. by rewrite bool_decide_eq_false_2 by apply not_elem_of_nil.
  - cbn [foldl map]. rewrite IH. clear IH.
    destruct (decide (sid = enr_studentId e)) as [->|Hne].
    + rewrite (bool_decide_eq_true_2 (_ ∈ _ :: _)) by left.
      destruct (m !! enr_studentId e) as [s|] eqn:E.
      * rewrite truthy_entry_Some, E. by case_bool_decide.
      * cbn. rewrite lookup_insert_eq. by case_bool_decide.
    + assert ((if truthy_entry (m !! enr_studentId e) then m
               else <[enr_studentId e := ABSENT]> m) !! sid = m !! sid) as ->.
      { destruct (truthy_entry _); [done|]. by rewrite lookup_insert_ne. }
      assert (sid ∈ enr_studentId e :: map enr_studentId enrs
              ↔ sid ∈ map enr_studentId enrs) as Hiff.
      { rewrite elem_of_cons. split.
        - intros [Heq|Hin]; [by destruct Hne | exact Hin].
        - intros Hin. by right. }
      by rewrite (bool_decide_ext _ _ Hiff).
Qed.

(** The three buttons of a row respect the flag convention. *)
Lemma row_buttons_flag_ok enrollments c st :
  c ≠ ClickSaveAll →
  ∃ call, issued (onClick enrollments c st) = (issued st ++ [call])%list
          ∧ manual_flag_ok call = true.
Proof.
  destruct c; intros Hc; try done; eexists; split; try reflexivity; done.
Qed.

End AttendanceFacts.

Module AttendanceClaims.

Import Attendance AttendanceFacts.

(** C1 (as amended).  When the attendance response holds at least one
    record, the reconciled map holds the recorded statuses and nothing
    else: a student with a record gets that record's status (the last
    record decides when there are several), and a student without a
    record has no entry, enrolled or not.  [ABSENT] is given to the
    enrolled students when the attendance response is absent and the
    roster is present; then every enrolled student is [ABSENT] and nobody
    else has an entry.  Roster [[s1; s2]] with records [[{s1, PRESENT}]]
    gives [{s1: PRESENT}]. *)
Theorem C1_reconciliation_by_branch
    (enrollments : option (list Enrollment)) (prev : gmap Z AttendanceStatus) :
  (∀ (before : list AttendanceRecord) (a : AttendanceRecord)
     (after : list AttendanceRecord),
      (∀ b, b ∈ after → att_studentId b ≠ att_studentId a) →
      initAttendances (Some (before ++ a :: after)%list) enrollments prev
        !! att_studentId a = Some (att_status a))
  ∧ (∀ (atts : list AttendanceRecord) (sid : Z),
      atts ≠ [] →
      (∀ a, a ∈ atts → att_studentId a ≠ sid) →
      initAttendances (Some atts) enrollments prev !! sid = None)
  ∧ (∀ (roster : list Enrollment) (sid : Z),
      initAttendances None (Some roster) prev !! sid
      = if bool_decide (sid ∈ map enr_studentId roster) then Some ABSENT else None)
  ∧ initAttendances (Some [mkAttendance 1 PRESENT])
                    (Some [mkEnrollment 10 1; mkEnrollment 11 2]) prev
    = {[ 1 := PRESENT ]}.
Proof.
  split; [|split; [|split; [|done]]].
  - intros before a after Hlast. cbn [initAttendances].
    rewrite foldl_app. cbn [foldl].
    rewrite records_loop_other by done. apply lookup_insert_eq.
  - intros atts sid _ Hno. cbn [initAttendances].
    by rewrite records_loop_other.
  - intros roster sid. cbn [initAttendances].
    rewrite roster_loop_lookup. by case_bool_decide.
Qed.

Lemma C1_reconciliation_by_branch_witness :
  initAttendances (Some [mkAttendance 1 PRESENT; mkAttendance 1 MANUAL_PRESENT;
                         mkAttendance 2 ABSENT])
                  (Some [mkEnrollment 10 1; mkEnrollment 11 3]) ∅ !! 1
  = Some MANUAL_PRESENT.
Proof.
  apply (proj1 (C1_reconciliation_by_branch
                  (Some [mkEnrollment 10 1; mkEnrollment 11 3]) ∅)
               [mkAttendance 1 PRESENT] (mkAttendance 1 MANUAL_PRESENT)
               [mkAttendance 2 ABSENT]).
  intros b Hb. apply list_elem_of_singleton in Hb as ->. cbn. lia.
Defined.

(** C1, as stated, fails on roster [[s1; s2]] with records
    [[{s1, PRESENT}]]: the enrolled student [s2] is not given [ABSENT],
    and the map is not [{s1: PRESENT, s2: ABSENT}]. *)
Lemma C1_counterexample :
  let reconciled :=
    initAttendances (Some [mkAttendance 1 PRESENT])
                    (Some [mkEnrollment 10 1; mkEnrollment 11 2]) ∅ in
  reconciled !! 2 ≠ Some ABSENT
  ∧ reconciled ≠ {[ 1 := PRESENT; 2 := ABSENT ]}.
Proof.
  cbn zeta. split.
  - vm_compute. discriminate.
  - intros Heq. apply (f_equal (λ m : gmap Z AttendanceStatus, m !! 2)) in Heq.
    vm_compute in Heq. discriminate.
Qed.

(** C2, evaluated where it fails.  The operator marks student 1 with the
    "Manual" button, then presses "Save All": the row button sends
    [MANUAL_PRESENT] with [isManual = true], the bulk save sends the same
    status again with [isManual = false]. *)
Theorem C2_bulk_save_drops_manual_flag :
  let roster := Some [mkEnrollment 10 1] in
  let st := onClick roster ClickSaveAll
              (onClick roster (ClickManual 1) (mkState ∅ [])) in
  issued st = [mkCall 1 MANUAL_PRESENT true; mkCall 1 MANUAL_PRESENT false]
  ∧ forallb manual_flag_ok (issued st) = false.
Proof. by vm_compute. Qed.

(** C9.  [handleBulkSave] hands the mutation one call per entry of the
    enrolled roster, in roster order, whatever was or was not modified
    before; the call of a student carries the status stored for that
    student in [studentAttendances], or [ABSENT] when none is stored.  The
    status map itself is left as it is. *)
Theorem C9_bulk_save_covers_roster (roster : list Enrollment) (st : State) :
  ∃ calls,
    issued (handleBulkSave (Some roster) st) = (issued st ++ calls)%list
    ∧ map (λ c, (call_studentId c, call_status c)) calls
      = map (λ e, (enr_studentId e,
                   default ABSENT (studentAttendances st !! enr_studentId e)))
            roster
    ∧ length calls = length roster
    ∧ studentAttendances (handleBulkSave (Some roster) st) = studentAttendances st.
Proof.
  exists (bulkSaveCalls (Some roster) (studentAttendances st)).
  split; [done|]. cbn [bulkSaveCalls]. repeat split.
  - rewrite map_map. apply map_ext. intros e. cbn.
    by rewrite status_or_absent_default.
  - apply length_map.
Qed.

(** C10.  When the attendance query answers with an empty list, the
    reconciled map is empty whatever the roster is, so no enrolled
    student is set to [ABSENT]; the roster is consulted, and every
    enrolled student set to [ABSENT], only when the attendance response
    is absent. *)
Theorem C10_empty_record_list
    (enrollments : option (list Enrollment)) (roster : list Enrollment)
    (prev : gmap Z AttendanceStatus) :
  initAttendances (Some []) enrollments prev = ∅
  ∧ Forall (λ e, initAttendances (Some []) (Some roster) prev
                   !! enr_studentId e = None) roster
  ∧ Forall (λ e, initAttendances None (Some roster) prev
                   !! enr_studentId e = Some ABSENT) roster.
Proof.
  split; [done|]. split; apply Forall_forall; intros e He.
  - done.
  - cbn [initAttendances]. rewrite roster_loop_lookup.
    rewrite bool_decide_eq_true_2; [done|].
    apply list_elem_of_fmap. by exists e.
Qed.

End AttendanceClaims.

(** ** Schedule step *)

Module ScheduleFacts.

Import Js ScheduleEditor.

Lemma digit_value_digit (d : nat) :
  (d < 10)%nat → digit_value (digit d) = Some (Z.of_nat d).
Proof. intros Hd. do 10 (destruct d as [|d]; [done|]). lia. Qed.

Lemma digit_not_colon (d : nat) : (d < 10)%nat → digit d ≠ ":"%char.
Proof. intros Hd. do 10 (destruct d as [|d]; [done|]). lia. Qed.

Lemma Number_two_digits (a b : nat) :
  (a < 10)%nat → (b < 10)%nat →
  Number (String (digit a) (String (digit b) ""))
  = Int (10 * Z.of_nat a + Z.of_nat b).
Proof.
  intros Ha Hb. unfold Number. cbn [digits_value].
  rewrite !digit_value_digit by done. f_equal; lia.
Qed.

Lemma split_colon_other (c : ascii) (rest : string) :
  c ≠ ":"%char →
  split_colon (String c rest)
  = match split_colon rest with
    | piece :: pieces => String c piece :: pieces
    | [] => [String c ""]
    end.
Proof. intros Hc. cbn [split_colon]. by rewrite decide_False. Qed.

Lemma split_colon_HHMM (h1 h2 m1 m2 : nat) :
  (h1 < 10)%nat → (h2 < 10)%nat → (m1 < 10)%nat → (m2 < 10)%nat →
  split_colon (HHMM h1 h2 m1 m2)
  = [String (digit h1) (String (digit h2) "");
     String (digit m1) (String (digit m2) "")].
Proof.
  intros H1 H2 H3 H4. unfold HHMM.
  rewrite (split_colon_other (digit h1)), (split_colon_other (digit h2))
    by by apply digit_not_colon.
  cbn [split_colon]. rewrite decide_True by done.
  fold (split_colon (String (digit m1) (String (digit m2) ""))).
  rewrite (split_colon_other (digit m1)), (split_colon_other (digit m2))
    by by apply digit_not_colon.
  done.
Qed.

(** [calculateDuration] on two texts of form HH:MM. *)
Lemma calculateDuration_HHMM (h1 h2 m1 m2 h1' h2' m1' m2' : nat) :
  (h1 < 10)%nat → (h2 < 10)%nat → (m1 < 10)%nat → (m2 < 10)%nat →
  (h1' < 10)%nat → (h2' < 10)%nat → (m1' < 10)%nat → (m2' < 10)%nat →
  calculateDuration (HHMM h1 h2 m1 m2) (HHMM h1' h2' m1' m2')
  = Int (Z.max 0 (totalMinutes h1' h2' m1' m2' - totalMinutes h1 h2 m1 m2)).
Proof.
  intros. unfold calculateDuration.
  rewrite !split_colon_HHMM by done.
  cbn [map nth_number lookup list_lookup].
  rewrite !Number_two_digits by done.
  done.
Qed.

Lemma set_duration_id (slot : TimeSlot) :
  set_duration (durationMinutes slot) slot = slot.
Proof. by destruct slot. Qed.

(** An edit that leaves the slot at [index] alone leaves it as it was. *)
Lemma act_leavesAlone (index : nat) (a : Action) (s s' : Schedule)
    (slot : TimeSlot) :
  leavesAlone index a = true →
  timeSlots s !! index = Some slot →
  act a s = Some s' →
  timeSlots s' !! index = Some slot.
Proof.
  intros Hquiet Hslot Hact. destruct a as [day checked|fresh|j field value|j value|j];
    cbn in Hquiet, Hact.
  - by simplify_eq.
  - simplify_eq. cbn. by apply lookup_app_l_Some.
  - apply bool_decide_eq_true in Hquiet. unfold handleTimeChange in Hact.
    destruct (timeSlots s !! j); simplify_eq/=.
    by rewrite list_lookup_insert_ne.
  - apply bool_decide_eq_true in Hquiet. unfold handleDurationChange in Hact.
    destruct (timeSlots s !! j); simplify_eq/=.
    by rewrite list_lookup_insert_ne.
  - apply bool_decide_eq_true in Hquiet. simplify_eq/=.
    unfold handleRemove. by rewrite list_lookup_delete_lt.
Qed.

(** Every edit the step offers yields a schedule. *)
Lemma act_offered (a : Action) (s : Schedule) :
  offered a s = true → is_Some (act a s).
Proof.
  destruct a as [day checked|fresh|j field value|j value|j]; cbn;
    intros Hin; try by eexists.
  - apply bool_decide_eq_true, lookup_lt_is_Some in Hin as [slot Hslot].
    unfold handleTimeChange. rewrite Hslot. by eexists.
  - apply bool_decide_eq_true, lookup_lt_is_Some in Hin as [slot Hslot].
    unfold handleDurationChange. rewrite Hslot. by eexists.
Qed.

Lemma acts_leaveAlone (index : nat) (l : list Action) (s s' : Schedule)
    (slot : TimeSlot) :
  Forall (λ a, leavesAlone index a = true) l →
  timeSlots s !! index = Some slot →
  acts l s = Some s' →
  timeSlots s' !! index = Some slot.
Proof.
  intros Hall. revert s. induction Hall as [|a l Ha Hall IH]; intros s Hslot Hrun.
  - cbn in Hrun. by simplify_eq.
  - cbn in Hrun. destruct (act a s) as [s1|] eqn:Hact; [|done].
    apply (IH s1); [|done]. by eapply act_leavesAlone.
Qed.

(** With the other time field set, an edit of a time field computes the
    duration from the two times and ignores the stored one. *)
Lemma timeChanged_recomputes (field : TimeField) (value : string)
    (slot : TimeSlot) (d : number) :
  otherTime field slot ≠ "" →
  timeChanged field value (set_duration d slot)
  = set_duration
      (calculateDuration (startTime (set_time field value slot))
                         (endTime (set_time field value slot)))
      (set_time field value slot).
Proof.
  intros Hother. unfold timeChanged, truthy_string.
  destruct field; cbn in *; by rewrite decide_False.
Qed.

Lemma timeChanged_keeps (field : TimeField) (value : string) (slot : TimeSlot) :
  otherTime field slot = "" →
  timeChanged field value slot = set_time field value slot.
Proof.
  intros Hother. unfold timeChanged, truthy_string.
  destruct field; cbn in *; by rewrite decide_True.
Qed.

Lemma scheduleStepPasses_eq (f : BatchFormData) :
  scheduleStepPasses f = otherFieldsValid f && scheduleComplete (schedule f).
Proof.
  unfold scheduleStepPasses, otherFieldsValid, scheduleComplete, validate.
  destruct (truthy_string (title f)), (truthy_string (software f)),
    (truthy_string (mode f)), (truthy_string (startDate f)),
    (truthy_string (endDate f)), (maxCapacity f <? 1)%Z,
    (length (days (schedule f)) =? 0)%nat,
    (length (timeSlots (schedule f)) =? 0)%nat; reflexivity.
Qed.

End ScheduleFacts.

Module ScheduleClaims.

Import Js ScheduleEditor ScheduleFacts.

(** C3.  For start and end times of form HH:MM, the computed duration is
    [max 0 (endHour*60 + endMinute - (startHour*60 + startMinute))]: the
    exact positive difference when the end is after the start, [0] when
    it is at or before the start.  [handleTimeChange] stores that value
    when the end time is set on a slot that has its start time, and when
    the start time is set on a slot that has its end time.  09:00 to
    11:30 gives 150 and 14:00 to 13:00 gives 0. *)
Theorem C3_duration_derivation (h1 h2 m1 m2 h1' h2' m1' m2' : nat) :
  (h1 < 10)%nat → (h2 < 10)%nat → (m1 < 10)%nat → (m2 < 10)%nat →
  (h1' < 10)%nat → (h2' < 10)%nat → (m1' < 10)%nat → (m2' < 10)%nat →
  let start := HHMM h1 h2 m1 m2 in
  let end_ := HHMM h1' h2' m1' m2' in
  let span := totalMinutes h1' h2' m1' m2' - totalMinutes h1 h2 m1 m2 in
  calculateDuration start end_ = Int (Z.max 0 span)
  ∧ (0 < span → calculateDuration start end_ = Int span)
  ∧ (span ≤ 0 → calculateDuration start end_ = Int 0)
  ∧ (∀ slot, startTime slot = start →
       durationMinutes (timeChanged FEndTime end_ slot) = Int (Z.max 0 span))
  ∧ (∀ slot, endTime slot = end_ →
       durationMinutes (timeChanged FStartTime start slot) = Int (Z.max 0 span))
  ∧ calculateDuration "09:00" "11:30" = Int 150
  ∧ calculateDuration "14:00" "13:00" = Int 0.
Proof.
  intros. subst start end_ span.
  pose proof (calculateDuration_HHMM h1 h2 m1 m2 h1' h2' m1' m2') as Hcalc.
  rewrite Hcalc by done.
  split; [done|split; [|split; [|split; [|split; [|done]]]]].
  - intros Hpos. f_equal. lia.
  - intros Hneg. f_equal. lia.
  - intros slot Hstart.
    rewrite <- (set_duration_id slot), timeChanged_recomputes
      by (cbn; by rewrite Hstart).
    cbn. by rewrite Hstart, Hcalc.
  - intros slot Hend.
    rewrite <- (set_duration_id slot), timeChanged_recomputes
      by (cbn; by rewrite Hend).
    cbn. by rewrite Hend, Hcalc.
Qed.

(** 08:15 to 17:45 gives 570, and 17:45 to 08:15 gives 0. *)
Lemma C3_duration_derivation_witness :
  calculateDuration "08:15" "17:45" = Int 570
  ∧ calculateDuration "17:45" "08:15" = Int 0.
Proof.
  split.
  - refine (proj1 (C3_duration_derivation 0 8 1 5 1 7 4 5 _ _ _ _ _ _ _ _)); lia.
  - refine (proj1 (C3_duration_derivation 1 7 4 5 0 8 1 5 _ _ _ _ _ _ _ _)); lia.
Defined.

(** C4.  On a slot of the list, a direct edit of the duration to [v]
    stores [max 0 v] and touches nothing else: the times of the slot and
    the other slots stay, nothing is recomputed.  The stored slot stays as
    it is through every later edit that is not an edit of this slot, and
    an edit of one of its time fields while the other one is empty keeps
    the stored duration.  The first edit of a time field with the other
    one non-empty replaces the duration by the one computed from the two
    times, whatever the manual value was. *)
Theorem C4_manual_override
    (slots : list TimeSlot) (index : nat) (slot : TimeSlot) (v : Z) :
  slots !! index = Some slot →
  let overridden := set_duration (Int (Z.max 0 v)) slot in
  handleDurationChange index v slots = Some (<[index := overridden]> slots)
  ∧ startTime overridden = startTime slot
  ∧ endTime overridden = endTime slot
  ∧ (∀ (days : list string) (l : list Action) (s' : Schedule),
       Forall (λ a, leavesAlone index a = true) l →
       acts l (mkSchedule days (<[index := overridden]> slots)) = Some s' →
       timeSlots s' !! index = Some overridden)
  ∧ (∀ (field : TimeField) (value : string),
       otherTime field slot = "" →
       durationMinutes (timeChanged field value overridden) = Int (Z.max 0 v))
  ∧ (∀ (field : TimeField) (value : string),
       otherTime field slot ≠ "" →
       let edited := set_time field value slot in
       handleTimeChange index field value (<[index := overridden]> slots)
       = Some (<[index :=
                  set_duration
                    (calculateDuration (startTime edited) (endTime edited))
                    edited]> slots)).
Proof.
  intros Hslot overridden.
  assert (index < length slots)%nat as Hlen by by eapply lookup_lt_Some.
  split; [|split; [done|split; [done|split; [|split]]]].
  - unfold handleDurationChange. by rewrite Hslot.
  - intros days l s' Hquiet Hrun.
    eapply acts_leaveAlone; [exact Hquiet| |exact Hrun].
    by apply list_lookup_insert_eq.
  - intros field value Hother.
    rewrite timeChanged_keeps by by destruct field.
    by destruct field.
  - intros field value Hother edited. unfold handleTimeChange.
    rewrite list_lookup_insert_eq by done.
    rewrite list_insert_insert_eq. subst overridden.
    by rewrite timeChanged_recomputes.
Qed.

(** 09:00 to 11:30 computed as 150 and overridden to 45; a day is
    ticked, a second slot is added and given times: the first slot still
    says 45; then its end time is moved to 12:00 and it says 180. *)
Lemma C4_manual_override_witness :
  let slot := mkTimeSlot "slot-1" "09:00" "11:30" (Int 150) in
  let kept := mkTimeSlot "slot-1" "09:00" "11:30" (Int 45) in
  handleDurationChange 0 45 [slot] = Some [kept]
  ∧ (∀ s', acts [ DayChange "Friday" true; AddTimeSlot "slot-2";
                  TimeChange 1 FStartTime "14:00";
                  TimeChange 1 FEndTime "15:00" ]
                (mkSchedule ["Monday"] [kept]) = Some s' →
           timeSlots s' !! 0%nat = Some kept)
  ∧ handleTimeChange 0 FEndTime "12:00" [kept]
    = Some [mkTimeSlot "slot-1" "09:00" "12:00" (Int 180)].
Proof.
  cbn zeta.
  pose proof (C4_manual_override
                [mkTimeSlot "slot-1" "09:00" "11:30" (Int 150)] 0
                (mkTimeSlot "slot-1" "09:00" "11:30" (Int 150)) 45
                eq_refl) as (Hstore & _ & _ & Hkeep & _ & Hredo).
  split; [exact Hstore|]. split.
  - intros s'. apply (Hkeep ["Monday"]).
    repeat constructor.
  - refine (Hredo FEndTime "12:00" _). cbn. discriminate.
Defined.

(** C7 (as amended).  On the schedule step, [handleNext] stops whenever
    the day list is empty, whatever the time slots are, and whenever the
    time-slot list is empty, whatever the days are.  With both non-empty
    it goes on exactly when the other rules of the form hold (title,
    software, mode, start date and end date filled in, capacity at least
    1).  Only the lengths of the two lists are looked at: what the slots
    contain, an empty start time say, is not checked. *)
Theorem C7_schedule_gate (f : BatchFormData) :
  (days (schedule f) = [] → scheduleStepPasses f = false)
  ∧ (timeSlots (schedule f) = [] → scheduleStepPasses f = false)
  ∧ (days (schedule f) ≠ [] → timeSlots (schedule f) ≠ [] →
     scheduleStepPasses f = otherFieldsValid f)
  ∧ scheduleStepPasses f = otherFieldsValid f && scheduleComplete (schedule f).
Proof.
  rewrite scheduleStepPasses_eq. unfold scheduleComplete. repeat split.
  - intros ->. cbn. by rewrite andb_false_r.
  - intros ->. cbn. by rewrite !andb_false_r.
  - intros Hdays Hslots.
    destruct (days (schedule f)); [done|].
    destruct (timeSlots (schedule f)); [done|].
    cbn. by rewrite andb_true_r.
Qed.

Lemma C7_schedule_gate_witness :
  scheduleStepPasses
    (mkForm "Batch 1" "Photoshop" "online" "2025-01-01" "2025-01-31" 10
            (mkSchedule ["Monday"] [mkTimeSlot "slot-1" "" "" (Int 0)]))
  = true.
Proof.
  refine (proj1 (proj2 (proj2 (C7_schedule_gate _))) _ _); cbn; discriminate.
Defined.

(** C7, as stated, fails on a form whose days and time slots are both
    non-empty and whose capacity was set to 0.  On the schedule step the
    "Next" button is enabled on this form, and a click on it stays on
    the step and calls nothing: [handleNext] stops at the validation. *)
Lemma C7_counterexample :
  let f := mkForm "Batch 1" "Photoshop" "online" "2025-01-01" "2025-01-31" 0
             (mkSchedule ["Monday"]
                [mkTimeSlot "slot-1" "09:00" "11:30" (Int 150)]) in
  let w := BatchWizard.mkWizard 1 f None [] [] in
  days (schedule f) ≠ [] ∧ timeSlots (schedule f) ≠ []
  ∧ scheduleStepPasses f = false
  ∧ BatchWizard.nextDisabled w = false
  ∧ ∀ created suggested, BatchWizard.handleNext created suggested w = w.
Proof. cbn zeta. by repeat split. Qed.

End ScheduleClaims.

(** ** Report dispatcher *)

Module ReportsFacts.

Import Js Reports.

(** The first pair of the table whose predicate holds decides. *)
Lemma firstMatch_first (table before after : list ((Json → bool) * Template))
    (holds : Json → bool) (template : Template) (data : Json) :
  table = (before ++ (holds, template) :: after)%list →
  Forall (λ p, p.1 data = false) before →
  holds data = true →
  firstMatch table data = template.
Proof.
  intros -> Hbefore Hholds.
  induction Hbefore as [|[q t] before Hq _ IH]; cbn in *.
  - by rewrite Hholds.
  - by rewrite Hq.
Qed.

Lemma firstMatch_fallback (table : list ((Json → bool) * Template)) (data : Json) :
  Forall (λ p, p.1 data = false) table →
  firstMatch table data = RawJson.
Proof.
  induction 1 as [|[q t] table Hq _ IH]; cbn in *; [done|]. by rewrite Hq.
Qed.

Lemma renderContent_firstMatch (data : Json) :
  renderContent data = firstMatch templateOrder data.
Proof. reflexivity. Qed.

End ReportsFacts.

Module ReportsClaims.

Import Js Reports ReportsFacts.

(** C5.  [fetchReport] throws "Student ID is required" for
    ['student-attendance'] without a student id, in particular with no
    filter at all; it throws "Batch ID is required" for
    ['batch-attendance'] without a batch id; it throws "Invalid report
    type" for every report type outside the nine identifiers of the
    table; and for ['pending-payments'] it asks for
    [/reports/pending-payments] whatever the filters are, the empty ones
    included. *)
Theorem C5_report_request_validation :
  (∀ params, has params "studentId" = false →
     fetchReport "student-attendance" params = Throws "Student ID is required")
  ∧ fetchReport "student-attendance" ∅ = Throws "Student ID is required"
  ∧ (∀ params, has params "batchId" = false →
       fetchReport "batch-attendance" params = Throws "Batch ID is required")
  ∧ fetchReport "batch-attendance" ∅ = Throws "Batch ID is required"
  ∧ (∀ reportType params, reportType ∉ reportTypes →
       fetchReport reportType params = Throws "Invalid report type")
  ∧ (∀ params, fetchReport "pending-payments" params
               = Gets "/reports/pending-payments")
  ∧ length reportTypes = 9%nat.
Proof.
  split; [|split; [done|split; [|split; [done|split; [|done]]]]].
  - intros params Hno. unfold fetchReport.
    repeat (rewrite decide_False by done). rewrite decide_True by done.
    by rewrite Hno.
  - intros params Hno. unfold fetchReport.
    repeat (rewrite decide_False by done). rewrite decide_True by done.
    by rewrite Hno.
  - intros reportType params Hunknown. unfold fetchReport.
    repeat (destruct (decide (reportType = _)) as [Heq|_];
            [exfalso; apply Hunknown; rewrite Heq;
             apply list_elem_of_In; cbn; tauto|]).
    done.
Qed.

Lemma C5_report_request_validation_witness :
  fetchReport "student-attendance" {[ "from" := "2025-01-01" ]}
  = Throws "Student ID is required"
  ∧ fetchReport "weekly-summary" ∅ = Throws "Invalid report type".
Proof.
  destruct C5_report_request_validation as (Hstudent & _ & _ & _ & Hunknown & _).
  split.
  - apply Hstudent. by vm_compute.
  - apply Hunknown. intros Hin. apply list_elem_of_In in Hin. cbn in Hin.
    repeat (destruct Hin as [Hin|Hin]; [discriminate Hin|]). exact Hin.
Defined.

(** C6.  For every payload the template rendered is that of the first
    entry of the table
      pending-payments, all-analysis, students-without-batch,
      portfolio-status, student-current-batch, student-attendance,
      batch-attendance, batches-by-faculty, monthwise-payments
    whose presence condition holds, and the raw-JSON template when none
    does.  The conditions are those the source tests: [payments] not
    [undefined] and [summary] truthy; [summary.students] and
    [summary.batches] truthy; [students] an array; [portfolios] an array;
    [student] and [currentBatch] truthy; [student] and [attendances]
    truthy; [batch] and [statistics] truthy; [facultyStatistics] an array;
    [monthlyStatistics] an array.  A payload that meets both the
    pending-payments and the all-analysis conditions is rendered as
    pending payments. *)
Theorem C6_template_precedence (data : Json) :
  renderContent data = firstMatch templateOrder data
  ∧ (∀ before holds template after,
       templateOrder = (before ++ (holds, template) :: after)%list →
       Forall (λ p, p.1 data = false) before →
       holds data = true →
       renderContent data = template)
  ∧ (Forall (λ p, p.1 data = false) templateOrder → renderContent data = RawJson)
  ∧ (isPendingPayments data = true → isAllAnalysis data = true →
     renderContent data = PendingPayments)
  ∧ map snd templateOrder
    = [PendingPayments; AllAnalysis; StudentsWithoutBatch; PortfolioStatus;
       StudentCurrentBatch; StudentAttendance; BatchAttendance;
       BatchesByFaculty; MonthwisePayments].
Proof.
  split; [apply renderContent_firstMatch|].
  split; [|split; [|split; [|done]]].
  - intros before holds template after Htable Hbefore Hholds.
    rewrite renderContent_firstMatch. by eapply firstMatch_first.
  - intros Hnone. rewrite renderContent_firstMatch.
    by apply firstMatch_fallback.
  - intros Hpending _. unfold renderContent. by rewrite Hpending.
Qed.

(** A payload with [payments], and a [summary] that has [students] and
    [batches]. *)
Lemma C6_template_precedence_witness :
  let data := JObj [ ("summary", JObj [ ("students", JObj [("total", JNum 3)]);
                                        ("batches", JObj [("total", JNum 1)]) ]);
                     ("payments", JArr []) ] in
  isPendingPayments data = true ∧ isAllAnalysis data = true
  ∧ renderContent data = PendingPayments.
Proof.
  cbn zeta. split; [by vm_compute|]. split; [by vm_compute|].
  refine (proj1 (proj2 (proj2 (proj2 (C6_template_precedence _)))) _ _);
    by vm_compute.
Defined.

End ReportsClaims.

(** ** The JSON codec reads back what it prints *)

Module JsonTextFacts.

Import Js JsonText.

Lemma append_cons (c : ascii) (a b : string) :
  String c a +:+ b = String c (a +:+ b).
Proof. reflexivity. Qed.

Lemma append_nil (b : string) : "" +:+ b = b.
Proof. reflexivity. Qed.

Lemma append_assoc (a b c : string) : (a +:+ b) +:+ c = a +:+ (b +:+ c).
Proof.
  induction a as [|x a IH]; [done|]. rewrite !append_cons. by f_equal.
Qed.

Lemma append_empty (a : string) : a +:+ "" = a.
Proof. induction a as [|x a IH]; [done|]. rewrite append_cons. by f_equal. Qed.

Lemma length_append (a b : string) :
  String.length (a +:+ b) = (String.length a + String.length b)%nat.
Proof.
  induction a as [|x a IH]; [done|]. rewrite append_cons. cbn. by f_equal.
Qed.

Lemma parse_string_escape (s rest : string) :
  parse_string (escape s +:+ String quote rest) = Some (s, rest).
Proof.
  induction s as [|c s IH]; [done|].
  cbn [escape].
  destruct (bool_decide (c = quote) || bool_decide (c = backslash)) eqn:Hc.
  - rewrite !append_cons. cbn [parse_string].
    rewrite (decide_False (P := backslash = quote)) by done.
    rewrite (decide_True (P := backslash = backslash)) by done.
    by rewrite Hc, IH.
  - apply orb_false_elim in Hc as [Hq Hb].
    apply bool_decide_eq_false in Hq, Hb.
    rewrite append_cons. cbn [parse_string].
    by rewrite !decide_False, IH by done.
Qed.

Lemma digit_value_char (d : N) :
  (d < 10)%N → digit_value (pretty_N_char d) = Some (Z.of_N d).
Proof.
  intros Hd.
  assert (d = 0 ∨ d = 1 ∨ d = 2 ∨ d = 3 ∨ d = 4 ∨ d = 5 ∨ d = 6 ∨ d = 7
          ∨ d = 8 ∨ d = 9)%N as Hcases by lia.
  repeat (destruct Hcases as [->|Hcases]; [done|]). by subst.
Qed.

Lemma follow_stops (rest : string) :
  follow rest = true → take_digits rest = ("", rest) ∧ number_goes_on rest = false.
Proof.
  destruct rest as [|c rest]; [done|]. cbn [follow]. intros Hc.
  apply bool_decide_eq_true in Hc.
  rewrite !elem_of_cons in Hc.
  destruct Hc as [->|[->|[->|Hc]]]; [split; by vm_compute..|]. by apply elem_of_nil in Hc.
Qed.

Lemma pretty_N_go_append (x : N) (s rest : string) :
  pretty_N_go x s +:+ rest = pretty_N_go x (s +:+ rest).
Proof.
  revert s. induction (N.lt_wf_0 x) as [x _ IH]; intros s.
  destruct (decide (x = 0)%N) as [->|Hx]; [by rewrite !pretty_N_go_0|].
  rewrite (pretty_N_go_step x s), (pretty_N_go_step x (s +:+ rest)) by lia.
  rewrite IH by (apply N.div_lt; lia). reflexivity.
Qed.

Lemma take_digits_pretty_go (x : N) (s : string) :
  take_digits (pretty_N_go x s)
  = (pretty_N_go x (take_digits s).1, (take_digits s).2).
Proof.
  revert s. induction (N.lt_wf_0 x) as [x _ IH]; intros s.
  destruct (decide (x = 0)%N) as [->|Hx].
  { rewrite !pretty_N_go_0. by destruct (take_digits s). }
  rewrite (pretty_N_go_step x s), (pretty_N_go_step x (take_digits s).1) by lia.
  rewrite IH by (apply N.div_lt; lia).
  cbn [take_digits]. rewrite digit_value_char by (apply N.mod_lt; lia).
  by destruct (take_digits s).
Qed.

Lemma digits_value_pretty_go (x : N) (s : string) :
  ∃ k : nat, ∀ acc,
    digits_value acc (pretty_N_go x s)
    = digits_value (acc * 10 ^ Z.of_nat k + Z.of_N x) s.
Proof.
  revert s. induction (N.lt_wf_0 x) as [x _ IH]; intros s.
  destruct (decide (x = 0)%N) as [->|Hx].
  { exists 0%nat. intros acc. rewrite pretty_N_go_0. f_equal. cbn. lia. }
  destruct (IH (x `div` 10)%N ltac:(apply N.div_lt; lia)
               (String (pretty_N_char (x `mod` 10)) s)) as [k Hk].
  exists (S k). intros acc. rewrite pretty_N_go_step, Hk by lia.
  cbn [digits_value]. rewrite digit_value_char by (apply N.mod_lt; lia).
  f_equal. rewrite Nat2Z.inj_succ, Z.pow_succ_r by lia.
  rewrite N2Z.inj_div, N2Z.inj_mod.
  pose proof (Z.div_mod (Z.of_N x) 10 ltac:(lia)). lia.
Qed.

Lemma pretty_N_go_head (x : N) (s : string) :
  (0 < x)%N →
  ∃ d t, (0 < d < 10)%N ∧ pretty_N_go x s = String (pretty_N_char d) t.
Proof.
  revert s. induction (N.lt_wf_0 x) as [x _ IH]; intros s Hx.
  rewrite pretty_N_go_step by done.
  destruct (decide (x < 10)%N) as [Hsmall|Hbig].
  - rewrite N.div_small, N.mod_small, pretty_N_go_0 by done.
    exists x, s. split; [lia|done].
  - apply IH; [apply N.div_lt; lia|]. apply N.div_str_pos. lia.
Qed.

Lemma pretty_N_char_not_zero (d : N) :
  (0 < d < 10)%N → pretty_N_char d ≠ "0"%char.
Proof.
  intros Hd Heq. apply (pretty_N_char_inj d 0) in Heq; lia.
Qed.

Lemma parse_nat_pretty (n : N) (rest : string) :
  follow rest = true →
  parse_nat (pretty n +:+ rest) = Some (Z.of_N n, rest).
Proof.
  intros [Hstop Hgo]%follow_stops. unfold pretty, pretty_N, parse_nat.
  destruct (decide (n = 0)%N) as [->|Hn].
  { rewrite append_cons, append_nil. cbn [take_digits].
    assert (digit_value "0" = Some 0) as -> by reflexivity.
    rewrite Hstop, Hgo. reflexivity. }
  rewrite pretty_N_go_append, append_nil, take_digits_pretty_go, Hstop.
  cbn [fst snd].
  destruct (pretty_N_go_head n "" ltac:(lia)) as (d & t & Hd & Hhead).
  destruct (digits_value_pretty_go n "") as [k Hk].
  rewrite Hgo, orb_false_r. unfold Number. rewrite Hk. cbn [digits_value].
  rewrite Hhead.
  assert (leading_zero (String (pretty_N_char d) t) = false) as ->.
  { destruct t; [done|]. cbn.
    apply bool_decide_eq_false. by apply pretty_N_char_not_zero. }
  rewrite bool_decide_eq_false_2 by done. cbn. do 2 f_equal; lia.
Qed.

(** A text that starts with a digit is read as a number. *)
Lemma parse_value_digit (fuel : nat) (d : N) (t : string) :
  (d < 10)%N →
  parse_value (S fuel) (String (pretty_N_char d) t)
  = match parse_nat (String (pretty_N_char d) t) with
    | Some (z, after) => Some (JNum z, after)
    | None => None
    end.
Proof.
  intros Hd.
  assert (d = 0 ∨ d = 1 ∨ d = 2 ∨ d = 3 ∨ d = 4 ∨ d = 5 ∨ d = 6 ∨ d = 7
          ∨ d = 8 ∨ d = 9)%N as Hcases by lia.
  repeat (destruct Hcases as [->|Hcases]; [reflexivity|]). by subst.
Qed.

Lemma parse_value_number (z : Z) (rest : string) (fuel : nat) :
  follow rest = true →
  parse_value (S fuel) (pretty z +:+ rest) = Some (JNum z, rest).
Proof.
  intros Hrest. destruct z as [|p|p].
  - pose proof (parse_nat_pretty 0 rest Hrest) as Hnat.
    change (pretty 0%N +:+ rest) with (String (pretty_N_char 0) rest) in Hnat.
    change (pretty 0 +:+ rest) with (String (pretty_N_char 0) rest).
    by rewrite parse_value_digit, Hnat.
  - pose proof (parse_nat_pretty (N.pos p) rest Hrest) as Hnat.
    change (pretty (N.pos p)) with (pretty_N_go (N.pos p) "") in Hnat.
    change (pretty (Z.pos p)) with (pretty_N_go (N.pos p) "").
    destruct (pretty_N_go_head (N.pos p) "" ltac:(lia)) as (d & t & Hd & Hhead).
    rewrite Hhead, append_cons in Hnat |- *.
    by rewrite parse_value_digit, Hnat by lia.
  - pose proof (parse_nat_pretty (N.pos p) rest Hrest) as Hnat.
    change (pretty (Z.neg p)) with ("-" +:+ pretty (N.pos p)).
    rewrite append_assoc, append_cons, append_nil.
    cbn [parse_value skip_ws]. change (is_ws "-") with false. cbn iota.
    rewrite !decide_False by done. rewrite decide_True by done.
    by rewrite Hnat.
Qed.

Lemma Json_nested_ind (P : Json → Prop) :
  P JNull → (∀ b, P (JBool b)) → (∀ z, P (JNum z)) → (∀ s, P (JStr s)) →
  (∀ items, Forall P items → P (JArr items)) →
  (∀ props, Forall (λ p, P p.2) props → P (JObj props)) →
  ∀ v, P v.
Proof.
  intros Hnull Hbool Hnum Hstr Harr Hobj. fix IH 1.
  intros [|b|z|s|items|props]; [done..| |].
  - apply Harr. induction items as [|x items IHitems]; constructor.
    + apply IH.
    + apply IHitems.
  - apply Hobj. induction props as [|[k x] props IHprops]; constructor.
    + apply IH.
    + apply IHprops.
Qed.

Lemma quoted_append (k rest : string) :
  quoted k +:+ rest = String quote (escape k +:+ String quote rest).
Proof. unfold quoted. rewrite append_assoc. reflexivity. Qed.

Lemma digit_opens (d : N) : (d < 10)%N → opens (pretty_N_char d).
Proof.
  intros Hd.
  assert (d = 0 ∨ d = 1 ∨ d = 2 ∨ d = 3 ∨ d = 4 ∨ d = 5 ∨ d = 6 ∨ d = 7
          ∨ d = 8 ∨ d = 9)%N as Hcases by lia.
  repeat (destruct Hcases as [->|Hcases]; [by repeat split|]).
  subst. by repeat split.
Qed.

Lemma stringify_head (v : Json) :
  ∃ c t, stringify v = String c t ∧ opens c.
Proof.
  destruct v as [|[]|[|p|p]|s|items|props];
    try by (eexists _, _; split; [reflexivity|by repeat split]).
  change (stringify (JNum (Z.pos p))) with (pretty_N_go (N.pos p) "").
  destruct (pretty_N_go_head (N.pos p) "" ltac:(lia)) as (d & t & Hd & ->).
  eexists _, _. split; [reflexivity|]. apply digit_opens. lia.
Qed.

Lemma skip_ws_opens (c : ascii) (t : string) :
  opens c → skip_ws (String c t) = String c t.
Proof. intros (Hws & _). cbn [skip_ws]. by rewrite Hws. Qed.

Lemma elements_text_concat (x : Json) (l : list Json) (rest : string) :
  (String.concat "," (map stringify (x :: l)) +:+ "]") +:+ rest
  = elements_text x l rest.
Proof.
  revert x. induction l as [|y l IH]; intros x.
  - cbn [map String.concat elements_text]. by rewrite append_assoc.
  - change (String.concat "," (map stringify (x :: y :: l)))
      with (stringify x +:+ "," +:+ String.concat "," (map stringify (y :: l))).
    cbn [elements_text]. rewrite <- IH, !append_assoc. reflexivity.
Qed.

Lemma members_text_concat (p : string * Json) (l : list (string * Json))
    (rest : string) :
  (String.concat "," (map member_text (p :: l)) +:+ "}") +:+ rest
  = members_text p l rest.
Proof.
  revert p. induction l as [|q l IH]; intros p.
  - cbn [map String.concat members_text]. by rewrite append_assoc.
  - change (String.concat "," (map member_text (p :: q :: l)))
      with (member_text p +:+ "," +:+ String.concat "," (map member_text (q :: l))).
    cbn [members_text]. rewrite <- IH, !append_assoc. reflexivity.
Qed.

Lemma stringify_arr (items : list Json) :
  stringify (JArr items) = "[" +:+ String.concat "," (map stringify items) +:+ "]".
Proof. reflexivity. Qed.

Lemma stringify_obj (props : list (string * Json)) :
  stringify (JObj props) = "{" +:+ String.concat "," (map member_text props) +:+ "}".
Proof.
  change (stringify (JObj props))
    with ("{" +:+ String.concat ","
            (map (λ p, match p with
                       | (k, x) => quoted k +:+ ":" +:+ stringify x
                       end) props) +:+ "}").
  do 3 f_equal. apply map_ext. by intros [k x].
Qed.

Lemma parse_elements_text (f : nat) (l : list Json) :
  ∀ (x : Json) (rest : string) (fuel : nat),
    Forall reads_back (x :: l) →
    follow rest = true →
    (String.length (elements_text x l rest) < f)%nat →
    (String.length (elements_text x l rest) < fuel)%nat →
    parse_elements (parse_value f) fuel (elements_text x l rest)
    = Some (x :: l, rest).
Proof.
  induction l as [|y l IH]; intros x rest fuel Hall Hrest Hf Hfuel;
    apply Forall_cons in Hall as [Hx Hl];
    (destruct fuel as [|fuel]; [lia|]); cbn [parse_elements elements_text] in *.
  - rewrite Hx by done. reflexivity.
  - rewrite length_append in Hf, Hfuel. cbn [String.length] in Hf, Hfuel.
    rewrite Hx by (by rewrite ?length_append).
    change (skip_ws (String "," ?t)) with (String "," t). cbn beta iota.
    rewrite decide_True by done.
    rewrite IH by (done || lia). reflexivity.
Qed.

Lemma parse_members_unfold (pv : string → option (Json * string)) (fuel : nat)
    (k tail : string) :
  parse_members pv (S fuel) (quoted k +:+ ":" +:+ tail)
  = match pv tail with
    | Some (v, after) =>
        match skip_ws after with
        | String d rest' =>
            if decide (d = ","%char) then
              match parse_members pv fuel rest' with
              | Some (ms, after') => Some ((k, v) :: ms, after')
              | None => None
              end
            else if decide (d = "}"%char) then Some ([(k, v)], rest')
            else None
        | EmptyString => None
        end
    | None => None
    end.
Proof.
  rewrite quoted_append. cbn [parse_members].
  change (skip_ws (String quote ?t)) with (String quote t). cbn beta iota.
  rewrite decide_True by done. rewrite parse_string_escape.
  change (skip_ws (":" +:+ tail)) with (String ":" tail). cbn beta iota.
  by rewrite decide_True.
Qed.

Lemma parse_members_text (f : nat) (l : list (string * Json)) :
  ∀ (p : string * Json) (rest : string) (fuel : nat),
    Forall (λ q, reads_back q.2) (p :: l) →
    follow rest = true →
    (String.length (members_text p l rest) < f)%nat →
    (String.length (members_text p l rest) < fuel)%nat →
    parse_members (parse_value f) fuel (members_text p l rest)
    = Some (p :: l, rest).
Proof.
  induction l as [|q l IH]; intros [k x] rest fuel Hall Hrest Hf Hfuel;
    apply Forall_cons in Hall as [Hx Hl]; cbn [snd] in Hx;
    (destruct fuel as [|fuel]; [lia|]);
    cbn [members_text] in *; unfold member_text in *; cbn [fst snd] in *;
    rewrite !append_assoc in *; rewrite parse_members_unfold;
    rewrite !length_append in Hf, Hfuel; cbn [String.length] in Hf, Hfuel.
  - rewrite Hx by (done || rewrite length_append; cbn [String.length]; lia).
    reflexivity.
  - rewrite Hx by (done || rewrite length_append; cbn [String.length]; lia).
    change (skip_ws (String "," ?t)) with (String "," t). cbn beta iota.
    rewrite decide_True by done.
    rewrite IH by (done || lia). reflexivity.
Qed.

(** Every value is read back from its text. *)
Lemma parse_value_stringify (v : Json) : reads_back v.
Proof.
  induction v as [|b|z|s|items IH|props IH] using Json_nested_ind;
    intros rest fuel Hrest Hfuel; (destruct fuel as [|fuel]; [lia|]).
  - reflexivity.
  - by destruct b.
  - by apply parse_value_number.
  - change (stringify (JStr s)) with (quoted s). rewrite quoted_append.
    cbn [parse_value]. change (skip_ws (String quote ?t)) with (String quote t).
    cbn beta iota. rewrite !decide_False by done. rewrite decide_True by done.
    by rewrite parse_string_escape.
  - rewrite stringify_arr in *. rewrite !append_assoc, append_cons, append_nil in *.
    cbn [String.length] in Hfuel.
    cbn [parse_value]. change (skip_ws (String "[" ?t)) with (String "[" t).
    cbn beta iota. rewrite !decide_False by done. rewrite decide_True by done.
    destruct items as [|x l]; [reflexivity|].
    rewrite <- append_assoc, elements_text_concat in *.
    destruct (stringify_head x) as (c & t & Hhead & Hopens).
    assert (elements_text x l rest = String c (t +:+ match l with
              | [] => String "]" rest
              | next :: others' => String "," (elements_text next others' rest)
              end)) as Htext.
    { destruct l; cbn [elements_text]; by rewrite Hhead. }
    rewrite Htext at 1. rewrite skip_ws_opens by done.
    rewrite decide_False by apply Hopens.
    rewrite parse_elements_text by (done || lia). reflexivity.
  - rewrite stringify_obj in *. rewrite !append_assoc, append_cons, append_nil in *.
    cbn [String.length] in Hfuel.
    cbn [parse_value]. change (skip_ws (String "{" ?t)) with (String "{" t).
    cbn beta iota. rewrite !decide_False by done. rewrite decide_True by done.
    destruct props as [|[k x] l]; [reflexivity|].
    rewrite <- append_assoc, members_text_concat in *.
    assert (∃ t, members_text (k, x) l rest = String quote t) as [t Htext].
    { destruct l; cbn [members_text]; unfold member_text;
        rewrite append_assoc, quoted_append; eauto. }
    rewrite Htext at 1.
    change (skip_ws (String quote ?t)) with (String quote t). cbn beta iota.
    rewrite decide_False by done.
    rewrite parse_members_text by (done || lia). reflexivity.
Qed.

Theorem parse_stringify (v : Json) : parse (stringify v) = Some v.
Proof.
  unfold parse.
  rewrite <- (append_empty (stringify v)) at 2.
  rewrite parse_value_stringify; [done|done|].
  rewrite append_empty. lia.
Qed.

End JsonTextFacts.


(** ** Reading a batch schedule *)

Module BatchesListFacts.

Import Js ScheduleEditor BatchesList.

Lemma joinItem_days (names : list string) :
  mapM joinItem (map JStr names) = Some names.
Proof.
  induction names as [|name names IH]; [done|].
  cbn. cbn in IH. by rewrite IH.
Qed.

Lemma get_startTime (slot : TimeSlot) :
  get (slotJson slot) "startTime" = Some (JStr (startTime slot)).
Proof. reflexivity. Qed.

Lemma get_endTime (slot : TimeSlot) :
  get (slotJson slot) "endTime" = Some (JStr (endTime slot)).
Proof. reflexivity. Qed.

Lemma get_durationMinutes (slot : TimeSlot) :
  get (slotJson slot) "durationMinutes"
  = Some (numberJson (durationMinutes slot)).
Proof. reflexivity. Qed.

Lemma get_days (s : Schedule) :
  get (scheduleJson s) "days" = Some (JArr (map JStr (days s))).
Proof. reflexivity. Qed.

Lemma get_timeSlots (s : Schedule) :
  get (scheduleJson s) "timeSlots" = Some (JArr (map slotJson (timeSlots s))).
Proof. reflexivity. Qed.

(** Every slot of a schedule is inside the model of [formatSlot]. *)
Lemma formatSlot_slotJson (slot : TimeSlot) : is_Some (formatSlot (slotJson slot)).
Proof.
  unfold formatSlot.
  rewrite get_startTime, get_endTime, get_durationMinutes.
  change (slotJson slot) with (JObj
    [ ("id", JStr (id slot)); ("startTime", JStr (startTime slot));
      ("endTime", JStr (endTime slot));
      ("durationMinutes", numberJson (durationMinutes slot)) ]).
  cbn beta iota.
  destruct (truthy_opt (Some (JStr (startTime slot)))
            && truthy_opt (Some (JStr (endTime slot)))); [|by eexists].
  destruct (durationMinutes slot) as [z|]; cbn; [|by eexists].
  destruct (negb (z =? 0)); cbn; by eexists.
Qed.

Lemma formatSlot_slots (slots : list TimeSlot) :
  is_Some (mapM formatSlot (map slotJson slots)).
Proof.
  induction slots as [|slot slots [texts IH]]; [by eexists|].
  destruct (formatSlot_slotJson slot) as [t Ht].
  change (is_Some (t' ← formatSlot (slotJson slot);
                   ts ← mapM formatSlot (map slotJson slots);
                   Some (t' :: ts))).
  rewrite Ht, IH. by eexists.
Qed.

Section Parser.

Variable JSON_parse : string → option Json.

Lemma formatDays_schedule (s : Schedule) :
  formatDays JSON_parse (Some (scheduleJson s))
  = Some (String.concat ", " (days s)).
Proof.
  unfold formatDays.
  assert (parseIfString JSON_parse (scheduleJson s) = Some (scheduleJson s))
    as -> by reflexivity.
  rewrite get_days. cbn [negb truthy_opt truthy isArray orb].
  by rewrite joinItem_days.
Qed.

Lemma formatTimeSlots_schedule (s : Schedule) :
  is_Some (formatTimeSlots JSON_parse (Some (scheduleJson s))).
Proof.
  unfold formatTimeSlots.
  assert (parseIfString JSON_parse (scheduleJson s) = Some (scheduleJson s))
    as -> by reflexivity.
  rewrite get_timeSlots. cbn [negb truthy_opt truthy isArray orb].
  destruct (formatSlot_slots (timeSlots s)) as [texts ->].
  by eexists.
Qed.

(** A non-empty string that [JSON.parse] reads as an object is read like
    that object. *)
Lemma sameReading_object (text : string) (props : list (string * Json)) :
  text ≠ "" →
  JSON_parse text = Some (JObj props) →
  sameReading JSON_parse text (JObj props).
Proof.
  intros Hnonempty Hparse.
  assert (truthy (JStr text) = true) as Htruthy.
  { cbn. unfold truthy_string. by rewrite decide_False. }
  unfold sameReading, formatTimeSlots, formatDays, getScheduleObject.
  rewrite Htruthy. cbn [negb parseIfString truthy]. by rewrite Hparse.
Qed.

(** A string that [JSON.parse] rejects is "Not specified", or [null]. *)
Lemma rejected_text (bad : string) :
  JSON_parse bad = None →
  formatTimeSlots JSON_parse (Some (JStr bad)) = Some "Not specified"
  ∧ formatDays JSON_parse (Some (JStr bad)) = Some "Not specified"
  ∧ getScheduleObject JSON_parse (Some (JStr bad)) = JNull.
Proof.
  intros Hbad. unfold formatTimeSlots, formatDays, getScheduleObject.
  cbn [parseIfString]. rewrite Hbad.
  by destruct (negb (truthy (JStr bad))).
Qed.

End Parser.

(** The text the codec prints for a schedule is not empty and is read
    back as the schedule. *)
Lemma schedule_text (s : Schedule) :
  JsonText.stringify (scheduleJson s) ≠ ""
  ∧ JsonText.parse (JsonText.stringify (scheduleJson s)) = Some (scheduleJson s).
Proof.
  split; [|apply JsonTextFacts.parse_stringify].
  unfold scheduleJson. by rewrite JsonTextFacts.stringify_obj.
Qed.

End BatchesListFacts.

Module BatchesListClaims.

Import Js ScheduleEditor BatchesList BatchesListFacts.

(** C8.  For every schedule [s], a JSON text of [s] (a non-empty string
    that [JSON.parse] reads as the structured object of [s]) is displayed
    like the object itself: [formatTimeSlots], [formatDays] and
    [getScheduleObject] give the same result on both.  This holds in
    particular for the text the codec of this development prints for
    [s], read with its parser.  On the object both formatters produce a
    text (for the days, their names joined by a comma and a blank), and
    the normalised schedule is the object itself.  On a string that
    [JSON.parse] rejects, the two formatters answer 'Not specified' and
    [getScheduleObject] answers [null]; nothing is thrown. *)
Theorem C8_schedule_reading (s : Schedule) :
  (∀ (JSON_parse : string → option Json) (text : string),
     text ≠ "" →
     JSON_parse text = Some (scheduleJson s) →
     sameReading JSON_parse text (scheduleJson s))
  ∧ sameReading JsonText.parse (JsonText.stringify (scheduleJson s))
                (scheduleJson s)
  ∧ (∀ JSON_parse : string → option Json,
       is_Some (formatTimeSlots JSON_parse (Some (scheduleJson s)))
       ∧ formatDays JSON_parse (Some (scheduleJson s))
         = Some (String.concat ", " (days s))
       ∧ getScheduleObject JSON_parse (Some (scheduleJson s)) = scheduleJson s)
  ∧ (∀ (JSON_parse : string → option Json) (bad : string),
       JSON_parse bad = None →
       formatTimeSlots JSON_parse (Some (JStr bad)) = Some "Not specified"
       ∧ formatDays JSON_parse (Some (JStr bad)) = Some "Not specified"
       ∧ getScheduleObject JSON_parse (Some (JStr bad)) = JNull).
Proof.
  split; [|split; [|split]].
  - intros JSON_parse text Hnonempty Hparse. by apply sameReading_object.
  - destruct (schedule_text s) as [Hnonempty Hparse].
    by apply sameReading_object.
  - intros JSON_parse. split; [apply formatTimeSlots_schedule|].
    split; [apply formatDays_schedule|done].
  - intros JSON_parse bad. apply rejected_text.
Qed.

(** The readers run on the text the codec prints for a schedule with two
    days and three slots, one without an end time and one whose duration
    was [NaN] when it was submitted. *)
Lemma C8_schedule_reading_witness :
  let s := mkSchedule ["Monday"; "Wednesday"]
             [ mkTimeSlot "slot-1" "09:00" "11:30" (Int 150);
               mkTimeSlot "slot-2" "14:00" "" (Int 0);
               mkTimeSlot "slot-3" "10:00" "10:45" NaN ] in
  let text := JsonText.stringify (scheduleJson s) in
  formatTimeSlots JsonText.parse (Some (JStr text))
    = Some "09:00 - 11:30 (2h 30m), 10:00 - 10:45"
  ∧ formatDays JsonText.parse (Some (JStr text)) = Some "Monday, Wednesday"
  ∧ getScheduleObject JsonText.parse (Some (JStr text)) = scheduleJson s.
Proof.
  cbn zeta.
  pose proof (proj1 (C8_schedule_reading
    (mkSchedule ["Monday"; "Wednesday"]
       [ mkTimeSlot "slot-1" "09:00" "11:30" (Int 150);
         mkTimeSlot "slot-2" "14:00" "" (Int 0);
         mkTimeSlot "slot-3" "10:00" "10:45" NaN ]))
    JsonText.parse
    (JsonText.stringify (scheduleJson
       (mkSchedule ["Monday"; "Wednesday"]
          [ mkTimeSlot "slot-1" "09:00" "11:30" (Int 150);
            mkTimeSlot "slot-2" "14:00" "" (Int 0);
            mkTimeSlot "slot-3" "10:00" "10:45" NaN ]))))
    as Hread.
  destruct Hread as (Hslots & Hdays & Hobject).
  - vm_compute. discriminate.
  - vm_compute. reflexivity.
  - split; [|split].
    + rewrite Hslots. vm_compute. reflexivity.
    + rewrite Hdays. vm_compute. reflexivity.
    + rewrite Hobject. vm_compute. reflexivity.
Defined.

End BatchesListClaims.

(** * Further properties of the code *)

(** ** Attendance modal *)

Module AttendanceSessionFacts.

Import Attendance AttendanceFacts AttendanceSession.

Lemma records_loop_last (atts : list AttendanceRecord)
    (m : gmap Z AttendanceStatus) (sid : Z) :
  foldl (λ initial att, <[att_studentId att := att_status att]> initial) m atts
    !! sid
  = match recordedStatus atts sid with
    | Some s => Some s
    | None => m !! sid
    end.
Proof.
  unfold recordedStatus.
  induction atts as [|a atts IH] using rev_ind; [done|].
  rewrite foldl_app, filter_app. cbn [foldl].
  destruct (decide (att_studentId a = sid)) as [<-|Hne].
  - rewrite lookup_insert_eq.
    rewrite (filter_cons_True _ a []) by done.
    by rewrite filter_nil, last_snoc.
  - rewrite lookup_insert_ne by done.
    rewrite (filter_cons_False _ a []) by done.
    by rewrite filter_nil, app_nil_r.
Qed.

Lemma initAttendances_records (atts : list AttendanceRecord)
    (enrollments : option (list Enrollment)) (prev : gmap Z AttendanceStatus)
    (sid : Z) :
  initAttendances (Some atts) enrollments prev !! sid = recordedStatus atts sid.
Proof.
  cbn [initAttendances]. rewrite records_loop_last, lookup_empty.
  by destruct (recordedStatus atts sid).
Qed.

Lemma clicks_snoc (enrollments : option (list Enrollment)) (l : list Click)
    (c : Click) (st : State) :
  clicks enrollments (l ++ [c]) st = onClick enrollments c (clicks enrollments l st).
Proof. unfold clicks. by rewrite foldl_app. Qed.

(** Row clicks with no arrival of data in between. *)
Lemma clicks_rows (enrollments : option (list Enrollment))
    (l : list Click) (st : State) (sid : Z) :
  forallb isRowClick l = true →
  issued (clicks enrollments l st) = (issued st ++ omap rowCall l)%list
  ∧ length (omap rowCall l) = length l
  ∧ forallb manual_flag_ok (omap rowCall l) = true
  ∧ studentAttendances (clicks enrollments l st) !! sid
    = match chosenStatus l sid with
      | Some s => Some s
      | None => studentAttendances st !! sid
      end.
Proof.
  unfold chosenStatus.
  induction l as [|c l IH] using rev_ind; intros Hrow.
  { cbn. rewrite app_nil_r. by repeat split. }
  rewrite forallb_app in Hrow. apply andb_true_iff in Hrow as [Hl Hc].
  destruct (IH Hl) as (Hissued & Hlen & Hflags & Hmap). clear IH.
  rewrite clicks_snoc, omap_app, !length_app, forallb_app, filter_app, Hflags.
  destruct c as [s|s|s|]; [| | |done];
    cbn [onClick handleAttendanceChange issued studentAttendances];
    rewrite Hissued, Hlen, <- app_assoc;
    (split; [done|]); (split; [done|]); (split; [done|]);
    (destruct (decide (s = sid)) as [->|Hne];
     [ rewrite lookup_insert_eq;
       match goal with
       | |- context [filter ?P (omap rowCall [?c])] =>
           change (filter P (omap rowCall [c]))
             with (filter P (from_option (λ x, [x]) [] (rowCall c)));
           cbn [rowCall from_option];
           rewrite (filter_cons_True P _ []) by done
       end;
       by rewrite filter_nil, last_snoc
     | rewrite lookup_insert_ne by done;
       match goal with
       | |- context [filter ?P (omap rowCall [?c])] =>
           change (filter P (omap rowCall [c]))
             with (filter P (from_option (λ x, [x]) [] (rowCall c)));
           cbn [rowCall from_option];
           rewrite (filter_cons_False P _ []) by done
       end;
       by rewrite filter_nil, app_nil_r ]).
Qed.

Lemma session_snoc (l : list ModalEvent) (e : ModalEvent) (m : Modal) :
  session (l ++ [e]) m = onEvent e (session l m).
Proof. unfold session. by rewrite foldl_app. Qed.

Lemma session_clicks (post : list Click) (m : Modal) :
  session (map Clicked post) m
  = {| attendancesData := attendancesData m;
       enrollmentsData := enrollmentsData m;
       local := clicks (enrollmentsData m) post (local m) |}.
Proof.
  induction post as [|c post IH] using rev_ind; [by destruct m|].
  rewrite map_app. cbn [map]. by rewrite session_snoc, IH, clicks_snoc.
Qed.

Lemma session_issued (l : list ModalEvent) (m : Modal) :
  rowEvents l = true →
  issued (local (session l m)) = (issued (local m) ++ omap eventCall l)%list.
Proof.
  unfold rowEvents.
  induction l as [|e l IH] using rev_ind; intros Hrows.
  { cbn. by rewrite app_nil_r. }
  rewrite forallb_app in Hrows. apply andb_true_iff in Hrows as [Hl He].
  rewrite session_snoc, omap_app, app_assoc, <- (IH Hl).
  destruct e as [[s|s|s|]|atts|enrs]; try done; cbn; by rewrite app_nil_r.
Qed.

Lemma eventCall_flags (l : list ModalEvent) :
  forallb manual_flag_ok (omap eventCall l) = true.
Proof.
  induction l as [|e l IH]; [done|].
  destruct e as [[s|s|s|]|atts|enrs]; cbn; done.
Qed.

End AttendanceSessionFacts.

Module AttendanceExtras.

Import Attendance AttendanceFacts AttendanceSession AttendanceSessionFacts.

(** X1.  Reconciliation overwrites what the operator chose locally: once
    one of the two queries has data, the map the effect computes does not
    depend on the state it replaces, whatever clicks led to that state;
    so running the effect again on the same server data gives the same
    map. *)
Theorem X1_reconciliation_discards_local_state
    (attendances : option (list AttendanceRecord))
    (enrollments : option (list Enrollment))
    (l : list Click) (st : State) (prev : gmap Z AttendanceStatus) :
  (is_Some attendances ∨ is_Some enrollments) →
  initAttendances attendances enrollments
                  (studentAttendances (clicks enrollments l st))
  = initAttendances attendances enrollments prev
  ∧ initAttendances attendances enrollments
      (initAttendances attendances enrollments prev)
    = initAttendances attendances enrollments prev.
Proof.
  intros [[atts ->]|[enrs ->]]; [done|]. by destruct attendances.
Qed.

Lemma X1_reconciliation_discards_local_state_witness :
  initAttendances (Some [mkAttendance 1 PRESENT]) (Some [mkEnrollment 10 1])
    (studentAttendances
       (clicks (Some [mkEnrollment 10 1]) [ClickAbsent 1; ClickManual 2]
               (mkState ∅ [])))
  = {[ 1 := PRESENT ]}.
Proof.
  refine (proj1 (X1_reconciliation_discards_local_state
                   (Some [mkAttendance 1 PRESENT]) (Some [mkEnrollment 10 1])
                   [ClickAbsent 1; ClickManual 2] (mkState ∅ []) ∅ _)).
  left. by eexists.
Defined.

(** X2.  Through any series of row clicks and arrivals of query data,
    one call is issued per click, in click order and with the student,
    status and flag of the button; an arrival of data issues none; and
    each call has [isManual] set exactly when its status is
    [MANUAL_PRESENT].  The status stored for a student is that of the
    last click on that student since data last arrived; without such a
    click it is what the effect stored, which after an arrival of
    attendance records is the status of the student's last record, and
    nothing for a student without a record.  So a click made before the
    records are fetched again shows only as far as the records hold
    it. *)
Theorem X2_row_clicks (l : list ModalEvent) (post : list Click)
    (m : Modal) (sid : Z) :
  rowEvents l = true →
  forallb isRowClick post = true →
  let before := session l m in
  let after := session (map Clicked post) before in
  issued (local after)
  = (issued (local m) ++ omap eventCall l ++ omap rowCall post)%list
  ∧ length (omap rowCall post) = length post
  ∧ forallb manual_flag_ok (omap eventCall l ++ omap rowCall post)%list = true
  ∧ studentAttendances (local after) !! sid
    = match chosenStatus post sid with
      | Some s => Some s
      | None => studentAttendances (local before) !! sid
      end
  ∧ (∀ pre atts, l = (pre ++ [AttendancesFetched (Some atts)])%list →
       studentAttendances (local before) !! sid = recordedStatus atts sid).
Proof.
  intros Hl Hpost. cbn zeta.
  rewrite session_clicks. cbn [local].
  destruct (clicks_rows (enrollmentsData (session l m)) post
              (local (session l m)) sid Hpost)
    as (Hissued & Hlen & Hflags & Hmap).
  split.
  { by rewrite Hissued, (session_issued l m Hl), <- app_assoc. }
  split; [done|]. split.
  { by rewrite forallb_app, eventCall_flags, Hflags. }
  split; [done|].
  intros pre atts ->. rewrite session_snoc.
  cbn [onEvent runEffect local studentAttendances attendancesData].
  apply initAttendances_records.
Qed.

(** A click on student 1, the records fetched again with the mark of
    student 1 in them, then a click on student 2. *)
Lemma X2_row_clicks_witness :
  let m := mkModal None (Some [mkEnrollment 10 1; mkEnrollment 11 2])
                   (mkState ∅ []) in
  let after := session [Clicked (ClickPresent 1);
                        AttendancesFetched (Some [mkAttendance 1 PRESENT]);
                        Clicked (ClickManual 2)] m in
  issued (local after) = [mkCall 1 PRESENT false; mkCall 2 MANUAL_PRESENT true]
  ∧ studentAttendances (local after) !! 2 = Some MANUAL_PRESENT.
Proof.
  cbn zeta.
  pose proof (X2_row_clicks
    [Clicked (ClickPresent 1);
     AttendancesFetched (Some [mkAttendance 1 PRESENT])]
    [ClickManual 2]
    (mkModal None (Some [mkEnrollment 10 1; mkEnrollment 11 2]) (mkState ∅ []))
    2 eq_refl eq_refl) as H.
  cbn zeta in H. destruct H as (Hissued & _ & _ & Hmap & _).
  split; [exact Hissued|exact Hmap].
Defined.

(** X3.  "Save All" pressed on the map the effect built from the
    attendance records sends, for every enrolled student, the status of
    the student's last record, and [ABSENT] for an enrolled student
    without a record: the default that the map itself does not hold is
    applied when saving. *)
Theorem X3_save_after_load (atts : list AttendanceRecord)
    (enrollments : option (list Enrollment)) (roster : list Enrollment)
    (prev : gmap Z AttendanceStatus) :
  map (λ c, (call_studentId c, call_status c))
      (bulkSaveCalls (Some roster) (initAttendances (Some atts) enrollments prev))
  = map (λ e, (enr_studentId e,
               default ABSENT (recordedStatus atts (enr_studentId e)))) roster.
Proof.
  cbn [bulkSaveCalls]. rewrite map_map. apply map_ext. intros e.
  cbn [call_studentId call_status].
  by rewrite status_or_absent_default, initAttendances_records.
Qed.

(** X4.  Every call of "Save All" carries [isManual = false]; so the
    calls of a bulk save respect the flag convention exactly when no
    enrolled student is stored as [MANUAL_PRESENT]. *)
Theorem X4_bulk_save_flags (roster : list Enrollment)
    (m : gmap Z AttendanceStatus) :
  Forall (λ c, call_isManual c = false) (bulkSaveCalls (Some roster) m)
  ∧ (forallb manual_flag_ok (bulkSaveCalls (Some roster) m) = true
     ↔ ∀ e, e ∈ roster → m !! enr_studentId e ≠ Some MANUAL_PRESENT).
Proof.
  cbn [bulkSaveCalls]. split.
  { apply Forall_forall. intros c Hc.
    apply list_elem_of_In, in_map_iff in Hc as [e [<- _]]. reflexivity. }
  rewrite forallb_forall. split.
  - intros Hok e He Hmanual.
    assert (In (mkCall (enr_studentId e)
                       (status_or_absent m (enr_studentId e)) false)
               (map (λ enrollment,
                       mkCall (enr_studentId enrollment)
                              (status_or_absent m (enr_studentId enrollment))
                              false) roster)) as Hin.
    { apply in_map_iff. exists e. split; [done|]. by apply list_elem_of_In. }
    apply Hok in Hin. rewrite status_or_absent_default, Hmanual in Hin.
    discriminate Hin.
  - intros Hnone c [e [<- He]]%in_map_iff.
    apply list_elem_of_In, Hnone in He.
    rewrite status_or_absent_default.
    destruct (m !! enr_studentId e) as [[]|]; done.
Qed.

End AttendanceExtras.

(** ** Schedule step *)

Module ScheduleFormFacts.

Import Js ScheduleEditor ScheduleFacts ScheduleForm.

Lemma isDigit_digit (c : ascii) :
  isDigit c = true → ∃ n, (n < 10)%nat ∧ c = digit n.
Proof.
  unfold isDigit, digit_value. intros Hc.
  destruct ((48 <=? Z.of_nat (nat_of_ascii c))
            && (Z.of_nat (nat_of_ascii c) <=? 57)) eqn:Hrange; [|done].
  apply andb_true_iff in Hrange as [Hlo Hhi].
  apply Z.leb_le in Hlo, Hhi.
  exists (nat_of_ascii c - 48)%nat. split; [lia|].
  unfold digit. replace (48 + (nat_of_ascii c - 48))%nat with (nat_of_ascii c) by lia.
  by rewrite ascii_nat_embedding.
Qed.

Lemma isHHMM_HHMM (t : string) :
  isHHMM t = true →
  ∃ h1 h2 m1 m2,
    (h1 < 10)%nat ∧ (h2 < 10)%nat ∧ (m1 < 10)%nat ∧ (m2 < 10)%nat
    ∧ t = HHMM h1 h2 m1 m2.
Proof.
  destruct t as [|a [|b [|c [|d [|e [|? ?]]]]]]; try done.
  cbn [isHHMM]. rewrite !andb_true_iff, bool_decide_eq_true.
  intros ((((Ha & Hb) & ->) & Hd) & He).
  apply isDigit_digit in Ha as (h1 & ? & ->), Hb as (h2 & ? & ->).
  apply isDigit_digit in Hd as (m1 & ? & ->), He as (m2 & ? & ->).
  by exists h1, h2, m1, m2.
Qed.

Lemma calculateDuration_without_start (end_ : string) :
  calculateDuration "" end_ = Int 0.
Proof. reflexivity. Qed.

Lemma calculateDuration_without_end (start : string) :
  calculateDuration start "" = Int 0.
Proof.
  unfold calculateDuration.
  assert (negb (truthy_string "") = true) as -> by reflexivity.
  by rewrite orb_true_r.
Qed.

Lemma timeInput_cases (t : string) :
  timeInput t = true → t = "" ∨ isHHMM t = true.
Proof.
  unfold timeInput. intros [Hempty|Htime]%orb_true_iff; [left|by right].
  by apply bool_decide_eq_true in Hempty.
Qed.

(** On values of time inputs the duration is an integer, never negative. *)
Lemma calculateDuration_timeInput (start end_ : string) :
  timeInput start = true → timeInput end_ = true →
  ∃ z, calculateDuration start end_ = Int z ∧ 0 ≤ z.
Proof.
  intros [->|Hs]%timeInput_cases [->|He]%timeInput_cases.
  - by exists 0.
  - by exists 0.
  - exists 0. by rewrite calculateDuration_without_end.
  - apply isHHMM_HHMM in Hs as (h1 & h2 & m1 & m2 & ? & ? & ? & ? & ->).
    apply isHHMM_HHMM in He as (h1' & h2' & m1' & m2' & ? & ? & ? & ? & ->).
    rewrite calculateDuration_HHMM by done. eexists. split; [done|lia].
Qed.

Lemma timeChanged_wellFormed (field : TimeField) (value : string)
    (slot : TimeSlot) :
  timeInput value = true → slotWellFormed slot →
  slotWellFormed (timeChanged field value slot).
Proof.
  intros Hvalue (Hstart & Hend & Hduration).
  unfold timeChanged.
  destruct field; cbn [set_time startTime endTime].
  - destruct (truthy_string (endTime slot)).
    + repeat split; [done..|]. by apply calculateDuration_timeInput.
    + by repeat split.
  - destruct (truthy_string (startTime slot)).
    + repeat split; [done..|]. by apply calculateDuration_timeInput.
    + by repeat split.
Qed.

Lemma act_wellFormed (a : Action) (s s' : Schedule) :
  fromTimeInput a →
  Forall slotWellFormed (timeSlots s) →
  act a s = Some s' →
  Forall slotWellFormed (timeSlots s').
Proof.
  intros Hinput Hall Hact.
  destruct a as [day checked|fresh|j field value|j value|j]; cbn in Hact.
  - by simplify_eq.
  - simplify_eq. cbn. apply Forall_app. split; [done|].
    apply Forall_singleton. repeat split; [done..|]. by exists 0.
  - unfold handleTimeChange in Hact.
    destruct (timeSlots s !! j) as [slot|] eqn:Hslot; simplify_eq/=.
    apply Forall_insert; [done|].
    apply timeChanged_wellFormed; [done|].
    by eapply Forall_lookup_1.
  - unfold handleDurationChange in Hact.
    destruct (timeSlots s !! j) as [slot|] eqn:Hslot; simplify_eq/=.
    apply Forall_insert; [done|].
    destruct (Forall_lookup_1 _ _ _ _ Hall Hslot) as (? & ? & _).
    repeat split; [done..|]. eexists. split; [done|lia].
  - simplify_eq. cbn. unfold handleRemove. by apply Forall_delete.
Qed.

Lemma split_colon_colon (rest : string) :
  split_colon (String ":" rest) = "" :: split_colon rest.
Proof. cbn [split_colon]. by rewrite decide_True. Qed.

Lemma HHMM_then_colon (h1 h2 m1 m2 : nat) (tail : string) :
  (h1 < 10)%nat → (h2 < 10)%nat → (m1 < 10)%nat → (m2 < 10)%nat →
  split_colon (HHMM h1 h2 m1 m2 +:+ String ":" tail)
  = String (digit h1) (String (digit h2) "")
    :: String (digit m1) (String (digit m2) "")
    :: split_colon tail.
Proof.
  intros H1 H2 H3 H4.
  change (HHMM h1 h2 m1 m2 +:+ String ":" tail)
    with (String (digit h1) (String (digit h2) (String ":"
            (String (digit m1) (String (digit m2) (String ":" tail)))))).
  rewrite (split_colon_other (digit h1)), (split_colon_other (digit h2))
    by by apply digit_not_colon.
  rewrite split_colon_colon.
  rewrite (split_colon_other (digit m1)), (split_colon_other (digit m2))
    by by apply digit_not_colon.
  by rewrite split_colon_colon.
Qed.

Lemma timeChange_ids (index : nat) (field : TimeField) (value : string)
    (slots slots' : list TimeSlot) :
  handleTimeChange index field value slots = Some slots' →
  map id slots' = map id slots.
Proof.
  unfold handleTimeChange. intros Hchange.
  destruct (slots !! index) as [slot|] eqn:Hslot; simplify_eq.
  rewrite list_fmap_insert.
  apply list_insert_id. rewrite list_lookup_fmap, Hslot.
  unfold timeChanged. destruct field; cbn; by repeat case_match.
Qed.

Lemma durationChange_ids (index : nat) (value : Z)
    (slots slots' : list TimeSlot) :
  handleDurationChange index value slots = Some slots' →
  map id slots' = map id slots.
Proof.
  unfold handleDurationChange. intros Hchange.
  destruct (slots !! index) as [slot|] eqn:Hslot; simplify_eq.
  rewrite list_fmap_insert.
  apply list_insert_id. by rewrite list_lookup_fmap, Hslot.
Qed.

(** The pieces of a text of digits and colons are runs of digits, on
    which [Number] is a number that is not negative; and there is a
    first piece. *)
Lemma digits_value_digits (piece : string) :
  (∀ acc, 0 ≤ acc → ∃ n, digits_value acc piece = Int n ∧ 0 ≤ n) →
  ∀ c d, digit_value c = Some d → 0 ≤ d →
  ∀ acc, 0 ≤ acc → ∃ n, digits_value acc (String c piece) = Int n ∧ 0 ≤ n.
Proof.
  intros Hpiece c d Hc Hd acc Hacc. cbn [digits_value]. rewrite Hc.
  apply Hpiece. lia.
Qed.

Lemma digit_value_range (c : ascii) (d : Z) : digit_value c = Some d → 0 ≤ d.
Proof.
  unfold digit_value.
  destruct ((48 <=? Z.of_nat (nat_of_ascii c))
            && (Z.of_nat (nat_of_ascii c) <=? 57)) eqn:Hrange; [|done].
  apply andb_true_iff in Hrange as [Hlo _]. intros [= <-]. lia.
Qed.

Lemma plain_pieces_acc (t : string) :
  digitsAndColons t = true →
  ∃ first rest,
    split_colon t = first :: rest
    ∧ (∀ acc, 0 ≤ acc → ∃ n, digits_value acc first = Int n ∧ 0 ≤ n)
    ∧ Forall (λ piece, ∃ n, Number piece = Int n ∧ 0 ≤ n) rest.
Proof.
  induction t as [|c t IH]; intros Hplain.
  { exists "", []. split; [done|]. split; [|done].
    intros acc Hacc. by exists acc. }
  cbn [digitsAndColons] in Hplain.
  apply andb_true_iff in Hplain as [Hc Ht].
  destruct (IH Ht) as (first & rest & Hsplit & Hfirst & Hrest).
  cbn [split_colon]. destruct (decide (c = ":"%char)) as [->|Hne].
  - exists "", (first :: rest). rewrite Hsplit. split; [done|]. split.
    + intros acc Hacc. by exists acc.
    + constructor; [|done]. by apply (Hfirst 0).
  - rewrite Hsplit. exists (String c first), rest. split; [done|].
    split; [|done].
    apply orb_true_iff in Hc as [Hdigit|Hcolon].
    2: { by apply bool_decide_eq_true in Hcolon. }
    unfold isDigit in Hdigit.
    destruct (digit_value c) as [d|] eqn:Hd; [|done].
    eapply digits_value_digits; [done|done|]. by eapply digit_value_range.
Qed.

Lemma plain_pieces (t : string) :
  digitsAndColons t = true →
  ∃ first rest,
    split_colon t = first :: rest
    ∧ (∃ n, Number first = Int n ∧ 0 ≤ n)
    ∧ Forall (λ piece, ∃ n, Number piece = Int n ∧ 0 ≤ n) rest.
Proof.
  intros (first & rest & Hsplit & Hfirst & Hrest)%plain_pieces_acc.
  exists first, rest. split; [done|]. split; [|done]. by apply (Hfirst 0).
Qed.

End ScheduleFormFacts.

Module ScheduleExtras.

Import Js ScheduleEditor ScheduleFacts ScheduleForm ScheduleFormFacts.



(** X6.  With time fields fed by time inputs (empty or of form HH:MM),
    every stored duration is an integer that is not negative, and stays
    so through any series of edits: no edit stores [NaN] or a negative
    duration. *)
Theorem X6_durations_stay_well_formed (l : list Action) (s s' : Schedule) :
  Forall fromTimeInput l →
  Forall slotWellFormed (timeSlots s) →
  acts l s = Some s' →
  Forall slotWellFormed (timeSlots s').
Proof.
  intros Hinputs. revert s.
  induction Hinputs as [|a l Ha _ IH]; intros s Hall Hrun; cbn in Hrun.
  - by simplify_eq.
  - destruct (act a s) as [s1|] eqn:Hact; [|done].
    apply (IH s1); [|done]. by eapply act_wellFormed.
Qed.

Lemma X6_durations_stay_well_formed_witness :
  Forall slotWellFormed
    [mkTimeSlot "slot-1" "14:00" "13:00" (Int 0); mkTimeSlot "slot-2" "" "" (Int 0)].
Proof.
  refine (X6_durations_stay_well_formed
            [ AddTimeSlot "slot-1"; TimeChange 0 FEndTime "13:00";
              DurationChange 0 (-30); TimeChange 0 FStartTime "14:00";
              AddTimeSlot "slot-2" ]
            (mkSchedule [] [])
            (mkSchedule []
               [ mkTimeSlot "slot-1" "14:00" "13:00" (Int 0);
                 mkTimeSlot "slot-2" "" "" (Int 0) ]) _ _ _).
  - repeat constructor.
  - constructor.
  - reflexivity.
Defined.

(** X7.  Durations of consecutive spans add up: for times of form HH:MM,
    when the span from [a] to [b] and the span from [b] to [c] both have a
    positive computed duration, the duration computed from [a] to [c] is
    their sum, and the duration computed backwards, from [b] to [a], is
    [0]. *)
Theorem X7_durations_add_up (a b c : string) (x y : Z) :
  isHHMM a = true → isHHMM b = true → isHHMM c = true →
  calculateDuration a b = Int x → 0 < x →
  calculateDuration b c = Int y → 0 < y →
  calculateDuration a c = Int (x + y)
  ∧ calculateDuration b a = Int 0.
Proof.
  intros (a1 & a2 & a3 & a4 & ? & ? & ? & ? & ->)%isHHMM_HHMM.
  intros (b1 & b2 & b3 & b4 & ? & ? & ? & ? & ->)%isHHMM_HHMM.
  intros (c1 & c2 & c3 & c4 & ? & ? & ? & ? & ->)%isHHMM_HHMM.
  rewrite !calculateDuration_HHMM by done.
  intros [= <-] Hx [= <-] Hy. split; f_equal; lia.
Qed.

Lemma X7_durations_add_up_witness :
  calculateDuration "09:00" "12:45" = Int 225
  ∧ calculateDuration "11:30" "09:00" = Int 0.
Proof.
  refine (X7_durations_add_up "09:00" "11:30" "12:45" 150 75 _ _ _ _ _ _ _);
    (reflexivity || lia).
Defined.

(** X8.  For two times written with digits and colons only, of at most
    twelve characters each, as ["9:5"], ["0930"] or ["24:00:00"]: the
    computed duration is never a negative number; it is [0] as soon as
    one of the two times is empty; and when neither is empty it is
    [NaN] exactly when one of them has no colon, its minutes being
    [undefined] then. *)
Theorem X8_duration_never_negative (start end_ : string) :
  plainTime start = true →
  plainTime end_ = true →
  (∀ z, calculateDuration start end_ = Int z → 0 ≤ z)
  ∧ (start = "" ∨ end_ = "" → calculateDuration start end_ = Int 0)
  ∧ (start ≠ "" → end_ ≠ "" →
     (calculateDuration start end_ = NaN ↔
      (length (split_colon start) < 2 ∨ length (split_colon end_) < 2)%nat)).
Proof.
  intros [Hstart _]%andb_true_iff [Hend _]%andb_true_iff.
  split; [|split].
  - unfold calculateDuration. intros z.
    destruct (negb (truthy_string start) || negb (truthy_string end_)).
    + intros [= <-]. lia.
    + destruct (num_sub _ _); cbn; [|done]. intros [= <-]. lia.
  - intros [->| ->].
    + apply calculateDuration_without_start.
    + apply calculateDuration_without_end.
  - intros Hs He. unfold calculateDuration, truthy_string.
    rewrite !decide_False by done. cbn [negb orb].
    destruct (plain_pieces start Hstart)
      as (sh & srest & Hsplit & (h & Hh & _) & Hsrest).
    destruct (plain_pieces end_ Hend)
      as (eh & erest & Hsplit' & (h' & Hh' & _) & Herest).
    rewrite Hsplit, Hsplit'. cbn [map length]. rewrite Hh, Hh'.
    unfold nth_number.
    destruct srest as [|sm srest], erest as [|em erest];
      cbn [map lookup list_lookup length].
    + split; [intros _; left; lia|done].
    + split; [intros _; left; lia|]. intros _.
      apply Forall_cons in Herest as [(m2 & -> & _) _]. done.
    + split; [intros _; right; lia|]. intros _.
      apply Forall_cons in Hsrest as [(m1 & -> & _) _]. done.
    + apply Forall_cons in Hsrest as [(m1 & -> & _) _].
      apply Forall_cons in Herest as [(m2 & -> & _) _].
      cbn [num_mul num_add num_sub Math_max].
      split; [done|]. intros [Hshort|Hshort]; lia.
Qed.

Lemma X8_duration_never_negative_witness :
  calculateDuration "9:5" "0930" = NaN.
Proof.
  refine (proj2 (proj2 (proj2 (X8_duration_never_negative "9:5" "0930"
            eq_refl eq_refl)) _ _) _); [done|done|].
  right. vm_compute. lia.
Defined.

(** X9.  Only the first two pieces of a time are read: a time of form
    HH:MM followed by a colon and anything else (seconds, say) gives the
    duration of the HH:MM part. *)
Theorem X9_seconds_are_ignored (a b tail_a tail_b : string) :
  isHHMM a = true → isHHMM b = true →
  calculateDuration (a +:+ String ":" tail_a) (b +:+ String ":" tail_b)
  = calculateDuration a b.
Proof.
  intros (a1 & a2 & a3 & a4 & ? & ? & ? & ? & ->)%isHHMM_HHMM.
  intros (b1 & b2 & b3 & b4 & ? & ? & ? & ? & ->)%isHHMM_HHMM.
  rewrite calculateDuration_HHMM by done.
  unfold calculateDuration. rewrite !HHMM_then_colon by done.
  cbn [map nth_number lookup list_lookup].
  rewrite !Number_two_digits by done. reflexivity.
Qed.

Lemma X9_seconds_are_ignored_witness :
  calculateDuration "09:00:59" "10:30:00" = Int 90.
Proof.
  exact (X9_seconds_are_ignored "09:00" "10:30" "59" "00" eq_refl eq_refl).
Defined.

(** X10.  Removing the slot rendered at an index takes out that slot and
    no other, and keeps the others in their order: the slots before the
    index stay where they are and the slots after it move up by one, so
    the old list is the new one with the slot put back at the index.
    One slot fewer is left, and at least one when the button was shown
    (it is shown only when there is more than one slot).  Removing the
    slot that was just added gives back the list as it was. *)
Theorem X10_remove_slot (slots : list TimeSlot) (index : nat) (slot : TimeSlot)
    (fresh : string) :
  slots !! index = Some slot →
  slots ≡ₚ slot :: handleRemove index slots
  ∧ S (length (handleRemove index slots)) = length slots
  ∧ ((1 < length slots)%nat → handleRemove index slots ≠ [])
  ∧ handleRemove (length slots) (slots ++ [newSlot fresh])%list = slots
  ∧ handleRemove index slots = (take index slots ++ drop (S index) slots)%list
  ∧ slots = (take index (handleRemove index slots) ++ slot
             :: drop index (handleRemove index slots))%list
  ∧ (∀ i, (i < index)%nat → handleRemove index slots !! i = slots !! i)
  ∧ (∀ i, (index ≤ i)%nat → handleRemove index slots !! i = slots !! S i).
Proof.
  intros Hslot. unfold handleRemove.
  assert (index < length slots)%nat as Hlen by by eapply lookup_lt_Some.
  split; [by apply delete_Permutation|].
  assert (S (length (delete index slots)) = length slots) as Hcount.
  { rewrite length_delete by by eexists. lia. }
  split; [done|]. split.
  { intros Hmany Hempty. rewrite Hempty in Hcount. cbn in Hcount. lia. }
  split; [by rewrite delete_middle, app_nil_r|].
  split; [apply delete_take_drop|]. split.
  { rewrite delete_take_drop.
    rewrite take_app_length' by (rewrite length_take; lia).
    rewrite drop_app_length' by (rewrite length_take; lia).
    symmetry. by apply take_drop_middle. }
  split.
  - intros i Hi. by apply list_lookup_delete_lt.
  - intros i Hi. by apply list_lookup_delete_ge.
Qed.

Lemma X10_remove_slot_witness :
  handleRemove 0 [mkTimeSlot "slot-1" "09:00" "" (Int 0);
                  mkTimeSlot "slot-2" "" "" (Int 0)] ≠ [].
Proof.
  refine (proj1 (proj2 (proj2 (X10_remove_slot
            [mkTimeSlot "slot-1" "09:00" "" (Int 0);
             mkTimeSlot "slot-2" "" "" (Int 0)] 0
            (mkTimeSlot "slot-1" "09:00" "" (Int 0)) "slot-3" eq_refl))) _).
  cbn. lia.
Defined.

(** X11.  The list keys are stable: an edit of a day, of a time or of a
    duration leaves the ids of the slots as they are, in the same order;
    adding a slot appends its id; removing a slot drops one id.  So ids
    that are distinct stay distinct, provided a slot is added with an id
    that no slot has. *)
Theorem X11_slot_ids (a : Action) (s s' : Schedule) :
  act a s = Some s' →
  match a with
  | AddTimeSlot fresh => slotIds s' = (slotIds s ++ [fresh])%list
  | Remove index => slotIds s' = delete index (slotIds s)
  | _ => slotIds s' = slotIds s
  end
  ∧ (NoDup (slotIds s) →
     (∀ fresh, a = AddTimeSlot fresh → fresh ∉ slotIds s) →
     NoDup (slotIds s')).
Proof.
  intros Hact. unfold slotIds.
  assert (match a with
          | AddTimeSlot fresh =>
              map id (timeSlots s') = (map id (timeSlots s) ++ [fresh])%list
          | Remove index =>
              map id (timeSlots s') = delete index (map id (timeSlots s))
          | _ => map id (timeSlots s') = map id (timeSlots s)
          end) as Hids.
  { destruct a as [day checked|fresh|j field value|j value|j]; cbn in Hact.
    - by simplify_eq.
    - simplify_eq. cbn. by rewrite map_app.
    - destruct (handleTimeChange j field value (timeSlots s)) as [slots|] eqn:Hc;
        simplify_eq/=. by eapply timeChange_ids.
    - destruct (handleDurationChange j value (timeSlots s)) as [slots|] eqn:Hc;
        simplify_eq/=. by eapply durationChange_ids.
    - simplify_eq. cbn. unfold handleRemove. apply list_fmap_delete. }
  split; [done|]. intros Hnodup Hfresh.
  destruct a as [day checked|fresh|j field value|j value|j]; rewrite Hids;
    try done.
  - apply NoDup_app. split; [done|]. split; [|apply NoDup_singleton].
    intros x Hx Heq. apply list_elem_of_singleton in Heq as ->.
    by apply (Hfresh fresh).
  - eapply sublist_NoDup; [exact Hnodup|]. apply sublist_delete.
Qed.

Lemma X11_slot_ids_witness :
  NoDup (slotIds (mkSchedule [] [newSlot "slot-1"; newSlot "slot-2"])).
Proof.
  refine (proj2 (X11_slot_ids (AddTimeSlot "slot-2")
                   (mkSchedule [] [newSlot "slot-1"])
                   (mkSchedule [] [newSlot "slot-1"; newSlot "slot-2"])
                   eq_refl) _ _).
  - apply NoDup_singleton.
  - intros fresh [= <-] Hin. apply list_elem_of_singleton in Hin.
    discriminate Hin.
Defined.

End ScheduleExtras.

(** ** The steps of the batch creation page *)

Module BatchWizardFacts.

Import Js ScheduleEditor ScheduleFacts BatchWizard.

Lemma run_snoc (events : list Event) (e : Event) (w : Wizard) :
  run (events ++ [e]) w = on e (run events w).
Proof. unfold run. by rewrite foldl_app. Qed.

Lemma run_cons (events : list Event) (e : Event) (w : Wizard) :
  run (e :: events) w = run events (on e w).
Proof. reflexivity. Qed.

(** With a batch id stored, no event changes the id or makes a call. *)
Lemma on_with_batch (e : Event) (w : Wizard) :
  hasBatchId w = true →
  calls (on e w) = calls w ∧ suggestedBatchId (on e w) = suggestedBatchId w.
Proof.
  intros Hid. destruct e as [created suggested| |step|values]; try done.
  cbn [on]. unfold handleNext. rewrite Hid, andb_false_r.
  by destruct (negb (stepValid w)).
Qed.

Lemma stepForward_active (w : Wizard) :
  active (stepForward w) = if (active w <? 3)%nat then S (active w) else active w.
Proof. reflexivity. Qed.

Lemma stepForward_bound (w : Wizard) :
  (active w ≤ 3)%nat → (active (stepForward w) ≤ 3)%nat.
Proof.
  intros Hw. rewrite stepForward_active.
  destruct (Nat.ltb_spec (active w) 3); lia.
Qed.

End BatchWizardFacts.

Module BatchWizardExtras.

Import Js ScheduleEditor ScheduleFacts BatchWizard BatchWizardFacts.

(** X12.  The page calls the server only from "Next" on the schedule
    step, with a form that passes the validation of that step and while no
    batch id is stored.  The first call then creates a batch from the
    values of the form; the candidates of the created batch are asked for
    only after the creation succeeded.  No other event makes a call, and
    no call made before is dropped. *)
Theorem X12_calls_come_from_a_valid_schedule_step (e : Event) (w : Wizard) :
  ∃ made,
    calls (on e w) = (calls w ++ made)%list
    ∧ (made = []
       ∨ (∃ created suggested,
            e = Next created suggested
            ∧ active w = 1%nat
            ∧ scheduleStepPasses (form w) = true
            ∧ hasBatchId w = false
            ∧ match created with
              | None => made = [CreateBatch (batchData (form w))]
              | Some batchId =>
                  made = [CreateBatch (batchData (form w));
                          SuggestCandidates batchId]
              end)).
Proof.
  destruct e as [created suggested| |step|values];
    try (exists []; split; [by rewrite app_nil_r|by left]).
  cbn [on]. unfold handleNext.
  destruct (stepValid w) eqn:Hvalid; cbn [negb];
    [|exists []; split; [by rewrite app_nil_r|by left]].
  destruct (active w =? 1)%nat eqn:Hstep; cbn [andb];
    [|exists []; split; [by rewrite app_nil_r|by left]].
  destruct (hasBatchId w) eqn:Hid; cbn [negb];
    [exists []; split; [by rewrite app_nil_r|by left]|].
  apply Nat.eqb_eq in Hstep.
  assert (scheduleStepPasses (form w) = true) as Hpasses.
  { unfold stepValid in Hvalid. by rewrite Hstep in Hvalid. }
  destruct created as [batchId|].
  - exists [CreateBatch (batchData (form w)); SuggestCandidates batchId].
    split; [by destruct suggested as [[found storedId]|]|].
    right. by exists (Some batchId), suggested.
  - exists [CreateBatch (batchData (form w))]. split; [done|].
    right. by exists None, suggested.
Qed.

(** X13.  A batch is created once: from the moment a batch id (other than
    0) is stored, no series of events makes another call or replaces the
    id, whatever is edited in the form, so later edits of the form never
    reach the server. *)
Theorem X13_one_batch_per_visit (events : list Event) (w : Wizard) :
  hasBatchId w = true →
  calls (run events w) = calls w
  ∧ suggestedBatchId (run events w) = suggestedBatchId w.
Proof.
  intros Hid. induction events as [|e events IH] using rev_ind; [done|].
  destruct IH as [Hcalls Hstored]. rewrite run_snoc.
  assert (hasBatchId (run events w) = true) as Hstill.
  { unfold hasBatchId in *. by rewrite Hstored. }
  destruct (on_with_batch e _ Hstill) as [-> ->]. done.
Qed.

Lemma X13_one_batch_per_visit_witness :
  let f := mkForm "Batch 1" "Photoshop" "online" "2025-01-01" "2025-01-31" 10
             (mkSchedule ["Monday"] [mkTimeSlot "slot-1" "09:00" "11:30" (Int 150)]) in
  let edited := mkForm "Batch 2" "Figma" "offline" "2025-02-01" "2025-02-28" 20
                  (mkSchedule ["Friday"] [mkTimeSlot "slot-1" "10:00" "11:00" (Int 60)]) in
  calls (run [Back; FormEdit edited; Next None None; Next (Some 8) None]
             (mkWizard 1 f (Some 7) [] [])) = [].
Proof.
  cbn zeta.
  refine (proj1 (X13_one_batch_per_visit _ _ _)). reflexivity.
Defined.

(** X14.  When the batch is created and the request for its candidates
    fails, the page stays on the schedule step with the id of the batch
    stored and the candidates as they were.  The next "Next" then moves
    to the candidates step without asking for the candidates again: it
    makes no call and leaves the candidates as they were. *)
Theorem X14_failed_candidate_fetch_is_not_retried
    (w : Wizard) (batchId : Z)
    (created : option Z) (suggested : option (list Json * Z)) :
  active w = 1%nat →
  scheduleStepPasses (form w) = true →
  hasBatchId w = false →
  batchId ≠ 0 →
  let failed := handleNext (Some batchId) None w in
  let again := handleNext created suggested failed in
  active failed = 1%nat
  ∧ suggestedBatchId failed = Some batchId
  ∧ candidates failed = candidates w
  ∧ calls failed = (calls w ++ [CreateBatch (batchData (form w));
                                SuggestCandidates batchId])%list
  ∧ active again = 2%nat
  ∧ candidates again = candidates w
  ∧ calls again = calls failed.
Proof.
  intros Hstep Hpasses Hid Hbatch failed again.
  assert (stepValid w = true) as Hvalid.
  { unfold stepValid. by rewrite Hstep. }
  assert (failed
          = {| active := active w; form := form w;
               suggestedBatchId := Some batchId; candidates := candidates w;
               calls := calls w ++ [CreateBatch (batchData (form w));
                                    SuggestCandidates batchId] |}) as Hfailed.
  { subst failed. unfold handleNext. by rewrite Hvalid, Hstep, Hid. }
  assert (stepValid failed = true) as Hvalid'.
  { rewrite Hfailed. unfold stepValid. cbn. by rewrite Hstep. }
  assert (hasBatchId failed = true) as Hid'.
  { rewrite Hfailed. unfold hasBatchId. cbn.
    apply negb_true_iff, Z.eqb_neq. done. }
  assert (again = stepForward failed) as Hagain.
  { subst again. unfold handleNext. by rewrite Hvalid', Hid', andb_false_r. }
  rewrite Hagain. rewrite Hfailed. cbn. rewrite Hstep. by repeat split.
Qed.

Lemma X14_failed_candidate_fetch_is_not_retried_witness :
  let f := mkForm "Batch 1" "Photoshop" "online" "2025-01-01" "2025-01-31" 10
             (mkSchedule ["Monday"] [mkTimeSlot "slot-1" "09:00" "11:30" (Int 150)]) in
  let w := mkWizard 1 f None [] [] in
  active (handleNext None None (handleNext (Some 7) None w)) = 2%nat
  ∧ candidates (handleNext None None (handleNext (Some 7) None w)) = [].
Proof.
  cbn zeta.
  pose proof (X14_failed_candidate_fetch_is_not_retried
    (mkWizard 1
       (mkForm "Batch 1" "Photoshop" "online" "2025-01-01" "2025-01-31" 10
          (mkSchedule ["Monday"]
             [mkTimeSlot "slot-1" "09:00" "11:30" (Int 150)]))
       None [] []) 7 None None eq_refl eq_refl eq_refl ltac:(lia))
    as (_ & _ & _ & _ & Hactive & Hcandidates & _).
  split; [exact Hactive|exact Hcandidates].
Defined.

(** X15.  The "Next" button is never disabled on a page whose click would
    go on, but it can be enabled on a page whose click does nothing: on
    the first step the click also needs the software, and on the schedule
    step it also needs the title, the software, the mode and a capacity
    of at least 1, none of which the button looks at. *)
Theorem X15_next_button_and_validation (w : Wizard) :
  (stepValid w = true → nextDisabled w = false)
  ∧ (active w = 0%nat →
     stepValid w
     = negb (nextDisabled w) && truthy_string (software (form w)))
  ∧ (active w = 1%nat →
     stepValid w
     = negb (nextDisabled w)
       && truthy_string (title (form w)) && truthy_string (software (form w))
       && truthy_string (mode (form w)) && negb (maxCapacity (form w) <? 1))
  ∧ (stepValid w = false →
     ∀ created suggested, handleNext created suggested w = w).
Proof.
  assert (active w = 0%nat →
          stepValid w
          = negb (nextDisabled w) && truthy_string (software (form w))) as H0.
  { intros Hstep. unfold stepValid, nextDisabled. rewrite Hstep. cbn.
    by destruct (truthy_string (title (form w))),
      (truthy_string (software (form w))), (truthy_string (mode (form w))). }
  assert (active w = 1%nat →
          stepValid w
          = negb (nextDisabled w)
            && truthy_string (title (form w)) && truthy_string (software (form w))
            && truthy_string (mode (form w)) && negb (maxCapacity (form w) <? 1))
    as H1.
  { intros Hstep. unfold stepValid, nextDisabled. rewrite Hstep. cbn.
    rewrite scheduleStepPasses_eq. unfold otherFieldsValid, scheduleComplete.
    by destruct (truthy_string (title (form w))),
      (truthy_string (software (form w))), (truthy_string (mode (form w))),
      (truthy_string (startDate (form w))), (truthy_string (endDate (form w))),
      (maxCapacity (form w) <? 1),
      (length (days (schedule (form w))) =? 0)%nat,
      (length (timeSlots (schedule (form w))) =? 0)%nat. }
  split; [|split; [done|split; [done|]]].
  - intros Hvalid. destruct (active w) as [|[|n]] eqn:Hstep.
    + rewrite H0 in Hvalid by done.
      apply andb_true_iff in Hvalid as [Hen _]. by apply negb_true_iff.
    + rewrite H1 in Hvalid by done.
      rewrite !andb_true_iff in Hvalid. apply negb_true_iff. tauto.
    + unfold nextDisabled. by rewrite Hstep.
  - intros Hinvalid created suggested. unfold handleNext. by rewrite Hinvalid.
Qed.

Lemma X15_next_button_and_validation_witness :
  let w := mkWizard 0 (mkForm "Batch 1" "" "online" "" "" 1 (mkSchedule [] []))
                    None [] [] in
  nextDisabled w = false ∧ handleNext (Some 7) None w = w.
Proof.
  cbn zeta. split; [reflexivity|].
  refine (proj2 (proj2 (proj2 (X15_next_button_and_validation _))) _ _ _).
  reflexivity.
Defined.

(** X16.  The step shown stays one of 0, 1, 2, 3 whatever is clicked, and
    "Next" leaves the schedule step for the candidates step only with a
    batch id stored. *)
Theorem X16_steps (events : list Event) (w : Wizard)
    (created : option Z) (suggested : option (list Json * Z)) :
  (Forall onStepper events → (active w ≤ 3)%nat →
   (active (run events w) ≤ 3)%nat)
  ∧ (active w = 1%nat →
     active (handleNext created suggested w) ≠ 1%nat →
     active (handleNext created suggested w) = 2%nat
     ∧ is_Some (suggestedBatchId (handleNext created suggested w))).
Proof.
  split.
  - intros Hevents. revert w.
    induction Hevents as [|e events He _ IH]; intros w Hw; [done|].
    rewrite run_cons. apply IH.
    destruct e as [c s| |step|values]; cbn [on onStepper] in *.
    + unfold handleNext.
      destruct (negb (stepValid w)); [done|].
      destruct ((active w =? 1)%nat && negb (hasBatchId w));
        [|by apply stepForward_bound].
      destruct c as [batchId|]; [|done].
      destruct s as [[found storedId]|]; [|done].
      by apply stepForward_bound.
    + unfold handleBack. cbn [active].
      destruct (0 <? active w)%nat; lia.
    + cbn [active]. lia.
    + done.
  - intros Hstep. unfold handleNext.
    assert ((active w =? 1)%nat = true) as Hone by by rewrite Hstep.
    destruct (negb (stepValid w)); [done|].
    rewrite Hone. cbn [andb].
    destruct (hasBatchId w) eqn:Hid; cbn [negb].
    + intros _. rewrite stepForward_active, Hstep. split; [done|].
      unfold hasBatchId in Hid. cbn [stepForward suggestedBatchId].
      destruct (suggestedBatchId w); [by eexists|done].
    + destruct created as [batchId|]; [|by cbn [active]].
      destruct suggested as [[found storedId]|]; [|by cbn [active]].
      intros _. rewrite stepForward_active. cbn [active]. rewrite Hstep.
      split; [done|by eexists].
Qed.

Lemma X16_steps_witness :
  (active (run [StepClick 2; Next None None; Next None None; Back]
               (mkWizard 0 (mkForm "" "" "" "" "" 1 (mkSchedule [] []))
                         None [] [])) ≤ 3)%nat.
Proof.
  refine (proj1 (X16_steps _ _ None None) _ _).
  - repeat constructor.
  - cbn. lia.
Defined.

End BatchWizardExtras.

(** ** The reports page *)

Module ReportPageFacts.

Import Js Reports ReportPage.

(** Both sides of an equation between endpoints, as one right-nested
    sequence of characters and filter texts. *)
Ltac flatten :=
  cbn [queryString setFilters omap list_omap map String.concat fst snd];
  repeat (rewrite ?JsonTextFacts.append_assoc, ?JsonTextFacts.append_cons,
                  ?JsonTextFacts.append_nil, ?JsonTextFacts.append_empty).

(** The report type is the [n]th of the chain of [case]s. *)
Ltac this_case :=
  unfold fetchReport;
  repeat (rewrite decide_False by done); rewrite decide_True by done.

Lemma in_reportTypes (reportType : string) :
  reportType ∈ reportTypes ↔
  reportType = "all-analysis" ∨ reportType = "student-current-batch"
  ∨ reportType = "students-without-batch" ∨ reportType = "batch-attendance"
  ∨ reportType = "student-attendance" ∨ reportType = "batches-by-faculty"
  ∨ reportType = "pending-payments" ∨ reportType = "monthwise-payments"
  ∨ reportType = "portfolio-status".
Proof.
  unfold reportTypes. rewrite !elem_of_cons, elem_of_nil. tauto.
Qed.

Lemma truthy_string_true (s : string) : truthy_string s = true ↔ s ≠ "".
Proof. unfold truthy_string. by destruct (decide (s = "")). Qed.

Lemma errorText_truthy (serverMessage : option string) (message : string) :
  errorText serverMessage message ≠ "".
Proof.
  unfold errorText.
  destruct serverMessage as [m|].
  - destruct (truthy_string m) eqn:Hm; [by apply truthy_string_true|].
    destruct (truthy_string message) eqn:Hmsg; [by apply truthy_string_true|done].
  - destruct (truthy_string message) eqn:Hmsg; [by apply truthy_string_true|done].
Qed.

(** [fetchReport] on a report type of the table. *)
Lemma fetchReport_cases (reportType : string) (params : gmap string string) :
  reportType ∈ reportTypes →
  match fetchReport reportType params with
  | Throws message =>
      (message = "Student ID is required"
       ∧ reportType ∈ ["student-current-batch"; "student-attendance"]
       ∧ has params "studentId" = false)
      ∨ (message = "Batch ID is required" ∧ reportType = "batch-attendance"
         ∧ has params "batchId" = false)
  | Gets endpoint => ∃ rest, endpoint = "/reports/" +:+ rest
  end.
Proof.
  rewrite in_reportTypes.
  intros [->|[->|[->|[->|[->|[->|[->|[->| ->]]]]]]]]; this_case.
  - by eexists.
  - destruct (has params "studentId"); cbn [negb].
    + by eexists.
    + left. rewrite !elem_of_cons. tauto.
  - by eexists.
  - destruct (has params "batchId"); cbn [negb].
    + by eexists.
    + right. tauto.
  - destruct (has params "studentId"); cbn [negb].
    + by eexists.
    + left. rewrite !elem_of_cons. tauto.
  - by eexists.
  - by eexists.
  - by eexists.
  - by eexists.
Qed.

Lemma fetchReport_unknown (reportType : string) (params : gmap string string) :
  reportType ∉ reportTypes →
  fetchReport reportType params = Throws "Invalid report type".
Proof.
  intros Hunknown. unfold fetchReport.
  repeat (destruct (decide (reportType = _)) as [Heq|_];
          [exfalso; apply Hunknown; rewrite Heq;
           apply list_elem_of_In; cbn; tauto|]).
  done.
Qed.

Lemma pageInvariant_step (p : Page) (e : PageEvent) :
  pageInvariant p → offeredOn p e = true → pageInvariant (onPage e p).
Proof.
  intros (Hsel & Hkeys & Hload & Hreq) Hoffered.
  destruct e as [reportId|key value|api]; cbn in Hoffered.
  - apply bool_decide_eq_true in Hoffered.
    split; [by right|]. split; [|done].
    intros key [v Hv]. cbn in Hv. by rewrite lookup_empty in Hv.
  - apply bool_decide_eq_true in Hoffered.
    split; [done|]. split; [|done].
    intros key' Hsome. cbn in Hsome.
    destruct (decide (key = key')) as [<-|Hne]; [done|].
    rewrite lookup_insert_ne in Hsome by done. by apply Hkeys.
  - apply truthy_string_true in Hoffered.
    destruct Hsel as [Hsel|Hsel]; [done|].
    cbn. unfold handleGenerateReport.
    destruct (truthy_string (selectedReport p)) eqn:Htruthy; cbn [negb].
    2: { by split; [right|]. }
    pose proof (fetchReport_cases _ (filters p) Hsel) as Hcases.
    destruct (fetchReport (selectedReport p) (filters p)) as [message|endpoint].
    + by split; [right|].
    + destruct (api endpoint) as [body|serverMessage message]; cbn.
      all: split; [by right|]; split; [done|]; split; [done|].
      all: apply Forall_app; split; [done|]; by apply Forall_singleton.
Qed.

Lemma pageInvariant_session (events : list PageEvent) (p q : Page) :
  pageInvariant p → session events p = Some q → pageInvariant q.
Proof.
  revert p. induction events as [|e events IH]; intros p Hinv Hrun; cbn in Hrun.
  - by injection Hrun as <-.
  - destruct (offeredOn p e) eqn:Hoffered; [|done].
    eapply IH; [|exact Hrun]. by apply pageInvariant_step.
Qed.

Lemma pageInvariant_initial : pageInvariant initialPage.
Proof.
  split; [by left|]. split; [|done].
  intros key [v Hv]. cbn in Hv. by rewrite lookup_empty in Hv.
Qed.



End ReportPageFacts.

Module ReportsExtras.

Import Js Reports ReportPage ReportPageFacts.

(** X17.  The endpoint of a report with optional filters is its path
    followed by a well-formed query string over the filters that are
    set, in the order of the source, each text as it was typed: a
    question mark before the first pair, an ampersand between pairs, and
    nothing at all when no filter is set.  This holds for the
    attendance of a student ([from], [to]), the batches by faculty
    ([facultyId], [from], [to]), the month-wise payments ([month],
    [year]) and the attendance of a batch ([batchId], [from], [to]);
    without the id it needs, a report is not requested. *)
Theorem X17_optional_filters_form_a_query_string (params : gmap string string) :
  fetchReport "student-attendance" params
  = (if has params "studentId"
     then Gets ("/reports/student/" +:+ text params "studentId" +:+ "/attendance"
                +:+ queryString (setFilters params ["from"; "to"]))
     else Throws "Student ID is required")
  ∧ fetchReport "batches-by-faculty" params
    = Gets ("/reports/batches-by-faculty"
            +:+ queryString (setFilters params ["facultyId"; "from"; "to"]))
  ∧ fetchReport "monthwise-payments" params
    = Gets ("/reports/monthwise-payments"
            +:+ queryString (setFilters params ["month"; "year"]))
  ∧ fetchReport "batch-attendance" params
    = (if has params "batchId"
       then Gets ("/reports/batch-attendance"
                  +:+ queryString (setFilters params ["batchId"; "from"; "to"]))
       else Throws "Batch ID is required").
Proof.
  repeat split; this_case; unfold setFilters; cbn [omap list_omap].
  - destruct (has params "studentId"), (has params "from"), (has params "to");
      cbn [negb]; flatten; reflexivity.
  - destruct (has params "facultyId"), (has params "from"), (has params "to");
      cbn [orb]; flatten; reflexivity.
  - destruct (has params "month"), (has params "year"); flatten; reflexivity.
  - destruct (has params "batchId"), (has params "from"), (has params "to");
      cbn [negb]; flatten; reflexivity.
Qed.

(** X18.  [fetchReport] throws in three cases and no other: "Student ID
    is required" for the two student reports without a student id,
    "Batch ID is required" for the batch attendance without a batch id,
    and "Invalid report type" for a type outside the table.  In every
    other case it requests an endpoint, the type is one of the table,
    and the endpoint begins with [/reports/]. *)
Theorem X18_when_a_report_is_requested
    (reportType : string) (params : gmap string string) :
  (∀ message, fetchReport reportType params = Throws message ↔
     (message = "Student ID is required"
      ∧ reportType ∈ ["student-current-batch"; "student-attendance"]
      ∧ has params "studentId" = false)
     ∨ (message = "Batch ID is required" ∧ reportType = "batch-attendance"
        ∧ has params "batchId" = false)
     ∨ (message = "Invalid report type" ∧ reportType ∉ reportTypes))
  ∧ (∀ endpoint, fetchReport reportType params = Gets endpoint →
       reportType ∈ reportTypes ∧ ∃ rest, endpoint = "/reports/" +:+ rest).
Proof.
  destruct (decide (reportType ∈ reportTypes)) as [Hknown|Hunknown].
  - pose proof (fetchReport_cases reportType params Hknown) as Hcases.
    split.
    + intros message. split.
      * intros Hthrows. rewrite Hthrows in Hcases. tauto.
      * intros [(-> & Hin & Hno)|[(-> & -> & Hno)|(_ & Hunknown)]]; [| |done].
        -- rewrite !elem_of_cons, elem_of_nil in Hin.
           destruct Hin as [->|[->|[]]]; this_case; by rewrite Hno.
        -- this_case. by rewrite Hno.
    + intros endpoint Hgets. by rewrite Hgets in Hcases.
  - rewrite (fetchReport_unknown _ _ Hunknown). split; [|done].
    intros message. split.
    + intros [= <-]. tauto.
    + intros [(_ & Hin & _)|[(_ & -> & _)|(-> & _)]]; [| |done].
      * exfalso. apply Hunknown. apply in_reportTypes.
        rewrite !elem_of_cons, elem_of_nil in Hin. tauto.
      * exfalso. apply Hunknown. apply in_reportTypes. tauto.
Qed.

(** X19.  "Generate Report" with no report type selected only sets the
    error "Please select a report type": nothing is requested and the
    report on screen stays.  With a type selected, at most one endpoint
    is requested, the one [fetchReport] computes, and none when
    [fetchReport] throws; the page has no error afterwards exactly when
    the request was answered, and then it holds the answer; with an
    error it holds no report.  The loading flag is off afterwards, the
    selection and the filters are kept, and an error text is never
    empty. *)
Theorem X19_generate_report (api : string → ApiResult) (p : Page) :
  let q := handleGenerateReport api p in
  selectedReport q = selectedReport p
  ∧ filters q = filters p
  ∧ (selectedReport p = "" →
       error q = Some "Please select a report type"
       ∧ requested q = requested p
       ∧ reportData q = reportData p
       ∧ isLoading q = isLoading p)
  ∧ (selectedReport p ≠ "" →
       isLoading q = false
       ∧ match fetchReport (selectedReport p) (filters p) with
         | Throws message =>
             requested q = requested p ∧ reportData q = None
             ∧ error q = Some message
         | Gets endpoint =>
             requested q = (requested p ++ [endpoint])%list
             ∧ match api endpoint with
               | Answered body => reportData q = Some body ∧ error q = None
               | Rejected serverMessage message =>
                   reportData q = None
                   ∧ error q = Some (errorText serverMessage message)
               end
         end
       ∧ (error q = None ↔
          ∃ endpoint body,
            fetchReport (selectedReport p) (filters p) = Gets endpoint
            ∧ api endpoint = Answered body ∧ reportData q = Some body)
       ∧ (error q ≠ None → reportData q = None))
  ∧ (∀ message, error q = Some message → message ≠ "").
Proof.
  cbn zeta. unfold handleGenerateReport.
  destruct (decide (selectedReport p = "")) as [Hnone|Hsome].
  - rewrite Hnone. cbn.
    split; [done|]. split; [done|]. split; [done|]. split; [done|].
    by intros message [= <-].
  - apply truthy_string_true in Hsome as Htruthy. rewrite Htruthy. cbn [negb].
    destruct (fetchReport (selectedReport p) (filters p))
      as [message|endpoint] eqn:Hfetch.
    + cbn -[errorText]. split; [done|]. split; [done|]. split; [done|].
      assert (Htext : errorText None message = message ∨ message = "").
      { unfold errorText, truthy_string.
        destruct (decide (message = "")); [by right|by left]. }
      assert (Hmessage : message ≠ "").
      { intros ->.
        destruct (decide (selectedReport p ∈ reportTypes)) as [Hin|Hout].
        - pose proof (fetchReport_cases _ (filters p) Hin) as Hcases.
          rewrite Hfetch in Hcases.
          by destruct Hcases as [(? & _)|(? & _)].
        - by rewrite (fetchReport_unknown _ _ Hout) in Hfetch. }
      destruct Htext as [Htext|]; [|done]. rewrite Htext.
      split.
      * intros _. split; [done|]. split; [done|]. split; [|done].
        split; [done|]. by intros (? & ? & ? & _).
      * by intros ? [= <-].
    + destruct (api endpoint) as [body|serverMessage message] eqn:Hapi; cbn -[errorText].
      * split; [done|]. split; [done|]. split; [done|]. split; [|done].
        intros _. split; [done|]. split; [done|]. split; [|done].
        split; [|done]. intros _. by exists endpoint, body.
      * split; [done|]. split; [done|]. split; [done|]. split.
        -- intros _. split; [done|]. split; [done|]. split; [|done].
           split; [done|]. intros (e & body & [= <-] & Hans & _).
           by rewrite Hapi in Hans.
        -- intros ? [= <-]. apply errorText_truthy.
Qed.

(** A page on which a report type is selected. *)
Lemma X19_generate_report_witness :
  let p := selectReport "pending-payments" initialPage in
  let q := handleGenerateReport (λ _, Rejected None "Network Error") p in
  selectedReport p ≠ ""
  ∧ isLoading q = false ∧ error q = Some "Network Error"
  ∧ requested q = ["/reports/pending-payments"].
Proof.
  cbn zeta. split; [done|].
  pose proof (X19_generate_report (λ _, Rejected None "Network Error")
                (selectReport "pending-payments" initialPage)) as H.
  cbn zeta in H. destruct H as (_ & _ & _ & H & _).
  destruct H as (Hload & Hmatch & _); [done|].
  split; [exact Hload|]. exact (conj (proj2 (proj2 Hmatch)) (proj1 Hmatch)).
Defined.

(** X20.  On every page reached from the initial one by what the page
    offers (the nine entries of the side list, the filter inputs drawn
    for the selected type, and the "Generate" button once a type is
    selected), each event handled to its end before the next one: the
    selected type is none or one of the table, the
    filters that are set belong to the inputs of the selected type, the
    loading flag is off, and every endpoint requested so far begins with
    [/reports/].  Hence "Generate" on such a page never fails with
    "Invalid report type" nor with "Please select a report type" as the
    message of [fetchReport]. *)
Theorem X20_what_the_page_can_reach (events : list PageEvent) (p : Page) :
  session events initialPage = Some p →
  (selectedReport p = "" ∨ selectedReport p ∈ reportTypes)
  ∧ (∀ key, is_Some (filters p !! key) → key ∈ filterInputs (selectedReport p))
  ∧ isLoading p = false
  ∧ Forall (λ endpoint, ∃ rest, endpoint = "/reports/" +:+ rest) (requested p)
  ∧ (selectedReport p ≠ "" →
     fetchReport (selectedReport p) (filters p) ≠ Throws "Invalid report type").
Proof.
  intros Hrun.
  pose proof (pageInvariant_session _ _ _ pageInvariant_initial Hrun)
    as (Hsel & Hkeys & Hload & Hreq).
  do 4 (split; [done|]).
  intros Hsome Hthrows. destruct Hsel as [Hsel|Hsel]; [done|].
  pose proof (fetchReport_cases _ (filters p) Hsel) as Hcases.
  rewrite Hthrows in Hcases.
  by destruct Hcases as [(? & _)|(? & _)].
Qed.

(** The operator picks the month-wise payments, types a month, and
    generates the report. *)
Lemma X20_what_the_page_can_reach_witness :
  ∃ p, session [Select "monthwise-payments"; Fill "month" "3";
                Generate (λ _, Answered JNull)] initialPage = Some p
       ∧ requested p = ["/reports/monthwise-payments?month=3"]
       ∧ isLoading p = false.
Proof.
  eexists. split; [by vm_compute|]. split; [by vm_compute|].
  refine (proj1 (proj2 (proj2 (X20_what_the_page_can_reach
    [Select "monthwise-payments"; Fill "month" "3";
     Generate (λ _, Answered JNull)] _ _)))).
  by vm_compute.
Defined.

(** X21.  Selecting a report type of the table empties the filters, the
    report and the error.  "Generate" right after it requests nothing
    for the three types that need an id, and shows which id is missing;
    for each of the six others it requests [/reports/] followed by the
    identifier of the type, with no query string.  In particular the
    year box of the month-wise form, which shows the current year while
    no year is typed, sends no year. *)
Theorem X21_generate_right_after_selecting
    (api : string → ApiResult) (reportId thisYear : string) (p : Page) :
  reportId ∈ reportTypes →
  let s := selectReport reportId p in
  let q := handleGenerateReport api s in
  filters s = ∅ ∧ reportData s = None ∧ error s = None
  ∧ yearShown thisYear s = thisYear
  ∧ (if bool_decide (reportId ∈ ["student-current-batch"; "student-attendance"])
     then error q = Some "Student ID is required" ∧ requested q = requested p
     else if bool_decide (reportId = "batch-attendance")
     then error q = Some "Batch ID is required" ∧ requested q = requested p
     else requested q = (requested p ++ ["/reports/" +:+ reportId])%list).
Proof.
  intros Hin. cbn zeta. do 4 (split; [done|]).
  apply in_reportTypes in Hin.
  destruct Hin as [->|[->|[->|[->|[->|[->|[->|[->| ->]]]]]]]].
  all: repeat match goal with
       | |- context [bool_decide ?P] =>
           let b := eval vm_compute in (bool_decide P) in
           change (bool_decide P) with b
       end; cbn iota.
  all: unfold handleGenerateReport; cbn [selectReport selectedReport filters].
  all: match goal with
       | |- context [truthy_string ?s] => change (truthy_string s) with true
       end; cbn [negb]; this_case.
  all: try change (has ∅ "studentId") with false.
  all: try change (has ∅ "batchId") with false.
  all: try change (has ∅ "facultyId") with false.
  all: try change (has ∅ "from") with false.
  all: try change (has ∅ "to") with false.
  all: try change (has ∅ "month") with false.
  all: try change (has ∅ "year") with false.
  all: cbn [negb]; try done.
  all: flatten; by destruct (api _).
Qed.

Lemma X21_generate_right_after_selecting_witness :
  let s := selectReport "monthwise-payments" initialPage in
  yearShown "2026" s = "2026"
  ∧ requested (handleGenerateReport (λ _, Answered JNull) s)
    = ["/reports/monthwise-payments"].
Proof.
  cbn zeta.
  assert (Hin : "monthwise-payments" ∈ reportTypes).
  { apply in_reportTypes. tauto. }
  pose proof (X21_generate_right_after_selecting (λ _, Answered JNull)
                "monthwise-payments" "2026" initialPage Hin) as H.
  cbn zeta in H. destruct H as (_ & _ & _ & Hyear & Hreq).
  split; [exact Hyear|]. exact Hreq.
Defined.

(** X22.  After "Generate Report" with a report type selected,
    [renderReportData] returns [null], so that no report is drawn,
    unless the request was issued, the server answered it, and the body
    answered has a truthy [data]: a body without [data], or with a
    [data] that is [null], [false], [0] or the empty text, draws
    nothing.  In the remaining case the [return] that [renderContent]
    reaches is the one it chooses for that [data], and the page shows no
    error.  (Building the markup of that [return] can still throw on a
    field the markup reads through; that is left out here.) *)
Theorem X22_what_is_drawn_after_generate
    (api : string → ApiResult) (p : Page) :
  selectedReport p ≠ "" →
  let q := handleGenerateReport api p in
  (renderReportData q = ReturnsNull ↔
   ¬ ∃ endpoint body data,
       fetchReport (selectedReport p) (filters p) = Gets endpoint
       ∧ api endpoint = Answered body
       ∧ get body "data" = Some data ∧ truthy data = true)
  ∧ (∀ template,
       renderReportData q = Reaches template ↔
       ∃ endpoint body data,
         fetchReport (selectedReport p) (filters p) = Gets endpoint
         ∧ api endpoint = Answered body
         ∧ get body "data" = Some data ∧ truthy data = true
         ∧ renderContent data = template)
  ∧ (renderReportData q ≠ ReturnsNull → error q = None).
Proof.
  intros Hsome. cbn zeta.
  assert (Hreached : ∀ template,
    renderReportData (handleGenerateReport api p) = Reaches template ↔
    ∃ endpoint body data,
      fetchReport (selectedReport p) (filters p) = Gets endpoint
      ∧ api endpoint = Answered body
      ∧ get body "data" = Some data ∧ truthy data = true
      ∧ renderContent data = template).
  { intros template. unfold handleGenerateReport.
    apply truthy_string_true in Hsome as Htruthy. rewrite Htruthy. cbn [negb].
    destruct (fetchReport (selectedReport p) (filters p)) as [message|endpoint].
    { split; [done|]. by intros (? & ? & ? & ? & _). }
    destruct (api endpoint) as [body|serverMessage message] eqn:Hapi.
    2: { split; [done|].
         intros (e & ? & ? & [= <-] & Hans & _). by rewrite Hapi in Hans. }
    unfold renderReportData. cbn [reportData]. split.
    - intros Hdrawn.
      destruct (get body "data") as [data|] eqn:Hdata.
      2: { by rewrite andb_false_r in Hdrawn. }
      cbn [truthy_opt] in Hdrawn.
      destruct (truthy body), (truthy data) eqn:Htd; try done.
      cbn in Hdrawn. injection Hdrawn as <-. by exists endpoint, body, data.
    - intros (e & body' & data & [= <-] & Hans & Hdata & Htd & <-).
      rewrite Hapi in Hans. injection Hans as <-.
      rewrite Hdata. cbn [truthy_opt]. rewrite Htd.
      destruct body; try done. }
  split; [|split; [exact Hreached|]].
  - split.
    + intros Hnone (endpoint & body & data & Hfetch & Hapi & Hdata & Htd).
      assert (renderReportData (handleGenerateReport api p)
              = Reaches (renderContent data)) as Hdrawn.
      { apply Hreached. by exists endpoint, body, data. }
      by rewrite Hnone in Hdrawn.
    + intros Hno.
      destruct (renderReportData (handleGenerateReport api p))
        as [|template] eqn:Hdrawn; [done|].
      exfalso. apply Hno.
      destruct (proj1 (Hreached template) eq_refl)
        as (endpoint & body & data & Hfetch & Hapi & Hdata & Htd & _).
      by exists endpoint, body, data.
  - intros Hdrawn.
    destruct (renderReportData (handleGenerateReport api p))
      as [|template] eqn:Hsome'; [done|].
    destruct (proj1 (Hreached template) eq_refl)
      as (endpoint & body & data & Hfetch & Hapi & Hdata & Htd & _).
    unfold handleGenerateReport.
    apply truthy_string_true in Hsome as Htruthy. rewrite Htruthy. cbn [negb].
    by rewrite Hfetch, Hapi.
Qed.

(** An answer whose [data] is [null]: nothing is drawn. *)
Lemma X22_what_is_drawn_after_generate_witness :
  let p := selectReport "students-without-batch" initialPage in
  let api := λ _ : string, Answered (JObj [("data", JNull)]) in
  selectedReport p ≠ ""
  ∧ renderReportData (handleGenerateReport api p) = ReturnsNull.
Proof.
  cbn zeta. split; [done|].
  refine (proj2 (proj1 (X22_what_is_drawn_after_generate
    (λ _, Answered (JObj [("data", JNull)]))
    (selectReport "students-without-batch" initialPage) _)) _).
  - done.
  - intros (endpoint & body & data & _ & [= <-] & [= <-] & Htruthy).
    discriminate Htruthy.
Defined.


End ReportsExtras.

(** ** The list of batches *)

Module BatchPageFacts.

Import Js BatchesList BatchPage BatchesListFacts.

Section Today.

Variable midnight : string → number.
Variable today : Z.

(** A batch is in one category, and the category is not [All]. *)
Lemma categorizeBatch_one (batch : Batch) :
  categorizeBatch midnight today batch = [Current]
  ∨ categorizeBatch midnight today batch = [Upcoming]
  ∨ categorizeBatch midnight today batch = [Past].
Proof.
  unfold categorizeBatch.
  destruct (num_gt _ _); [tauto|]. destruct (num_lt _ _); tauto.
Qed.

Lemma inCategory_one (batch : Batch) :
  (inCategory midnight today Current batch = true
   ∧ inCategory midnight today Upcoming batch = false
   ∧ inCategory midnight today Past batch = false)
  ∨ (inCategory midnight today Current batch = false
     ∧ inCategory midnight today Upcoming batch = true
     ∧ inCategory midnight today Past batch = false)
  ∨ (inCategory midnight today Current batch = false
     ∧ inCategory midnight today Upcoming batch = false
     ∧ inCategory midnight today Past batch = true).
Proof.
  unfold inCategory.
  destruct (categorizeBatch_one batch) as [->|[->| ->]]; [left|right; left|right; right].
  all: by vm_compute.
Qed.

Lemma counts_add_up (batches : list Batch) :
  (length (List.filter (inCategory midnight today Current) batches)
   + length (List.filter (inCategory midnight today Upcoming) batches)
   + length (List.filter (inCategory midnight today Past) batches)
   = length batches)%nat.
Proof.
  induction batches as [|batch batches IH]; [done|].
  cbn [List.filter].
  destruct (inCategory_one batch) as [(-> & -> & ->)|[(-> & -> & ->)|(-> & -> & ->)]];
    cbn [length]; lia.
Qed.

Lemma tabs_permutation (batches : list Batch) :
  (List.filter (inCategory midnight today Current) batches
   ++ List.filter (inCategory midnight today Upcoming) batches
   ++ List.filter (inCategory midnight today Past) batches)%list
  ≡ₚ batches.
Proof.
  induction batches as [|batch batches IH]; [done|].
  cbn [List.filter].
  destruct (inCategory_one batch) as [(-> & -> & ->)|[(-> & -> & ->)|(-> & -> & ->)]].
  - cbn. by f_equiv.
  - cbn [app]. rewrite <- Permutation_middle. by f_equiv.
  - rewrite app_assoc, <- Permutation_middle, <- app_assoc. by f_equiv.
Qed.

Lemma badge_category (tab : BatchCategory) (batch : Batch) :
  tab ≠ All →
  inCategory midnight today tab batch = true ↔
  getBatchStatusBadge midnight today batch = badgeOf tab.
Proof.
  intros Htab. unfold getBatchStatusBadge.
  destruct (inCategory_one batch) as [(Hc & Hu & Hp)|[(Hc & Hu & Hp)|(Hc & Hu & Hp)]];
    rewrite Hc, ?Hu; destruct tab; cbn [badgeOf]; rewrite ?Hc, ?Hu, ?Hp; done.
Qed.

End Today.

Lemma head_split_on (sep c : ascii) (rest : string) :
  default "" (head (split_on sep (String c rest)))
  = if decide (c = sep) then ""
    else String c (default "" (head (split_on sep rest))).
Proof.
  cbn [split_on]. destruct (decide (c = sep)); [done|].
  by destruct (split_on sep rest).
Qed.


Lemma dateOnly_no_T (date before after : string) :
  dateOnly date ≠ before +:+ String "T" after.
Proof.
  unfold dateOnly. revert before.
  induction date as [|c date IH]; intros before.
  - by destruct before.
  - rewrite head_split_on. destruct (decide (c = "T"%char)) as [->|Hc].
    + by destruct before.
    + destruct before as [|b before].
      * rewrite JsonTextFacts.append_nil. by intros [= ->].
      * rewrite JsonTextFacts.append_cons. intros [= _ Heq]. by eapply IH.
Qed.

Lemma dateOnly_timestamp (day time : string) :
  (∀ before after, day ≠ before +:+ String "T" after) →
  dateOnly (day +:+ String "T" time) = day.
Proof.
  unfold dateOnly. induction day as [|c day IH]; intros Hno.
  - done.
  - rewrite JsonTextFacts.append_cons, head_split_on.
    destruct (decide (c = "T"%char)) as [->|Hc].
    + by destruct (Hno "" day).
    + f_equal. apply IH. intros before after ->.
      by destruct (Hno (String c before) after).
Qed.

Lemma formatSlot_editor (slot : ScheduleEditor.TimeSlot) :
  formatSlot (slotJson slot)
  = Some (if truthy_string (ScheduleEditor.startTime slot)
             && truthy_string (ScheduleEditor.endTime slot)
          then Some (ScheduleEditor.startTime slot +:+ " - "
                     +:+ ScheduleEditor.endTime slot
                     +:+ summaryDuration (ScheduleEditor.durationMinutes slot))
          else None).
Proof.
  unfold formatSlot.
  rewrite get_startTime, get_endTime, get_durationMinutes.
  change (slotJson slot) with (JObj
    [ ("id", JStr (ScheduleEditor.id slot));
      ("startTime", JStr (ScheduleEditor.startTime slot));
      ("endTime", JStr (ScheduleEditor.endTime slot));
      ("durationMinutes", numberJson (ScheduleEditor.durationMinutes slot)) ]).
  cbn beta iota. cbn [truthy_opt truthy].
  destruct (truthy_string (ScheduleEditor.startTime slot)
            && truthy_string (ScheduleEditor.endTime slot)); [|done].
  destruct (ScheduleEditor.durationMinutes slot) as [z|]; cbn; [|done].
  by destruct (z =? 0).
Qed.

Lemma slotCard_editor (slot : ScheduleEditor.TimeSlot) :
  slotCard (slotJson slot)
  = Some (if truthy_string (ScheduleEditor.startTime slot)
             && truthy_string (ScheduleEditor.endTime slot)
          then TimeRange (ScheduleEditor.startTime slot +:+ " - "
                          +:+ ScheduleEditor.endTime slot)
                 match ScheduleEditor.durationMinutes slot with
                 | Int z =>
                     if (0 <? z)%Z
                     then Some ("(" +:+ pretty (z / 60) +:+ "h "
                                +:+ pretty (Z.rem z 60) +:+ "m)")
                     else None
                 | NaN => None
                 end
          else NotConfigured).
Proof.
  unfold slotCard.
  rewrite get_startTime, get_endTime, get_durationMinutes.
  change (slotJson slot) with (JObj
    [ ("id", JStr (ScheduleEditor.id slot));
      ("startTime", JStr (ScheduleEditor.startTime slot));
      ("endTime", JStr (ScheduleEditor.endTime slot));
      ("durationMinutes", numberJson (ScheduleEditor.durationMinutes slot)) ]).
  cbn beta iota. cbn [truthy_opt truthy].
  destruct (truthy_string (ScheduleEditor.startTime slot)
            && truthy_string (ScheduleEditor.endTime slot)); [|done].
  by destruct (ScheduleEditor.durationMinutes slot) as [z|].
Qed.

End BatchPageFacts.

Module BatchPageExtras.

Import Js BatchesList BatchPage BatchesListFacts BatchPageFacts.

(** X24.  Whatever the dates of a batch, it falls in exactly one of the
    categories current, upcoming and past.  So the three tabs split the
    batches: their counts add up to the count of the "All" tab, and
    their lists together are the batches, each once; the "All" tab
    shows every batch, and every other tab shows a part of them in
    their order. *)
Theorem X24_tabs_split_the_batches
    (midnight : string → number) (today : Z) (batches : list Batch) :
  (∀ batch, ∃ category,
     categorizeBatch midnight today batch = [category] ∧ category ≠ All)
  ∧ (counts midnight today Current batches
     + counts midnight today Upcoming batches
     + counts midnight today Past batches
     = counts midnight today All batches)%nat
  ∧ (filterBatches midnight today Current batches
     ++ filterBatches midnight today Upcoming batches
     ++ filterBatches midnight today Past batches)%list ≡ₚ batches
  ∧ filterBatches midnight today All batches = batches
  ∧ (∀ tab, filterBatches midnight today tab batches `sublist_of` batches)
  ∧ (∀ tab, length (filterBatches midnight today tab batches)
            = counts midnight today tab batches).
Proof.
  split; [|split; [|split; [|split; [|split]]]].
  - intros batch.
    destruct (categorizeBatch_one midnight today batch) as [->|[->| ->]];
      by eexists.
  - apply counts_add_up.
  - apply tabs_permutation.
  - done.
  - intros tab. unfold filterBatches.
    destruct (decide (tab = All)); [done|].
    induction batches as [|batch batches IH]; [done|].
    cbn [List.filter]. destruct (inCategory _ _ _ _).
    + by apply sublist_skip.
    + by apply sublist_cons.
  - intros tab. unfold filterBatches, counts.
    by destruct tab.
Qed.

(** X25.  The badge of a batch names the tab that shows it: a batch is
    on the tab of a category exactly when its badge reads that
    category, although the badge asks for "current" first and the
    category is decided with "upcoming" first.  A batch whose start
    lies after today is upcoming even when its end lies before today,
    and a batch whose two dates cannot be read is current. *)
Theorem X25_badge_and_tab
    (midnight : string → number) (today : Z) (batches : list Batch)
    (tab : BatchCategory) (batch : Batch) :
  tab ≠ All →
  (batch ∈ filterBatches midnight today tab batches ↔
   batch ∈ batches ∧ getBatchStatusBadge midnight today batch = badgeOf tab)
  ∧ (num_gt (midnight (startDate batch)) (Int today) = true →
     getBatchStatusBadge midnight today batch = "Upcoming")
  ∧ (midnight (startDate batch) = NaN → midnight (endDate batch) = NaN →
     getBatchStatusBadge midnight today batch = "Current").
Proof.
  intros Htab. split; [|split].
  - unfold filterBatches. rewrite decide_False by done.
    rewrite list_elem_of_In, filter_In, <- list_elem_of_In.
    by rewrite (badge_category midnight today tab batch Htab).
  - intros Hlater.
    apply (badge_category midnight today Upcoming batch); [done|].
    unfold inCategory, categorizeBatch. rewrite Hlater. by vm_compute.
  - intros Hstart Hend.
    apply (badge_category midnight today Current batch); [done|].
    unfold inCategory, categorizeBatch. rewrite Hstart, Hend. by vm_compute.
Qed.

(** Dates as day numbers; the second batch has not started, and ends
    before it starts. *)
Lemma X25_badge_and_tab_witness :
  let midnight := λ text : string,
    if decide (text = "") then NaN else Number text in
  let running := mkBatch 1 "Morning" None "online" "10" "30" 20 None None None in
  let odd := mkBatch 2 "Evening" None "online" "40" "5" 20 None None None in
  Upcoming ≠ All
  ∧ (odd ∈ filterBatches midnight 20 Upcoming [running; odd] ↔
     odd ∈ [running; odd] ∧ getBatchStatusBadge midnight 20 odd = "Upcoming").
Proof.
  cbn zeta. split; [done|].
  exact (proj1 (X25_badge_and_tab
    (λ text : string, if decide (text = "") then NaN else Number text) 20
    [mkBatch 1 "Morning" None "online" "10" "30" 20 None None None;
     mkBatch 2 "Evening" None "online" "40" "5" 20 None None None]
    Upcoming
    (mkBatch 2 "Evening" None "online" "40" "5" 20 None None None)
    ltac:(done))).
Defined.


(** X27.  Whatever [JSON.parse] is: when the schedule of the batch is a
    text, not empty, that [JSON.parse] reads as the structured schedule
    of the editor, the edit form opens on that structured schedule, and
    the days and the time slots read from the form are those the list
    shows for the batch.  The start date of a timestamp, a day followed
    by [T] and a time, opens as the day. *)
Theorem X27_edit_form_of_a_stored_batch
    (JSON_parse : string → option Json) (s : ScheduleEditor.Schedule)
    (batch : Batch) (text day time : string) :
  schedule batch = Some (JStr text) →
  text ≠ "" →
  JSON_parse text = Some (scheduleJson s) →
  startDate batch = day +:+ String "T" time →
  (∀ before after, day ≠ before +:+ String "T" after) →
  form_schedule (editFormOf JSON_parse batch) = scheduleJson s
  ∧ formatDays JSON_parse (Some (form_schedule (editFormOf JSON_parse batch)))
    = formatDays JSON_parse (schedule batch)
  ∧ formatTimeSlots JSON_parse
      (Some (form_schedule (editFormOf JSON_parse batch)))
    = formatTimeSlots JSON_parse (schedule batch)
  ∧ form_startDate (editFormOf JSON_parse batch) = day.
Proof.
  intros Hschedule Hnonempty Hparse Hstart Hday.
  assert (form_schedule (editFormOf JSON_parse batch) = scheduleJson s)
    as Hform.
  { cbn [editFormOf form_schedule]. rewrite Hschedule.
    unfold getScheduleObject. cbn [truthy parseIfString].
    unfold truthy_string. rewrite decide_False by done. cbn [negb].
    by rewrite Hparse. }
  destruct (sameReading_object JSON_parse text _ Hnonempty Hparse)
    as (Hslots & Hdays & _).
  split; [done|]. rewrite Hform, Hschedule.
  split; [done|]. split; [done|].
  cbn [editFormOf form_startDate]. rewrite Hstart.
  by apply dateOnly_timestamp.
Qed.

Lemma X27_edit_form_of_a_stored_batch_witness :
  let s := ScheduleEditor.mkSchedule ["Monday"]
             [ScheduleEditor.mkTimeSlot "slot-1" "09:00" "10:30" (Int 90)] in
  let batch := mkBatch 7 "Morning" None "online"
                 "2025-01-15T00:00:00.000Z" "2025-03-15T00:00:00.000Z" 20
                 (Some (JStr (JsonText.stringify (scheduleJson s)))) None None in
  form_schedule (editFormOf JsonText.parse batch) = scheduleJson s
  ∧ form_startDate (editFormOf JsonText.parse batch) = "2025-01-15".
Proof.
  cbn zeta.
  pose proof (X27_edit_form_of_a_stored_batch JsonText.parse
    (ScheduleEditor.mkSchedule ["Monday"]
       [ScheduleEditor.mkTimeSlot "slot-1" "09:00" "10:30" (Int 90)])
    (mkBatch 7 "Morning" None "online"
       "2025-01-15T00:00:00.000Z" "2025-03-15T00:00:00.000Z" 20
       (Some (JStr (JsonText.stringify (scheduleJson
          (ScheduleEditor.mkSchedule ["Monday"]
             [ScheduleEditor.mkTimeSlot "slot-1" "09:00" "10:30" (Int 90)])))))
       None None)
    (JsonText.stringify (scheduleJson
       (ScheduleEditor.mkSchedule ["Monday"]
          [ScheduleEditor.mkTimeSlot "slot-1" "09:00" "10:30" (Int 90)])))
    "2025-01-15" "00:00:00.000Z") as H.
  destruct H as (Hform & _ & _ & Hdate).
  - reflexivity.
  - by vm_compute.
  - by vm_compute.
  - reflexivity.
  - intros before after Heq.
    assert (Hfree : dateOnly "2025-01-15" = "2025-01-15") by reflexivity.
    rewrite Heq in Hfree at 1. rewrite Heq in Hfree.
    by apply dateOnly_no_T in Hfree.
  - split; [exact Hform|exact Hdate].
Defined.

(** X28.  For a slot stored by the editor, the summary line and the
    card of the details show the same (nothing for a slot without its
    two times, else the same times and the same duration) unless the
    duration is negative: then the summary prints it and the card
    leaves it out.  A slot without a start or an end time is left out of
    the summary and its card reads "Not configured". *)
Theorem X28_summary_and_card (slot : ScheduleEditor.TimeSlot) :
  ∃ summary card,
    formatSlot (slotJson slot) = Some summary
    ∧ slotCard (slotJson slot) = Some card
    ∧ (card = NotConfigured ↔ summary = None)
    ∧ (summary = None ↔
       ScheduleEditor.startTime slot = "" ∨ ScheduleEditor.endTime slot = "")
    ∧ (sameSlot summary card ↔
       ¬ ∃ z, ScheduleEditor.durationMinutes slot = Int z ∧ z < 0
              ∧ ScheduleEditor.startTime slot ≠ ""
              ∧ ScheduleEditor.endTime slot ≠ "").
Proof.
  rewrite formatSlot_editor, slotCard_editor.
  eexists _, _. split; [done|]. split; [done|].
  unfold truthy_string.
  destruct (decide (ScheduleEditor.startTime slot = "")) as [Hs|Hs].
  { cbn. split; [done|]. split; [tauto|]. split; [|done].
    by intros _ (z & _ & _ & ? & _). }
  destruct (decide (ScheduleEditor.endTime slot = "")) as [He|He].
  { cbn. split; [done|]. split; [tauto|]. split; [|done].
    by intros _ (z & _ & _ & _ & ?). }
  cbn [andb]. split; [done|]. split; [split; [done|tauto]|].
  destruct (ScheduleEditor.durationMinutes slot) as [z|]; cbn [summaryDuration].
  2: { cbn. rewrite JsonTextFacts.append_empty. split; [|done].
       by intros _ (z & ? & _). }
  destruct (Z.ltb_spec 0 z) as [Hpos|Hneg].
  - rewrite (proj2 (Z.eqb_neq z 0)) by lia. cbn [sameSlot].
    rewrite !JsonTextFacts.append_assoc.
    split; [|done]. intros _ (z' & [= <-] & ? & _). lia.
  - destruct (Z.eqb_spec z 0) as [->|Hnz]; cbn [sameSlot].
    + rewrite JsonTextFacts.append_empty. split; [|done].
      intros _ (z' & [= <-] & ? & _). lia.
    + split.
      * intros Heq. exfalso.
        apply (f_equal String.length) in Heq.
        rewrite !JsonTextFacts.length_append in Heq.
        cbn [String.length] in Heq. lia.
      * intros Hno. exfalso. apply Hno. exists z. repeat split; [lia|done..].
Qed.

(** X29.  The summary of the time slots is never blank: it is a text
    with a letter or a digit at least, "Not specified" when nothing else
    is to be shown, as for a schedule of the editor none of whose slots
    has its two times.  The summary of the days is blank for a schedule
    without a day. *)
Theorem X29_blank_summaries (JSON_parse : string → option Json) :
  (∀ schedule text,
     formatTimeSlots JSON_parse schedule = Some text → text ≠ "")
  ∧ (∀ s, Forall (λ slot, ScheduleEditor.startTime slot = ""
                          ∨ ScheduleEditor.endTime slot = "")
                 (ScheduleEditor.timeSlots s) →
          formatTimeSlots JSON_parse (Some (scheduleJson s))
          = Some "Not specified")
  ∧ (∀ s, ScheduleEditor.days s = [] →
          formatDays JSON_parse (Some (scheduleJson s)) = Some "").
Proof.
  split; [|split].
  - intros schedule text. unfold formatTimeSlots.
    destruct schedule as [given|]; [|by intros [= <-]].
    destruct (negb (truthy given)); [by intros [= <-]|].
    destruct (parseIfString JSON_parse given) as [object|]; [|by intros [= <-]].
    destruct (_ || _); [by intros [= <-]|].
    destruct (get object "timeSlots") as [[| | | |slots|]|];
      try by intros [= <-].
    destruct (mapM formatSlot slots) as [texts|]; [|done].
    cbn. unfold truthy_string at 1.
    destruct (decide (String.concat ", " (keepTruthy texts) = ""));
      by intros [= <-].
  - intros s Hslots. unfold formatTimeSlots.
    assert (parseIfString JSON_parse (scheduleJson s) = Some (scheduleJson s))
      as -> by reflexivity.
    rewrite get_timeSlots. cbn [negb truthy_opt truthy isArray orb].
    assert (mapM formatSlot (map slotJson (ScheduleEditor.timeSlots s))
            = Some (map (λ _, None) (ScheduleEditor.timeSlots s))) as ->.
    { induction Hslots as [|slot slots Hslot _ IH]; [done|].
      change ((t ← formatSlot (slotJson slot);
               ts ← mapM formatSlot (map slotJson slots);
               Some (t :: ts))
              = Some (None :: map (λ _, None) slots)).
      rewrite formatSlot_editor, IH. cbn. unfold truthy_string.
      destruct Hslot as [-> | ->]; [done|].
      by rewrite andb_false_r. }
    cbn.
    assert (keepTruthy (map (λ _ : ScheduleEditor.TimeSlot, None)
                            (ScheduleEditor.timeSlots s)) = []) as ->.
    { clear Hslots. by induction (ScheduleEditor.timeSlots s). }
    done.
  - intros s Hdays. by rewrite formatDays_schedule, Hdays.
Qed.

End BatchPageExtras.

(** ** The embedding on concrete inputs *)

Module Examples.

Import Js.

Example split_colon_time : split_colon "09:30" = ["09"; "30"].
Proof. reflexivity. Qed.

Example split_colon_no_colon : split_colon "0930" = ["0930"].
Proof. reflexivity. Qed.

Example Number_leading_zero : Number "09" = Int 9.
Proof. reflexivity. Qed.

Example Number_letters : Number "ab" = NaN.
Proof. reflexivity. Qed.

Example calculateDuration_empty_end :
  ScheduleEditor.calculateDuration "09:00" "" = Int 0.
Proof. reflexivity. Qed.

Example calculateDuration_no_minutes :
  ScheduleEditor.calculateDuration "9" "10:00" = NaN.
Proof. reflexivity. Qed.

(** A new slot: the start time alone computes nothing, the end time
    then computes the duration. *)
Example editor_session :
  ScheduleEditor.acts
    [ ScheduleEditor.DayChange "Monday" true;
      ScheduleEditor.AddTimeSlot "slot-1";
      ScheduleEditor.TimeChange 0 ScheduleEditor.FStartTime "09:00";
      ScheduleEditor.TimeChange 0 ScheduleEditor.FEndTime "11:30" ]
    (ScheduleEditor.mkSchedule [] [])
  = Some (ScheduleEditor.mkSchedule ["Monday"]
            [ScheduleEditor.mkTimeSlot "slot-1" "09:00" "11:30" (Int 150)]).
Proof. reflexivity. Qed.

Example roster_only_all_absent :
  Attendance.initAttendances None
    (Some [Attendance.mkEnrollment 10 1; Attendance.mkEnrollment 11 2]) ∅
  = {[ 1 := Attendance.ABSENT; 2 := Attendance.ABSENT ]}.
Proof. reflexivity. Qed.

Example student_attendance_range :
  Reports.fetchReport "student-attendance"
    {[ "studentId" := "7"; "to" := "2025-01-31" ]}
  = Reports.Gets "/reports/student/7/attendance?to=2025-01-31".
Proof. by vm_compute. Qed.

Example batches_by_faculty_range :
  Reports.fetchReport "batches-by-faculty"
    {[ "from" := "2025-01-01"; "to" := "2025-01-31" ]}
  = Reports.Gets "/reports/batches-by-faculty?from=2025-01-01&to=2025-01-31".
Proof. by vm_compute. Qed.

Example render_students :
  Reports.renderContent (JObj [("students", JArr []); ("totalCount", JNum 0)])
  = Reports.StudentsWithoutBatch.
Proof. reflexivity. Qed.

Example render_student_attendance :
  Reports.renderContent
    (JObj [("student", JObj [("id", JNum 7)]); ("attendances", JArr [])])
  = Reports.StudentAttendance.
Proof. reflexivity. Qed.

Example render_unknown :
  Reports.renderContent (JObj [("message", JStr "ok")]) = Reports.RawJson.
Proof. reflexivity. Qed.

Example stringify_slot :
  JsonText.parse
    (JsonText.stringify
       (BatchesList.slotJson
          (ScheduleEditor.mkTimeSlot "slot-1" "09:00" "11:30" (Int 150))))
  = Some (JObj [ ("id", JStr "slot-1"); ("startTime", JStr "09:00");
                 ("endTime", JStr "11:30"); ("durationMinutes", JNum 150) ]).
Proof. by vm_compute. Qed.

Example parse_blanks : JsonText.parse " [ 1 , -20 , true , null ] "
                       = Some (JArr [JNum 1; JNum (-20); JBool true; JNull]).
Proof. by vm_compute. Qed.

Example parse_rejects :
  JsonText.parse "{oops" = None ∧ JsonText.parse "[1,]" = None
  ∧ JsonText.parse "" = None ∧ JsonText.parse "[] []" = None.
Proof. by vm_compute. Qed.

Example formatTimeSlots_negative_duration :
  BatchesList.formatTimeSlots JsonText.parse
    (Some (JObj [("timeSlots",
                  JArr [JObj [ ("startTime", JStr "10:00");
                               ("endTime", JStr "09:00");
                               ("durationMinutes", JNum (-90)) ]])]))
  = Some "10:00 - 09:00 (-2h -30m)".
Proof. by vm_compute. Qed.

Example formatDays_not_an_array :
  BatchesList.formatDays JsonText.parse (Some (JObj [("days", JStr "Monday")]))
  = Some "Not specified".
Proof. reflexivity. Qed.

End Examples.
